(** * Hotel reservation system: a shallow embedding of [Hotel_reservations.py]

    The program keeps three JSON files (hotels, customers, reservations) and
    runs every operation as a load / mutate / save cycle over them.  The
    embedding follows the source function by function:

    - [Py]    the Python values the program stores ([int], [str], [dict]) and
              the dictionary primitives it uses on them;
    - [Json]  the [json] module as the program calls it: the encoder of
              [json.dump(data, file, indent=4)] and the decoder of
              [json.load(file)];
    - [Utf8]  the codec of [open(path, mode, encoding='utf-8')];
    - [world] the file system and an ordered trace of effects, and [py], the
              monad of effectful Python code (state, exceptions);
    - [load_data], [save_data], [Hotel], [Customer], [Reservation]: the
              program.

    Modelling choices, stated once:
    - a Python [int] is a [Z]; a Python [str] is a [string] whose characters
      are the code points U+0000..U+00FF; a Python [dict] is an association
      list in insertion order with [str] keys;
    - [uuid.uuid4()] is random: every creating operation takes the identifier
      that the call to [uuid4] produced as its first argument;
    - a file is its bytes; directories and permissions are left out;
    - the limits of the interpreter, 4300 digits to an [int] that is printed
      or read and the depth of its stack, are left out of [Json]: a save is
      one write that returns.  They are stated apart, as [printable], and
      the theorems in which an integer or a value of the caller's reaches
      [json.dump], or that follow a run of calls, assume that the values
      stay within them;
    - where the model does not follow Python (floats, arrays, [null], code
      points above U+00FF in a file, indexing a [str]) a run ends in
      [Unmodelled], about which nothing is claimed.

    The definitions come first; the facts about them and then the claims of
    the specification, C1 to C10, follow, and after them further properties
    of the code, X1 to X24. *)

From Stdlib Require Import ZArith String Ascii List.
From Stdlib Require Import Decimal DecimalFacts DecimalPos DecimalZ DecimalString.
From stdpp Require Import gmap strings list.

Set Warnings "-register-all".
Local Open Scope Z_scope.

(** ** Python values *)

Module Py.

Inductive pyval : Type :=
| PInt (z : Z)
| PStr (s : string)
| PDict (items : list (string * pyval)).

(** Exceptions the program can meet. *)
Inductive exn : Type :=
| FileNotFoundError
| UnicodeDecodeError
| JSONDecodeError
| KeyError
| TypeError.

#[global] Instance exn_eq_dec : EqDecision exn.
Proof. solve_decision. Defined.

(** [d.get(k)] on the items of a dictionary. *)
Fixpoint dict_get (k : string) (d : list (string * pyval)) : option pyval :=
  match d with
  | [] => None
  | (k', v) :: d' => if String.eqb k k' then Some v else dict_get k d'
  end.

(** [d[k] = v]: an existing key keeps its position, a new key goes last. *)
Fixpoint dict_set (k : string) (v : pyval) (d : list (string * pyval))
  : list (string * pyval) :=
  match d with
  | [] => [(k, v)]
  | (k', v') :: d' =>
      if String.eqb k k' then (k, v) :: d' else (k', v') :: dict_set k v d'
  end.

(** [del d[k]] for a key that is present (no effect on an absent one). *)
Fixpoint dict_del (k : string) (d : list (string * pyval))
  : list (string * pyval) :=
  match d with
  | [] => []
  | (k', v') :: d' =>
      if String.eqb k k' then d' else (k', v') :: dict_del k d'
  end.

Definition dict_mem (k : string) (d : list (string * pyval)) : bool :=
  match dict_get k d with Some _ => true | None => false end.

(** [dict(pairs)]: later pairs overwrite earlier ones. *)
Definition dict_of_pairs (pairs : list (string * pyval))
  : list (string * pyval) :=
  fold_left (fun d kv => dict_set (fst kv) (snd kv) d) pairs [].

(** A Python dictionary never holds a key twice, at any depth. *)
Fixpoint wf (v : pyval) : Prop :=
  match v with
  | PInt _ | PStr _ => True
  | PDict items =>
      NoDup (map fst items) /\
      (fix wf_items (l : list (string * pyval)) : Prop :=
         match l with
         | [] => True
         | (_, x) :: l' => wf x /\ wf_items l'
         end) items
  end.

Definition wf_items (l : list (string * pyval)) : Prop :=
  (fix wf_items (l : list (string * pyval)) : Prop :=
     match l with
     | [] => True
     | (_, x) :: l' => wf x /\ wf_items l'
     end) l.

End Py.
Export Py.

(** ** The [json] module *)

Module Json.

Definition DQUOTE : ascii := "034"%char.
Definition LF : ascii := "010"%char.

Definition hex_digit (n : N) : ascii :=
  match n with
  | 0 => "0" | 1 => "1" | 2 => "2" | 3 => "3" | 4 => "4" | 5 => "5"
  | 6 => "6" | 7 => "7" | 8 => "8" | 9 => "9" | 10 => "a" | 11 => "b"
  | 12 => "c" | 13 => "d" | 14 => "e" | _ => "f"
  end%N%char.

(** One character under [ESCAPE_ASCII] / [ESCAPE_DCT] of [json.encoder]:
    the backslash and the quote get a backslash, the five control characters
    named in [ESCAPE_DCT] get their letter, every other character outside
    [' ' .. '~'] becomes [\u00xx] in lower-case hexadecimal. *)
Definition escape_char (c : ascii) : string :=
  let n := N_of_ascii c in
  if (n =? 92)%N then "\\"
  else if (n =? 34)%N then String "\" (String DQUOTE "")
  else if (n =? 8)%N then "\b"
  else if (n =? 12)%N then "\f"
  else if (n =? 10)%N then "\n"
  else if (n =? 13)%N then "\r"
  else if (n =? 9)%N then "\t"
  else if ((32 <=? n) && (n <=? 126))%N then String c ""
  else "\u00" +:+ String (hex_digit (n / 16)) (String (hex_digit (n mod 16)) "").

Fixpoint escape (s : string) : string :=
  match s with
  | EmptyString => ""
  | String c s' => escape_char c +:+ escape s'
  end.

(** [encode_basestring_ascii]. *)
Definition encode_basestring_ascii (s : string) : string :=
  String DQUOTE (escape s) +:+ String DQUOTE "".

(** [int.__repr__], for the integers that it prints: those of at most 4300
    digits, see [int_limit] below. *)
Definition repr_int (z : Z) : string := NilZero.string_of_int (Z.to_int z).

Fixpoint spaces (n : nat) : string :=
  match n with O => "" | S n' => String " " (spaces n') end.

(** ['\n' + _indent * _current_indent_level] with [indent=4]. *)
Definition newline_indent (level : nat) : string :=
  String LF (spaces (4 * level)).

(** [_iterencode] of [json.encoder] with [indent=4], joined: the item
    separator is [","] followed by the newline and the indentation, the key
    separator is [": "], an empty dictionary is ["{}"]. *)
Fixpoint iterencode (level : nat) (v : pyval) : string :=
  match v with
  | PInt z => repr_int z
  | PStr s => encode_basestring_ascii s
  | PDict [] => "{}"
  | PDict ((k, x) :: items) =>
      "{" +:+ newline_indent (S level)
      +:+ encode_basestring_ascii k +:+ ": " +:+ iterencode (S level) x
      +:+ (fix more (l : list (string * pyval)) : string :=
             match l with
             | [] => newline_indent level +:+ "}"
             | (k', x') :: l' =>
                 "," +:+ newline_indent (S level)
                 +:+ encode_basestring_ascii k' +:+ ": "
                 +:+ iterencode (S level) x' +:+ more l'
             end) items
  end.

(** [json.dumps(v, indent=4)]. *)
Definition dumps (v : pyval) : string := iterencode 0 v.

(** *** The decoder

    A scan ends in a value and the text after it, in [Malformed] where
    [json] raises [JSONDecodeError], or in [Outside] where the document
    leaves the values of the model (arrays, floats, [null], [true],
    [false], [NaN], [Infinity], code points above U+00FF): [json] may accept
    or reject such a document, the model does not say which. *)
Inductive scan (A : Type) : Type :=
| Scanned (a : A) (rest : string)
| Malformed
| Outside.
Arguments Scanned {A} a rest.
Arguments Malformed {A}.
Arguments Outside {A}.

Definition scan_map {A B : Type} (f : A -> B) (r : scan A) : scan B :=
  match r with
  | Scanned a rest => Scanned (f a) rest
  | Malformed => Malformed
  | Outside => Outside
  end.

(** [WHITESPACE = re.compile(r'[ \t\n\r]*')]. *)
Definition is_ws (c : ascii) : bool :=
  let n := N_of_ascii c in
  ((n =? 32) || (n =? 9) || (n =? 10) || (n =? 13))%N.

Fixpoint skip_ws (s : string) : string :=
  match s with
  | String c s' => if is_ws c then skip_ws s' else s
  | EmptyString => s
  end.

Definition is_digit (c : ascii) : bool :=
  let n := N_of_ascii c in ((48 <=? n) && (n <=? 57))%N.

Definition hex_value (c : ascii) : option N :=
  let n := N_of_ascii c in
  if ((48 <=? n) && (n <=? 57))%N then Some (n - 48)%N
  else if ((97 <=? n) && (n <=? 102))%N then Some (n - 87)%N
  else if ((65 <=? n) && (n <=? 70))%N then Some (n - 55)%N
  else None.

Definition hex4 (h1 h2 h3 h4 : ascii) : option N :=
  match hex_value h1, hex_value h2, hex_value h3, hex_value h4 with
  | Some a, Some b, Some c, Some d => Some (((a * 16 + b) * 16 + c) * 16 + d)%N
  | _, _, _, _ => None
  end.

(** The [BACKSLASH] table of [json.decoder]. *)
Definition backslash (c : ascii) : option ascii :=
  let n := N_of_ascii c in
  if (n =? 34)%N then Some DQUOTE
  else if (n =? 92)%N then Some "\"%char
  else if (n =? 47)%N then Some "/"%char
  else if (n =? 98)%N then Some "008"%char
  else if (n =? 102)%N then Some "012"%char
  else if (n =? 110)%N then Some "010"%char
  else if (n =? 114)%N then Some "013"%char
  else if (n =? 116)%N then Some "009"%char
  else None.

(** [scanstring(s, end, strict=True)], from the character after the opening
    quote: a raw control character, an unknown escape, a bad [\uXXXX] and a
    missing closing quote are errors. *)
Fixpoint scanstring (s : string) : scan string :=
  match s with
  | EmptyString => Malformed
  | String c rest =>
      let n := N_of_ascii c in
      if (n =? 34)%N then Scanned "" rest
      else if (n =? 92)%N then
        match rest with
        | EmptyString => Malformed
        | String e rest1 =>
            match backslash e with
            | Some ch => scan_map (String ch) (scanstring rest1)
            | None =>
                if (N_of_ascii e =? 117)%N then
                  match rest1 with
                  | String h1 (String h2 (String h3 (String h4 rest2))) =>
                      match hex4 h1 h2 h3 h4 with
                      | Some u =>
                          if (u <=? 255)%N
                          then scan_map (String (ascii_of_N u)) (scanstring rest2)
                          else Outside
                      | None => Malformed
                      end
                  | _ => Malformed
                  end
                else Malformed
            end
        end
      else if (n <? 32)%N then Malformed
      else if (128 <=? n)%N then Outside
      else scan_map (String c) (scanstring rest)
  end.

(** The longest run of decimal digits at the head of [s]. *)
Fixpoint span_digits (s : string) : string * string :=
  match s with
  | String c s' =>
      if is_digit c
      then let '(ds, rest) := span_digits s' in (String c ds, rest)
      else (EmptyString, s)
  | EmptyString => (EmptyString, EmptyString)
  end.

(** The integer part of [NUMBER_RE], an optional minus sign and then either
    a single zero or a non-zero digit with any digits after it; [s] is the
    text after the sign.  A fraction or an exponent would make a [float].
    [int(text)] gives the integer when it has at most 4300 digits, see
    [int_limit] below. *)
Definition scan_int (negative : bool) (s : string) : scan pyval :=
  match s with
  | EmptyString => Malformed
  | String c s' =>
      if negb (is_digit c) then
        if negative && (N_of_ascii c =? 73)%N then Outside else Malformed
      else
        let '(ds, rest) :=
          if (N_of_ascii c =? 48)%N then ("0", s') else span_digits s in
        let float_follows :=
          match rest with
          | String d _ =>
              let n := N_of_ascii d in ((n =? 46) || (n =? 101) || (n =? 69))%N
          | EmptyString => false
          end in
        if float_follows then Outside
        else
          match NilEmpty.uint_of_string ds with
          | Some u => Scanned (PInt (if negative then - Z.of_uint u else Z.of_uint u)) rest
          | None => Outside
          end
  end.

(** [scan_once] of [json.scanner] and the loop of [JSONObject], which call
    each other; [fuel] bounds the number of calls. *)
Fixpoint scan_once (fuel : nat) (s : string) : scan pyval :=
  match fuel with
  | O => Outside
  | S fuel' =>
      match s with
      | EmptyString => Malformed
      | String c rest =>
          let n := N_of_ascii c in
          if (n =? 34)%N then scan_map PStr (scanstring rest)
          else if (n =? 123)%N then
            match skip_ws rest with
            | EmptyString => Malformed
            | String c1 rest1 =>
                if (N_of_ascii c1 =? 125)%N then Scanned (PDict []) rest1
                else if (N_of_ascii c1 =? 34)%N then
                  scan_map (fun pairs => PDict (dict_of_pairs pairs))
                           (JSONObject_pairs fuel' rest1)
                else Malformed
            end
          else if (n =? 45)%N then scan_int true rest
          else if is_digit c then scan_int false s
          else if ((n =? 91) || (n =? 110) || (n =? 116) || (n =? 102)
                   || (n =? 78) || (n =? 73))%N then Outside
          else Malformed
      end
  end
with JSONObject_pairs (fuel : nat) (s : string) : scan (list (string * pyval)) :=
  match fuel with
  | O => Outside
  | S fuel' =>
      match scanstring s with
      | Malformed => Malformed
      | Outside => Outside
      | Scanned key r =>
          match skip_ws r with
          | EmptyString => Malformed
          | String c r1 =>
              if negb (N_of_ascii c =? 58)%N then Malformed
              else
                match scan_once fuel' (skip_ws r1) with
                | Malformed => Malformed
                | Outside => Outside
                | Scanned value r2 =>
                    match skip_ws r2 with
                    | EmptyString => Malformed
                    | String c2 r3 =>
                        if (N_of_ascii c2 =? 125)%N then Scanned [(key, value)] r3
                        else if (N_of_ascii c2 =? 44)%N then
                          match skip_ws r3 with
                          | EmptyString => Malformed
                          | String c3 r4 =>
                              if (N_of_ascii c3 =? 34)%N
                              then scan_map (cons (key, value)) (JSONObject_pairs fuel' r4)
                              else Malformed
                          end
                        else Malformed
                    end
                end
          end
      end
  end.

(** What [json.loads] does with a text. *)
Inductive decoded : Type :=
| Decoded (v : pyval)
| Rejected        (* raises JSONDecodeError *)
| NotModelled.

(** [JSONDecoder.decode]: white space, one value, white space, end. *)
Definition loads (s : string) : decoded :=
  let s0 := skip_ws s in
  match scan_once (S (String.length s0)) s0 with
  | Scanned v rest =>
      match skip_ws rest with
      | EmptyString => Decoded v
      | String _ _ => Rejected
      end
  | Malformed => Rejected
  | Outside => NotModelled
  end.

Definition ends_number (rest : string) : bool :=
  match rest with
  | String c _ =>
      let n := N_of_ascii c in
      negb (is_digit c || (n =? 46) || (n =? 101) || (n =? 69))%N
  | EmptyString => true
  end.

Definition more_items (level : nat) (items : list (string * pyval)) : string :=
  (fix more (l : list (string * pyval)) : string :=
     match l with
     | [] => newline_indent level +:+ "}"
     | (k', x') :: l' =>
         "," +:+ newline_indent (S level)
         +:+ encode_basestring_ascii k' +:+ ": "
         +:+ iterencode (S level) x' +:+ more l'
     end) items.

Fixpoint weight (v : pyval) : nat :=
  match v with
  | PDict items =>
      S ((fix go (l : list (string * pyval)) : nat :=
            match l with
            | [] => O
            | (_, x) :: l' => S (S (weight x + go l'))
            end) items)
  | _ => O
  end%nat.

Definition weight_items (items : list (string * pyval)) : nat :=
  (fix go (l : list (string * pyval)) : nat :=
     match l with
     | [] => O
     | (_, x) :: l' => S (S (weight x + go l'))
     end%nat) items.

End Json.

(** ** The UTF-8 codec of [open(..., encoding='utf-8')] *)

Module Utf8.

Definition in_range (c : ascii) (lo hi : N) : bool :=
  let n := N_of_ascii c in ((lo <=? n) && (n <=? hi))%N.

(** Well-formed UTF-8 as Python's strict decoder accepts it (no overlong
    forms, no surrogates, nothing above U+10FFFF). *)
Fixpoint valid (b : string) : bool :=
  match b with
  | EmptyString => true
  | String c0 r0 =>
      let n0 := N_of_ascii c0 in
      if (n0 <? 128)%N then valid r0
      else if (n0 <? 194)%N then false
      else if (n0 <? 224)%N then
        match r0 with
        | String c1 r1 => in_range c1 128 191 && valid r1
        | _ => false
        end
      else if (n0 <? 240)%N then
        match r0 with
        | String c1 (String c2 r2) =>
            in_range c1 (if (n0 =? 224)%N then 160 else 128)
                        (if (n0 =? 237)%N then 159 else 191)
            && in_range c2 128 191 && valid r2
        | _ => false
        end
      else if (n0 <? 245)%N then
        match r0 with
        | String c1 (String c2 (String c3 r3)) =>
            in_range c1 (if (n0 =? 240)%N then 144 else 128)
                        (if (n0 =? 244)%N then 143 else 191)
            && in_range c2 128 191 && in_range c3 128 191 && valid r3
        | _ => false
        end
      else false
  end.

Fixpoint is_ascii (b : string) : bool :=
  match b with
  | EmptyString => true
  | String c r => (N_of_ascii c <? 128)%N && is_ascii r
  end.

(** Reading a text file: the text when the bytes are ASCII, [Undecodable] where
    the decoder raises [UnicodeDecodeError], [Wide] for well-formed bytes
    beyond ASCII, which the model does not follow. *)
Inductive read : Type :=
| Text (s : string)
| Undecodable
| Wide.

Definition decode (b : string) : read :=
  if negb (valid b) then Undecodable
  else if is_ascii b then Text b
  else Wide.

(** Writing a text: a code point below U+0080 is one byte, one in
    U+0080..U+00FF is two. *)
Fixpoint encode (s : string) : string :=
  match s with
  | EmptyString => EmptyString
  | String c r =>
      let n := N_of_ascii c in
      if (n <? 128)%N then String c (encode r)
      else String (ascii_of_N (192 + n / 64))
             (String (ascii_of_N (128 + n mod 64)) (encode r))
  end.

End Utf8.

(** ** The world and the monad of Python code *)

(** What a run leaves behind, in order: lines printed on standard output and
    files written. *)
Inductive event : Type :=
| Printed (line : string)
| Wrote (path : string) (content : string).

(** The file system (path to bytes, directories and permissions left out)
    and the trace of effects so far, oldest first. *)
Record world : Type := World {
  files : gmap string string;
  trace : list event
}.

(** A piece of Python code returns a value, raises an exception, or leaves
    the model; the first two come with the world they leave. *)
Inductive outcome (A : Type) : Type :=
| Return (a : A) (w : world)
| Raise (e : exn) (w : world)
| Unmodelled.
Arguments Return {A} a w.
Arguments Raise {A} e w.
Arguments Unmodelled {A}.

Definition py (A : Type) : Type := world -> outcome A.

#[global] Instance py_ret : MRet py := fun A a w => Return a w.

#[global] Instance py_bind : MBind py := fun A B f m w =>
  match m w with
  | Return a w' => f a w'
  | Raise e w' => Raise e w'
  | Unmodelled => Unmodelled
  end.

Definition raise {A : Type} (e : exn) : py A := fun w => Raise e w.

Definition unmodelled {A : Type} : py A := fun _ => Unmodelled.

(** [try: body / except (caught): handler]. *)
Definition try_except {A : Type} (body : py A) (caught : list exn)
    (handler : py A) : py A := fun w =>
  match body w with
  | Raise e w' => if bool_decide (e ∈ caught) then handler w' else Raise e w'
  | r => r
  end.

(** [print(line)]. *)
Definition print (line : string) : py unit := fun w =>
  Return tt (World (files w) (trace w ++ [Printed line])).

(** [os.path.exists(path)]. *)
Definition os_path_exists (path : string) : py bool := fun w =>
  Return (bool_decide (is_Some (files w !! path))) w.

(** [with open(path, 'r', encoding='utf-8') as file: file.read()].  Text
    mode also turns every line ending into a line feed; the JSON scanner
    takes all of them alike (white space outside a string, an error inside
    one), so the model hands it the text as the bytes spell it. *)
Definition open_read (path : string) : py string := fun w =>
  match files w !! path with
  | None => Raise FileNotFoundError w
  | Some bytes =>
      match Utf8.decode bytes with
      | Utf8.Text s => Return s w
      | Utf8.Undecodable => Raise UnicodeDecodeError w
      | Utf8.Wide => Unmodelled
      end
  end.

(** [with open(path, 'w', encoding='utf-8') as file: file.write(text)]. *)
Definition open_write (path : string) (text : string) : py unit := fun w =>
  let bytes := Utf8.encode text in
  Return tt (World (<[path := bytes]> (files w)) (trace w ++ [Wrote path bytes])).

(** [json.loads(text)]. *)
Definition json_loads (text : string) : py pyval :=
  match Json.loads text with
  | Json.Decoded v => mret v
  | Json.Rejected => raise JSONDecodeError
  | Json.NotModelled => unmodelled
  end.

(** *** Operators of Python on the values of the model *)

(** [key in container]. *)
Definition py_contains (key container : pyval) : py bool :=
  match container, key with
  | PDict d, PStr k => mret (dict_mem k d)
  | PDict _, PInt _ => mret false
  | PDict _, PDict _ => raise TypeError
  | PStr s, PStr k =>
      mret (match String.index 0 k s with Some _ => true | None => false end)
  | PStr _, _ => raise TypeError
  | PInt _, _ => raise TypeError
  end.

(** [container[key]]. *)
Definition py_getitem (container key : pyval) : py pyval :=
  match container, key with
  | PDict d, PStr k =>
      match dict_get k d with Some v => mret v | None => raise KeyError end
  | PDict _, PInt _ => raise KeyError
  | PDict _, PDict _ => raise TypeError
  | PStr _, PInt _ => unmodelled
  | PStr _, _ => raise TypeError
  | PInt _, _ => raise TypeError
  end.

(** [container[key] = value], giving the container after the assignment. *)
Definition py_setitem (container key value : pyval) : py pyval :=
  match container, key with
  | PDict d, PStr k => mret (PDict (dict_set k value d))
  | PDict _, PInt _ => unmodelled
  | PDict _, PDict _ => raise TypeError
  | PStr _, _ => raise TypeError
  | PInt _, _ => raise TypeError
  end.

(** [del container[key]], giving the container after the deletion. *)
Definition py_delitem (container key : pyval) : py pyval :=
  match container, key with
  | PDict d, PStr k =>
      if dict_mem k d then mret (PDict (dict_del k d)) else raise KeyError
  | PDict _, PInt _ => raise KeyError
  | PDict _, PDict _ => raise TypeError
  | PStr _, _ => raise TypeError
  | PInt _, _ => raise TypeError
  end.

(** [a == n] for an integer literal [n]. *)
Definition py_eq_int (a : pyval) (n : Z) : bool :=
  match a with
  | PInt z => Z.eqb z n
  | _ => false
  end.

(** [a + n] for an integer literal [n] ([a - n] is [py_add_int a (- n)]). *)
Definition py_add_int (a : pyval) (n : Z) : py pyval :=
  match a with
  | PInt z => mret (PInt (z + n))
  | _ => raise TypeError
  end.

(** [container[k1][k2] += n].  The inner dictionary is the object the outer
    one holds, so the outer one shows the new value. *)
Definition py_iadd_item2 (container k1 k2 : pyval) (n : Z) : py pyval :=
  inner ← py_getitem container k1;
  old ← py_getitem inner k2;
  new ← py_add_int old n;
  inner' ← py_setitem inner k2 new;
  py_setitem container k1 inner'.

(** ** The program *)

Definition HOTELS_FILE : string := "hotels.json".
Definition CUSTOMERS_FILE : string := "customers.json".
Definition RESERVATIONS_FILE : string := "reservations.json".

(** [json.load(file)] on the file that [open] gives. *)
Definition json_load (file_path : string) : py pyval :=
  text ← open_read file_path;
  json_loads text.

(** [json.dump(data, file, indent=4)] on the file that [open] gives: the
    chunks of the encoder, which [json.dump] writes one by one to the emptied
    file, as the one text they make when the encoder raises nothing, which
    is so for a [printable] value. *)
Definition json_dump (data : pyval) (file_path : string) : py unit :=
  open_write file_path (Json.dumps data).

(** [f"Error reading {file_path}. Initializing empty data."]. *)
Definition diagnostic (file_path : string) : string :=
  "Error reading " +:+ file_path +:+ ". Initializing empty data.".

Definition load_data (file_path : string) : py pyval :=
  found ← os_path_exists file_path;
  if (found : bool) then
    try_except (json_load file_path)
      [JSONDecodeError; FileNotFoundError]
      (print (diagnostic file_path);;
       mret (PDict []))
  else mret (PDict []).

Definition save_data (file_path : string) (data : pyval) : py unit :=
  json_dump data file_path.

Module Hotel.

Record t : Type := {
  hotel_id : string;
  name : string;
  location : string;
  rooms : Z;
  available_rooms : Z
}.

(** [Hotel.__init__]; [uuid4] is the text of the fresh [uuid.uuid4()]. *)
Definition init (uuid4 name location : string) (rooms : Z) : t :=
  {| hotel_id := uuid4; name := name; location := location;
     rooms := rooms; available_rooms := rooms |}.

Definition to_dict (self : t) : pyval :=
  PDict [("hotel_id", PStr (hotel_id self));
         ("name", PStr (name self));
         ("location", PStr (location self));
         ("rooms", PInt (rooms self));
         ("available_rooms", PInt (available_rooms self))].

Definition create_hotel (uuid4 name location : string) (rooms : Z) : py t :=
  hotels ← load_data HOTELS_FILE;
  let new_hotel := init uuid4 name location rooms in
  hotels ← py_setitem hotels (PStr (hotel_id new_hotel)) (to_dict new_hotel);
  save_data HOTELS_FILE hotels;;
  mret new_hotel.

Definition delete_hotel (hotel_id : string) : py bool :=
  hotels ← load_data HOTELS_FILE;
  present ← py_contains (PStr hotel_id) hotels;
  if (present : bool) then
    hotels ← py_delitem hotels (PStr hotel_id);
    save_data HOTELS_FILE hotels;;
    mret true
  else mret false.

Definition display_hotels : py pyval := load_data HOTELS_FILE.

End Hotel.

Module Customer.

Record t : Type := {
  customer_id : string;
  name : string;
  email : string
}.

Definition init (uuid4 name email : string) : t :=
  {| customer_id := uuid4; name := name; email := email |}.

Definition to_dict (self : t) : pyval :=
  PDict [("customer_id", PStr (customer_id self));
         ("name", PStr (name self));
         ("email", PStr (email self))].

Definition create_customer (uuid4 name email : string) : py t :=
  customers ← load_data CUSTOMERS_FILE;
  let new_customer := init uuid4 name email in
  customers ← py_setitem customers (PStr (customer_id new_customer))
                                   (to_dict new_customer);
  save_data CUSTOMERS_FILE customers;;
  mret new_customer.

Definition delete_customer (customer_id : string) : py bool :=
  customers ← load_data CUSTOMERS_FILE;
  present ← py_contains (PStr customer_id) customers;
  if (present : bool) then
    customers ← py_delitem customers (PStr customer_id);
    save_data CUSTOMERS_FILE customers;;
    mret true
  else mret false.

Definition display_customers : py pyval := load_data CUSTOMERS_FILE.

End Customer.

Module Reservation.

Record t : Type := {
  reservation_id : string;
  customer_id : string;
  hotel_id : string
}.

Definition init (uuid4 customer_id hotel_id : string) : t :=
  {| reservation_id := uuid4; customer_id := customer_id;
     hotel_id := hotel_id |}.

Definition to_dict (self : t) : pyval :=
  PDict [("reservation_id", PStr (reservation_id self));
         ("customer_id", PStr (customer_id self));
         ("hotel_id", PStr (hotel_id self))].

(** [None] is Python's [None]: no reservation was made. *)
Definition create_reservation (uuid4 customer_id hotel_id : string)
  : py (option t) :=
  reservations ← load_data RESERVATIONS_FILE;
  hotels ← load_data HOTELS_FILE;
  present ← py_contains (PStr hotel_id) hotels;
  refused ←
    (if (present : bool) then
       hotel ← py_getitem hotels (PStr hotel_id);
       available ← py_getitem hotel (PStr "available_rooms");
       mret (py_eq_int available 0)
     else mret true);
  if (refused : bool) then
    print "Error: Hotel not found or no available rooms.";;
    mret None
  else
    hotels ← py_iadd_item2 hotels (PStr hotel_id) (PStr "available_rooms") (-1);
    save_data HOTELS_FILE hotels;;
    let new_reservation := init uuid4 customer_id hotel_id in
    reservations ← py_setitem reservations
                     (PStr (reservation_id new_reservation))
                     (to_dict new_reservation);
    save_data RESERVATIONS_FILE reservations;;
    mret (Some new_reservation).

Definition cancel_reservation (reservation_id : string) : py bool :=
  reservations ← load_data RESERVATIONS_FILE;
  hotels ← load_data HOTELS_FILE;
  present ← py_contains (PStr reservation_id) reservations;
  if (present : bool) then
    reservation ← py_getitem reservations (PStr reservation_id);
    hotel_id ← py_getitem reservation (PStr "hotel_id");
    hotel_present ← py_contains hotel_id hotels;
    (if (hotel_present : bool) then
       hotels ← py_iadd_item2 hotels hotel_id (PStr "available_rooms") 1;
       save_data HOTELS_FILE hotels
     else mret tt);;
    reservations ← py_delitem reservations (PStr reservation_id);
    save_data RESERVATIONS_FILE reservations;;
    mret true
  else mret false.

End Reservation.

(** ** The limits of the interpreter

    CPython converts between [int] and [str] up to
    [sys.get_int_max_str_digits()] decimal digits, 4300 unless the
    interpreter is told otherwise, which the program never does.  Beyond
    that [int.__repr__], which [json.dump] calls, and [int(text)], which
    [json.load] calls, raise [ValueError]; [json.dump] has by then written
    the chunks that come before the integer to a file that
    [open(path, 'w')] emptied.  The encoder and the scanner call themselves
    once for every level of nesting and raise [RecursionError] when the
    interpreter's stack, 1000 frames by default, is used up.

    [Json.repr_int], [Json.iterencode] and [Json.scan_int] follow Python on
    the values within these limits only.  The predicates below describe
    those values.  A theorem in which an integer or a value of the caller's
    reaches [json.dump], or that follows a run of calls, assumes them; a
    theorem about one call on a store that has loaded takes the integers on
    file as the load gave them and changes them by one or two at most. *)

Definition MAX_STR_DIGITS : Z := 4300.

(** The integers [z] with [Z.abs z < int_limit] have at most
    [MAX_STR_DIGITS] digits, the sign not counted: [int.__repr__] prints
    them and [int] reads them back. *)
Definition int_limit : Z := 10 ^ MAX_STR_DIGITS.

(** A nesting that stays far from the recursion limit. *)
Definition MAX_DEPTH : nat := 100.

(** Every integer of [v] is below [bound] in absolute value, and [v] nests
    dictionaries at most [depth] deep. *)
Fixpoint fits (bound : Z) (depth : nat) (v : pyval) {struct v} : Prop :=
  match v with
  | PInt z => Z.abs z < bound
  | PStr _ => True
  | PDict items =>
      match depth with
      | O => False
      | S depth' =>
          (fix all (l : list (string * pyval)) : Prop :=
             match l with
             | [] => True
             | (_, x) :: l' => fits bound depth' x /\ all l'
             end) items
      end
  end.

(** [json.dump] writes [v] in full and [json.load] reads it back: no integer
    of more than [MAX_STR_DIGITS] digits, no nesting beyond [MAX_DEPTH]. *)
Definition printable (v : pyval) : Prop := fits int_limit MAX_DEPTH v.

(** ** The vocabulary of the claims *)

(** What [load_data] gives for a store in world [w], when it returns. *)
Definition stored (w : world) (path : string) : option pyval :=
  match load_data path w with
  | Return v _ => Some v
  | _ => None
  end.

(** [record[name]] when [record] is a dictionary with that key. *)
Definition field (name : string) (record : pyval) : option pyval :=
  match record with
  | PDict fields => dict_get name fields
  | _ => None
  end.

(** The files written along a trace, oldest first. *)
Definition writes (t : list event) : list (string * string) :=
  flat_map (fun e => match e with Wrote p c => [(p, c)] | Printed _ => [] end) t.

(** The world a run leaves, when the model follows it to its end. *)
Definition world_of {A : Type} (r : outcome A) : option world :=
  match r with
  | Return _ w | Raise _ w => Some w
  | Unmodelled => None
  end.

(** The hotels store after [hotels[hotel_id]["available_rooms"] += n]. *)
Definition with_available (hotel_id : string) (n : Z)
    (h hotels : list (string * pyval)) : list (string * pyval) :=
  dict_set hotel_id (PDict (dict_set "available_rooms" (PInt n) h)) hotels.

(** The [available_rooms] of a hotel as the hotels store shows it. *)
Definition available (w : world) (hotel_id : string) : option pyval :=
  hotels ← stored w HOTELS_FILE;
  hotel ← field hotel_id hotels;
  field "available_rooms" hotel.

(** A hotels file that is not UTF-8: the single byte 0xFF. *)
Definition undecodable_store : world :=
  World {[ HOTELS_FILE := String "255" EmptyString ]} [].

(** [m] changes no file outside [paths], whether it returns or raises. *)
Definition touches_only {A : Type} (paths : list string) (m : py A) : Prop :=
  forall w w', world_of (m w) = Some w' ->
               forall p, p ∉ paths -> files w' !! p = files w !! p.

(** One call of the public interface; a creating call carries the identifier
    that [uuid4] gave it. *)
Inductive call : Type :=
| CreateHotel (uuid4 name location : string) (rooms : Z)
| DeleteHotel (hotel_id : string)
| CreateCustomer (uuid4 name email : string)
| DeleteCustomer (customer_id : string)
| CreateReservation (uuid4 customer_id hotel_id : string)
| CancelReservation (reservation_id : string).

Definition perform (c : call) : py unit :=
  match c with
  | CreateHotel uuid4 name location rooms =>
      Hotel.create_hotel uuid4 name location rooms;; mret tt
  | DeleteHotel hotel_id => Hotel.delete_hotel hotel_id;; mret tt
  | CreateCustomer uuid4 name email =>
      Customer.create_customer uuid4 name email;; mret tt
  | DeleteCustomer customer_id => Customer.delete_customer customer_id;; mret tt
  | CreateReservation uuid4 customer_id hotel_id =>
      Reservation.create_reservation uuid4 customer_id hotel_id;; mret tt
  | CancelReservation reservation_id =>
      Reservation.cancel_reservation reservation_id;; mret tt
  end.

(** Calls one after the other, as a single sequential client makes them. *)
Fixpoint run (calls : list call) : py unit :=
  match calls with
  | [] => mret tt
  | c :: rest => perform c;; run rest
  end.

(** No store file exists yet. *)
Definition empty_stores : world := World ∅ [].

(** [0 <= available_rooms <= rooms] on one hotel record. *)
Definition in_bounds (hotel : pyval) : Prop :=
  exists rooms available,
    field "rooms" hotel = Some (PInt rooms) /\
    field "available_rooms" hotel = Some (PInt available) /\
    0 <= available <= rooms.

Definition hotels_in_bounds (w : world) : Prop :=
  exists hotels,
    stored w HOTELS_FILE = Some (PDict hotels) /\
    forall hotel_id hotel, dict_get hotel_id hotels = Some hotel -> in_bounds hotel.

(** The identifiers [uuid4] gave to hotels along [calls]. *)
Definition hotel_uuids (calls : list call) : list string :=
  flat_map (fun c => match c with
                     | CreateHotel uuid4 _ _ _ => [uuid4]
                     | _ => []
                     end) calls.

(** A call that creates a hotel is given a [rooms] below [bound] in absolute
    value; the other calls take no integer. *)
Definition rooms_below (bound : Z) (c : call) : Prop :=
  match c with
  | CreateHotel _ _ _ rooms => Z.abs rooms < bound
  | _ => True
  end.

(** Does a reservation record name this hotel? *)
Definition refers (hotel_id : string) (reservation : pyval) : bool :=
  match field "hotel_id" reservation with
  | Some (PStr h) => String.eqb h hotel_id
  | _ => false
  end.

(** How many reservation records name this hotel. *)
Fixpoint booked (hotel_id : string) (reservations : list (string * pyval)) : Z :=
  match reservations with
  | [] => 0
  | (_, reservation) :: rest =>
      (if refers hotel_id reservation then 1 else 0) + booked hotel_id rest
  end.

(** [available_rooms <= rooms] on one hotel record, and
    [0 <= available_rooms] when [rooms] is not negative. *)
Definition within_capacity (hotel : pyval) : Prop :=
  exists rooms available,
    field "rooms" hotel = Some (PInt rooms) /\
    field "available_rooms" hotel = Some (PInt available) /\
    available <= rooms /\
    (0 <= rooms -> 0 <= available).

(** The hotels store loads as a mapping of hotels within their capacity, and
    holds no integer that [json.dump] would refuse. *)
Definition hotels_within_capacity (w : world) : Prop :=
  exists hotels,
    stored w HOTELS_FILE = Some (PDict hotels) /\
    printable (PDict hotels) /\
    forall hotel_id hotel,
      dict_get hotel_id hotels = Some hotel -> within_capacity hotel.

(** The same of a content of the hotels file. *)
Definition content_within_capacity (content : string) : Prop :=
  hotels_within_capacity (World {[ HOTELS_FILE := content ]} []).

(** What every sequential run keeps true of the hotels and the reservations:
    each hotel has at most as many rooms free as its capacity less the
    reservations that name it, none below zero unless its capacity is, and
    each reservation names a hotel identifier that was handed out. *)
Definition capacity (used : list string)
    (hotels reservations : list (string * pyval)) : Prop :=
  (forall hotel_id hotel,
      dict_get hotel_id hotels = Some hotel ->
      hotel_id ∈ used /\
      exists rooms available,
        field "rooms" hotel = Some (PInt rooms) /\
        field "available_rooms" hotel = Some (PInt available) /\
        available + booked hotel_id reservations <= rooms /\
        (0 <= rooms -> 0 <= available)) /\
  (forall reservation_id reservation,
      dict_get reservation_id reservations = Some reservation ->
      exists h, field "hotel_id" reservation = Some (PStr h) /\ h ∈ used).

(** Whatever was written to the hotels file between [w] and [w'] is what
    the file holds in [w']. *)
Definition hotel_writes_current (w w' : world) : Prop :=
  forall content,
    (HOTELS_FILE, content) ∈ writes (trace w') ->
    (HOTELS_FILE, content) ∈ writes (trace w) \/
    files w' !! HOTELS_FILE = Some content.

(** ** Worlds for the examples *)

(** The world that a piece of code leaves behind. *)
Definition after {A : Type} (m : py A) (w : world) : world :=
  match m w with
  | Return _ w' | Raise _ w' => w'
  | Unmodelled => w
  end.

(** One hotel with two rooms, both free (scenario C of the specification). *)
Definition miami_open : world :=
  after (Hotel.create_hotel "h1" "Cancel Hotel" "Miami" 2) empty_stores.

(** One hotel with one room, taken. *)
Definition full_house : world :=
  after (Reservation.create_reservation "r1" "c1" "h1")
    (after (Hotel.create_hotel "h1" "Reserve Hotel" "Chicago" 1) empty_stores).

(** A reservation whose hotel was deleted afterwards (scenario E). *)
Definition orphan_reservation : world :=
  after (Hotel.delete_hotel "h1")
    (after (Reservation.create_reservation "r1" "c1" "h1") miami_open).


(** A hotels file cut short: a save that stopped after its first byte. *)
Definition truncated_store : world :=
  World {[ HOTELS_FILE := "{" ]} [].

(** A hotels file that holds a JSON document which is no object. *)
Definition number_store : world :=
  World {[ HOTELS_FILE := "5"; CUSTOMERS_FILE := "5" ]} [].

(** One customer on file, beside the full hotel and its reservation. *)
Definition one_customer : world :=
  after (Customer.create_customer "c1" "Alice" "alice@example.com") full_house.

(** Hotel records changed by hand: the first has lost its
    [available_rooms], the second holds a string there. *)
Definition damaged_records : world :=
  World {[ HOTELS_FILE :=
             Json.dumps (PDict [("h1", PDict [("rooms", PInt 3)]);
                                ("h2", PDict [("rooms", PInt 3);
                                              ("available_rooms", PStr "3")])]) ]} [].

(** ** Runs that differ in files that are not read *)

(** Two worlds with the same history whose files are the same, except
    perhaps those in [paths]. *)
Definition same_except (paths : list string) (w1 w2 : world) : Prop :=
  trace w1 = trace w2 /\
  forall p, p ∉ paths -> files w1 !! p = files w2 !! p.

(** Two runs that a caller cannot tell apart: the same value returned or the
    same exception raised, and worlds that again differ in [paths] at most. *)
Definition same_result {A : Type} (paths : list string) (r1 r2 : outcome A) : Prop :=
  match r1, r2 with
  | Return a1 w1, Return a2 w2 => a1 = a2 /\ same_except paths w1 w2
  | Raise e1 w1, Raise e2 w2 => e1 = e2 /\ same_except paths w1 w2
  | Unmodelled, Unmodelled => True
  | _, _ => False
  end.

(** [m] does not depend on the files in [paths]. *)
Definition ignores {A : Type} (paths : list string) (m : py A) : Prop :=
  forall w1 w2, same_except paths w1 w2 -> same_result paths (m w1) (m w2).

(** The world [full_house] with a customers file that is not UTF-8. *)
Definition customers_undecodable : world :=
  World (<[ CUSTOMERS_FILE := String "255" EmptyString ]> (files full_house))
        (trace full_house).

(** The world [full_house] with a reservations file that is not UTF-8. *)
Definition reservations_undecodable : world :=
  World (<[ RESERVATIONS_FILE := String "255" EmptyString ]> (files full_house))
        (trace full_house).

(** ** The stores as mappings *)

(** The three mappings that the files hold, decoded. *)
Record stores : Type := Stores {
  hotels_of : list (string * pyval);
  customers_of : list (string * pyval);
  reservations_of : list (string * pyval)
}.

(** The files of [w] load as the mappings of [s]. *)
Definition shows (w : world) (s : stores) : Prop :=
  stored w HOTELS_FILE = Some (PDict (hotels_of s)) /\
  stored w CUSTOMERS_FILE = Some (PDict (customers_of s)) /\
  stored w RESERVATIONS_FILE = Some (PDict (reservations_of s)).

(** What a call of the interface makes of the three mappings: the tests,
    assignments and deletions of the operation, without the files.  Where
    the operation raises, which it does before it saves, the mappings stay
    as they are. *)
Definition apply_call (c : call) (s : stores) : stores :=
  match c with
  | CreateHotel uuid4 name location rooms =>
      Stores (dict_set uuid4 (Hotel.to_dict (Hotel.init uuid4 name location rooms))
                       (hotels_of s))
             (customers_of s) (reservations_of s)
  | DeleteHotel hotel_id =>
      Stores (dict_del hotel_id (hotels_of s)) (customers_of s) (reservations_of s)
  | CreateCustomer uuid4 name email =>
      Stores (hotels_of s)
             (dict_set uuid4 (Customer.to_dict (Customer.init uuid4 name email))
                       (customers_of s))
             (reservations_of s)
  | DeleteCustomer customer_id =>
      Stores (hotels_of s) (dict_del customer_id (customers_of s)) (reservations_of s)
  | CreateReservation uuid4 customer_id hotel_id =>
      match dict_get hotel_id (hotels_of s) with
      | Some (PDict h) =>
          match dict_get "available_rooms" h with
          | Some (PInt n) =>
              if n =? 0 then s
              else Stores (with_available hotel_id (n - 1) h (hotels_of s))
                          (customers_of s)
                          (dict_set uuid4
                             (Reservation.to_dict
                                (Reservation.init uuid4 customer_id hotel_id))
                             (reservations_of s))
          | _ => s
          end
      | _ => s
      end
  | CancelReservation reservation_id =>
      match dict_get reservation_id (reservations_of s) with
      | Some reservation =>
          match field "hotel_id" reservation with
          | Some (PStr hotel_id) =>
              match dict_get hotel_id (hotels_of s) with
              | Some (PDict h) =>
                  match dict_get "available_rooms" h with
                  | Some (PInt n) =>
                      Stores (with_available hotel_id (n + 1) h (hotels_of s))
                             (customers_of s)
                             (dict_del reservation_id (reservations_of s))
                  | _ => s
                  end
              | Some _ => s
              | None =>
                  Stores (hotels_of s) (customers_of s)
                         (dict_del reservation_id (reservations_of s))
              end
          | Some (PInt _) =>
              Stores (hotels_of s) (customers_of s)
                     (dict_del reservation_id (reservations_of s))
          | _ => s
          end
      | None => s
      end
  end.

(** What a sequence of calls makes of the three mappings. *)
Definition apply_calls (calls : list call) (s : stores) : stores :=
  foldl (fun s c => apply_call c s) s calls.

(** The three mappings hold integers below [bound] only, nested no deeper
    than [MAX_DEPTH]. *)
Definition mappings_fit (bound : Z) (s : stores) : Prop :=
  fits bound MAX_DEPTH (PDict (hotels_of s)) /\
  fits bound MAX_DEPTH (PDict (customers_of s)) /\
  fits bound MAX_DEPTH (PDict (reservations_of s)).

(** The same of the three stores of a world, as they load. *)
Definition stores_fit (bound : Z) (w : world) : Prop :=
  forall path data,
    path ∈ [HOTELS_FILE; CUSTOMERS_FILE; RESERVATIONS_FILE] ->
    stored w path = Some data -> fits bound MAX_DEPTH data.

(** Every hotel record has an integer [available_rooms] and every
    reservation record a string [hotel_id]: the records are shaped as the
    program writes them. *)
Definition records_shaped (hotels reservations : list (string * pyval)) : Prop :=
  (forall hotel_id hotel,
      dict_get hotel_id hotels = Some hotel ->
      exists n, field "available_rooms" hotel = Some (PInt n)) /\
  (forall reservation_id reservation,
      dict_get reservation_id reservations = Some reservation ->
      exists h, field "hotel_id" reservation = Some (PStr h)).

(** The three stores load as mappings of records in that shape. *)
Definition stores_in_shape (w : world) : Prop :=
  exists hotels customers reservations,
    stored w HOTELS_FILE = Some (PDict hotels) /\
    stored w CUSTOMERS_FILE = Some (PDict customers) /\
    stored w RESERVATIONS_FILE = Some (PDict reservations) /\
    records_shaped hotels reservations.

(** The identifiers [uuid4] gave to reservations along [calls]. *)
Definition reservation_uuids (calls : list call) : list string :=
  flat_map (fun c => match c with
                     | CreateReservation uuid4 _ _ => [uuid4]
                     | _ => []
                     end) calls.

(** Rooms free and rooms booked add up to the capacity of every hotel; the
    hotels and reservations carry identifiers that were handed out, and each
    reservation names a hotel identifier that was handed out. *)
Definition balanced (used_hotels used_reservations : list string)
    (hotels reservations : list (string * pyval)) : Prop :=
  (forall hotel_id hotel,
      dict_get hotel_id hotels = Some hotel ->
      hotel_id ∈ used_hotels /\
      exists rooms available,
        field "rooms" hotel = Some (PInt rooms) /\
        field "available_rooms" hotel = Some (PInt available) /\
        available + booked hotel_id reservations = rooms) /\
  (forall reservation_id reservation,
      dict_get reservation_id reservations = Some reservation ->
      reservation_id ∈ used_reservations /\
      exists h, field "hotel_id" reservation = Some (PStr h) /\ h ∈ used_hotels).

(** ** The unit tests of the module *)

Module TestHotelReservationSystem.

(** How a test method ends when no operation raises: every assertion held,
    or one of them failed, which stops the method there ([unittest] catches
    the [AssertionError] and reports the failure). *)
Inductive verdict : Type :=
| Passed
| Failed.

(** [self.assertTrue(expr)], followed by the rest of the method. *)
Definition assertTrue (expr : bool) (rest : py verdict) : py verdict :=
  if expr then rest else mret Failed.

(** [self.assertIn(member, container)], followed by the rest of the method. *)
Definition assertIn (member container : pyval) (rest : py verdict) : py verdict :=
  found ← py_contains member container;
  assertTrue found rest.

(** Each test takes the identifiers that its calls of [uuid4] produce, in
    the order of the calls. *)
Definition test_create_hotel (uuid4 : string) : py verdict :=
  hotel ← Hotel.create_hotel uuid4 "Test Hotel" "NYC" 10;
  hotels ← load_data HOTELS_FILE;
  assertIn (PStr (Hotel.hotel_id hotel)) hotels (mret Passed).

Definition test_delete_hotel (uuid4 : string) : py verdict :=
  hotel ← Hotel.create_hotel uuid4 "Delete Hotel" "LA" 5;
  deleted ← Hotel.delete_hotel (Hotel.hotel_id hotel);
  assertTrue deleted (mret Passed).

Definition test_create_customer (uuid4 : string) : py verdict :=
  customer ← Customer.create_customer uuid4 "John Doe" "john@example.com";
  customers ← load_data CUSTOMERS_FILE;
  assertIn (PStr (Customer.customer_id customer)) customers (mret Passed).

Definition test_delete_customer (uuid4 : string) : py verdict :=
  customer ← Customer.create_customer uuid4 "Jane Doe" "jane@example.com";
  deleted ← Customer.delete_customer (Customer.customer_id customer);
  assertTrue deleted (mret Passed).

(** [self.assertIsNotNone(reservation)] fails on [None]; the second
    assertion is reached with a reservation. *)
Definition test_create_reservation (hotel_uuid4 customer_uuid4 reservation_uuid4 : string)
  : py verdict :=
  hotel ← Hotel.create_hotel hotel_uuid4 "Reserve Hotel" "Chicago" 3;
  customer ← Customer.create_customer customer_uuid4 "Alice" "alice@example.com";
  reservation ← Reservation.create_reservation reservation_uuid4
                  (Customer.customer_id customer) (Hotel.hotel_id hotel);
  match reservation with
  | None => mret Failed
  | Some reservation =>
      reservations ← load_data RESERVATIONS_FILE;
      assertIn (PStr (Reservation.reservation_id reservation)) reservations
               (mret Passed)
  end.

(** On [None], [reservation.reservation_id] raises [AttributeError], an
    exception the model does not have. *)
Definition test_cancel_reservation (hotel_uuid4 customer_uuid4 reservation_uuid4 : string)
  : py verdict :=
  hotel ← Hotel.create_hotel hotel_uuid4 "Cancel Hotel" "Miami" 2;
  customer ← Customer.create_customer customer_uuid4 "Bob" "bob@example.com";
  reservation ← Reservation.create_reservation reservation_uuid4
                  (Customer.customer_id customer) (Hotel.hotel_id hotel);
  match reservation with
  | None => unmodelled
  | Some reservation =>
      cancelled ← Reservation.cancel_reservation
                    (Reservation.reservation_id reservation);
      assertTrue cancelled (mret Passed)
  end.

End TestHotelReservationSystem.

(** A hotels file that holds the first 40 bytes of what [save_data] writes
    for one hotel. *)
Definition interrupted_save : world :=
  World {[ HOTELS_FILE :=
             String.substring 0 40
               (Json.dumps (PDict [("h1", Hotel.to_dict
                                            (Hotel.init "h1" "Test Hotel" "NYC" 10))])) ]}
        [].

(** Requests for a room of one hotel, one for each identifier. *)
Definition requests (uuids : list string) (customer_id hotel_id : string) : list call :=
  map (fun uuid4 => CreateReservation uuid4 customer_id hotel_id) uuids.

(** * Facts about the model *)

Import Json.

(** ** Strings *)

Lemma append_nil_l (a : string) : "" +:+ a = a.
Proof. reflexivity. Qed.

Lemma append_cons (c : ascii) (a b : string) :
  String c a +:+ b = String c (a +:+ b).
Proof. reflexivity. Qed.

Lemma append_assoc (a b c : string) : (a +:+ b) +:+ c = a +:+ (b +:+ c).
Proof.
  induction a as [|x a IH]; [reflexivity|].
  rewrite !append_cons, IH. reflexivity.
Qed.

Lemma append_nil_r (a : string) : a +:+ "" = a.
Proof.
  induction a as [|x a IH]; [reflexivity|].
  rewrite append_cons, IH. reflexivity.
Qed.

Lemma length_append (a b : string) :
  String.length (a +:+ b) = (String.length a + String.length b)%nat.
Proof.
  induction a as [|x a IH]; [reflexivity|].
  rewrite append_cons. simpl. now rewrite IH.
Qed.

(** ** The decoder reads back what the encoder writes *)

Lemma scanstring_escape_char (c : ascii) (tail : string) :
  scanstring (escape_char c +:+ tail) = scan_map (String c) (scanstring tail).
Proof.
  destruct c as [[] [] [] [] [] [] [] []]; reflexivity.
Qed.

Lemma scanstring_escape (s rest : string) :
  scanstring (escape s +:+ String DQUOTE rest) = Scanned s rest.
Proof.
  induction s as [|c s IH].
  - reflexivity.
  - simpl escape. rewrite append_assoc, scanstring_escape_char, IH. reflexivity.
Qed.

(** Decimal numerals *)

Lemma to_uint_unorm (p : positive) : unorm (Pos.to_uint p) = Pos.to_uint p.
Proof.
  rewrite <- (DecimalPos.Unsigned.to_of (Pos.to_uint p)).
  rewrite DecimalPos.Unsigned.of_to. reflexivity.
Qed.

Lemma to_uint_head (p : positive) (d : uint) : Pos.to_uint p <> D0 d.
Proof.
  intros H.
  assert (Hn : nzhead (Pos.to_uint p) <> Nil).
  { intros Hnil. apply (DecimalPos.Unsigned.to_uint_nonzero p).
    rewrite <- to_uint_unorm. apply unorm_0. exact Hnil. }
  apply unorm_nzhead in Hn. rewrite to_uint_unorm in Hn.
  apply (nzhead_nonzero (Pos.to_uint p) d). congruence.
Qed.

Lemma span_digits_uint (d : uint) (rest : string) :
  ends_number rest = true ->
  span_digits (NilEmpty.string_of_uint d +:+ rest)
  = (NilEmpty.string_of_uint d, rest).
Proof.
  intros Hrest.
  induction d; simpl NilEmpty.string_of_uint;
    rewrite ?append_cons, ?append_nil_l;
    try (simpl span_digits; rewrite IHd; reflexivity).
  destruct rest as [|c rest]; [reflexivity|].
  simpl in *. destruct (is_digit c); [discriminate | reflexivity].
Qed.

Lemma float_follows_false (rest : string) :
  ends_number rest = true ->
  match rest with
  | String d _ =>
      ((N_of_ascii d =? 46) || (N_of_ascii d =? 101) || (N_of_ascii d =? 69))%N
  | EmptyString => false
  end = false.
Proof.
  destruct rest as [|c rest]; [reflexivity|]. simpl.
  destruct (is_digit c); simpl; [discriminate|].
  intros H. apply negb_true_iff in H. exact H.
Qed.

Lemma scan_int_uint (negative : bool) (d : uint) (rest : string) :
  d <> Nil -> (forall d', d <> D0 d') -> ends_number rest = true ->
  scan_int negative (NilEmpty.string_of_uint d +:+ rest)
  = Scanned (PInt (if negative then - Z.of_uint d else Z.of_uint d)) rest.
Proof.
  intros Hnil Hzero Hrest.
  pose proof (NilEmpty.usu d) as Husu.
  pose proof (span_digits_uint d rest Hrest) as Hspan.
  destruct d; try congruence; try (exfalso; eapply Hzero; reflexivity);
    simpl NilEmpty.string_of_uint in *; rewrite append_cons in *;
    unfold scan_int; simpl is_digit; simpl negb; cbv iota;
    simpl (N_of_ascii _ =? 48)%N; cbv iota;
    rewrite Hspan; cbv beta iota zeta;
    rewrite (float_follows_false rest Hrest), Husu; reflexivity.
Qed.

Lemma scan_once_repr_int (fuel : nat) (z : Z) (rest : string) :
  ends_number rest = true ->
  scan_once (S fuel) (repr_int z +:+ rest) = Scanned (PInt z) rest.
Proof.
  intros Hrest. unfold repr_int. destruct z as [|p|p]; simpl Z.to_int.
  - simpl NilZero.string_of_int. rewrite append_cons, append_nil_l.
    unfold scan_once, scan_int; simpl is_digit; simpl negb;
    simpl (N_of_ascii _ =? _)%N; cbv beta iota zeta.
    rewrite (float_follows_false rest Hrest). reflexivity.
  - unfold NilZero.string_of_int, NilZero.string_of_uint.
    pose proof (DecimalPos.Unsigned.to_uint_nonnil p) as Hnil.
    pose proof (to_uint_head p) as Hhead.
    pose proof (scan_int_uint false (Pos.to_uint p) rest Hnil Hhead Hrest) as H.
    assert (Hz : Z.of_uint (Pos.to_uint p) = Z.pos p).
    { unfold Z.of_uint. rewrite DecimalPos.Unsigned.of_to. reflexivity. }
    rewrite Hz in H.
    destruct (Pos.to_uint p) eqn:E; try congruence;
      try (exfalso; eapply Hhead; reflexivity);
      simpl NilEmpty.string_of_uint in *; rewrite append_cons in *;
      simpl scan_once; exact H.
  - unfold NilZero.string_of_int, NilZero.string_of_uint.
    pose proof (DecimalPos.Unsigned.to_uint_nonnil p) as Hnil.
    pose proof (to_uint_head p) as Hhead.
    pose proof (scan_int_uint true (Pos.to_uint p) rest Hnil Hhead Hrest) as H.
    assert (Hz : - Z.of_uint (Pos.to_uint p) = Z.neg p).
    { unfold Z.of_uint. rewrite DecimalPos.Unsigned.of_to. reflexivity. }
    rewrite Hz in H.
    destruct (Pos.to_uint p) eqn:E; try congruence;
      rewrite append_cons; simpl scan_once; exact H.
Qed.

Lemma iterencode_dict_cons level k x items :
  iterencode level (PDict ((k, x) :: items))
  = "{" +:+ newline_indent (S level) +:+ encode_basestring_ascii k +:+ ": "
    +:+ iterencode (S level) x +:+ more_items level items.
Proof. reflexivity. Qed.

Lemma more_items_cons level k x items :
  more_items level ((k, x) :: items)
  = "," +:+ newline_indent (S level) +:+ encode_basestring_ascii k +:+ ": "
    +:+ iterencode (S level) x +:+ more_items level items.
Proof. reflexivity. Qed.

Lemma more_items_nil level : more_items level [] = newline_indent level +:+ "}".
Proof. reflexivity. Qed.

Lemma weight_dict items : weight (PDict items) = S (weight_items items).
Proof. reflexivity. Qed.

Lemma weight_items_cons k x items :
  weight_items ((k, x) :: items) = S (S (weight x + weight_items items)).
Proof. reflexivity. Qed.

Lemma wf_dict items : wf (PDict items) <-> NoDup (map fst items) /\ wf_items items.
Proof. reflexivity. Qed.

Lemma wf_items_cons k x items : wf_items ((k, x) :: items) <-> wf x /\ wf_items items.
Proof. reflexivity. Qed.

(** Unfolding equations of the scanner *)

Lemma scan_once_string fuel rest :
  scan_once (S fuel) (String DQUOTE rest) = scan_map PStr (scanstring rest).
Proof. reflexivity. Qed.

Lemma scan_once_object fuel rest :
  scan_once (S fuel) (String "{" rest) =
  match skip_ws rest with
  | EmptyString => Malformed
  | String c1 rest1 =>
      if (N_of_ascii c1 =? 125)%N then Scanned (PDict []) rest1
      else if (N_of_ascii c1 =? 34)%N then
        scan_map (fun pairs => PDict (dict_of_pairs pairs))
                 (JSONObject_pairs fuel rest1)
      else Malformed
  end.
Proof. reflexivity. Qed.

Lemma JSONObject_pairs_S fuel s :
  JSONObject_pairs (S fuel) s =
  match scanstring s with
  | Malformed => Malformed
  | Outside => Outside
  | Scanned key r =>
      match skip_ws r with
      | EmptyString => Malformed
      | String c r1 =>
          if negb (N_of_ascii c =? 58)%N then Malformed
          else
            match scan_once fuel (skip_ws r1) with
            | Malformed => Malformed
            | Outside => Outside
            | Scanned value r2 =>
                match skip_ws r2 with
                | EmptyString => Malformed
                | String c2 r3 =>
                    if (N_of_ascii c2 =? 125)%N then Scanned [(key, value)] r3
                    else if (N_of_ascii c2 =? 44)%N then
                      match skip_ws r3 with
                      | EmptyString => Malformed
                      | String c3 r4 =>
                          if (N_of_ascii c3 =? 34)%N
                          then scan_map (cons (key, value)) (JSONObject_pairs fuel r4)
                          else Malformed
                      end
                    else Malformed
                end
            end
      end
  end.
Proof. reflexivity. Qed.

Lemma skip_ws_stop c r : is_ws c = false -> skip_ws (String c r) = String c r.
Proof. intros H. simpl. rewrite H. reflexivity. Qed.

Lemma skip_ws_spaces n c r :
  is_ws c = false -> skip_ws (spaces n +:+ String c r) = String c r.
Proof.
  intros H. induction n as [|n IH]; simpl spaces.
  - rewrite append_nil_l. apply skip_ws_stop, H.
  - rewrite append_cons. simpl. exact IH.
Qed.

Lemma skip_ws_newline_indent level c r :
  is_ws c = false -> skip_ws (newline_indent level +:+ String c r) = String c r.
Proof.
  intros H. unfold newline_indent. rewrite append_cons.
  change (skip_ws (String LF ?s)) with (skip_ws s).
  apply skip_ws_spaces, H.
Qed.

Lemma repr_int_head z :
  exists c tl, repr_int z = String c tl /\ is_ws c = false.
Proof.
  unfold repr_int. destruct z as [|p|p]; simpl Z.to_int.
  - exists "0"%char, EmptyString. split; reflexivity.
  - unfold NilZero.string_of_int, NilZero.string_of_uint.
    pose proof (DecimalPos.Unsigned.to_uint_nonnil p) as Hnil.
    destruct (Pos.to_uint p); try congruence; simpl; eexists _, _; split; reflexivity.
  - unfold NilZero.string_of_int. eexists _, _. split; reflexivity.
Qed.

Lemma iterencode_head level v :
  exists c tl, iterencode level v = String c tl /\ is_ws c = false.
Proof.
  destruct v as [z|s|[|[k x] items]].
  - apply repr_int_head.
  - eexists _, _. split; reflexivity.
  - eexists _, _. split; reflexivity.
  - eexists _, _. split; reflexivity.
Qed.

Lemma skip_ws_iterencode level v rest :
  skip_ws (iterencode level v +:+ rest) = iterencode level v +:+ rest.
Proof.
  destruct (iterencode_head level v) as (c & tl & -> & Hc).
  rewrite append_cons. apply skip_ws_stop, Hc.
Qed.

Lemma ends_number_more level items rest :
  ends_number (more_items level items +:+ rest) = true.
Proof. destruct items as [|[k x] items]; reflexivity. Qed.

(** [dict(pairs)] of pairs with distinct keys *)

Lemma dict_set_fresh k v d :
  k ∉ map fst d -> dict_set k v d = d ++ [(k, v)].
Proof.
  induction d as [|[k' v'] d IH]; intros Hk; simpl.
  - reflexivity.
  - simpl in Hk. apply not_elem_of_cons in Hk as [Hne Hk].
    destruct (String.eqb_spec k k') as [->|_]; [congruence|].
    rewrite IH by exact Hk. reflexivity.
Qed.

Lemma fold_dict_set_nodup (l acc : list (string * pyval)) :
  NoDup (map fst (acc ++ l)) ->
  fold_left (fun d kv => dict_set (fst kv) (snd kv) d) l acc = acc ++ l.
Proof.
  revert acc. induction l as [|[k v] l IH]; intros acc Hnd; simpl.
  - now rewrite app_nil_r.
  - rewrite dict_set_fresh.
    + rewrite IH; rewrite <- app_assoc; [reflexivity | exact Hnd].
    + rewrite map_app in Hnd. simpl in Hnd.
      apply NoDup_app in Hnd as (_ & Hdisj & _).
      intros Hin. apply (Hdisj k Hin). left.
Qed.

Lemma dict_of_pairs_nodup l : NoDup (map fst l) -> dict_of_pairs l = l.
Proof. intros H. apply (fold_dict_set_nodup l []). exact H. Qed.

(** The round trip through the scanner *)

Ltac str_norm :=
  repeat (rewrite append_assoc || rewrite append_cons || rewrite append_nil_l).

Lemma scan_iterencode (fuel : nat) :
  (forall v level rest,
      wf v -> (weight v < fuel)%nat -> ends_number rest = true ->
      scan_once fuel (iterencode level v +:+ rest) = Scanned v rest) /\
  (forall items k x level rest,
      wf_items ((k, x) :: items) ->
      (weight_items ((k, x) :: items) <= fuel)%nat ->
      JSONObject_pairs fuel
        (escape k +:+ String DQUOTE
           (String ":" (String " "
              (iterencode (S level) x +:+ more_items level items +:+ rest))))
      = Scanned ((k, x) :: items) rest).
Proof.
  induction fuel as [|fuel [IHv IHp]].
  - split.
    + intros; lia.
    + intros items k x level rest _ Hw. rewrite weight_items_cons in Hw. lia.
  - split.
    + intros v level rest Hwf Hw Hrest.
      destruct v as [z|s|[|[k x] items]].
      * apply scan_once_repr_int, Hrest.
      * simpl iterencode. unfold encode_basestring_ascii.
        str_norm.
        rewrite scan_once_string, scanstring_escape. reflexivity.
      * reflexivity.
      * rewrite iterencode_dict_cons.
        unfold encode_basestring_ascii.
        str_norm.
        rewrite scan_once_object.
        str_norm.
        rewrite skip_ws_newline_indent by reflexivity.
        change (N_of_ascii DQUOTE =? 125)%N with false.
        change (N_of_ascii DQUOTE =? 34)%N with true. cbv iota.
        rewrite weight_dict in Hw. apply wf_dict in Hwf as [Hnd Hwfi].
        str_norm.
        rewrite (IHp items k x level rest Hwfi) by lia.
        simpl scan_map. rewrite dict_of_pairs_nodup by exact Hnd. reflexivity.
    + intros items k x level rest Hwf Hw.
      rewrite weight_items_cons in Hw. apply wf_items_cons in Hwf as [Hx Hitems].
      rewrite JSONObject_pairs_S, scanstring_escape.
      str_norm.
      rewrite skip_ws_stop by reflexivity.
      change (negb (N_of_ascii ":" =? 58)%N) with false. cbv iota.
      change (skip_ws (String " " ?s)) with (skip_ws s).
      rewrite skip_ws_iterencode.
      rewrite IHv; [| exact Hx | lia | apply ends_number_more].
      destruct items as [|[k' x'] items].
      * rewrite more_items_nil.
        str_norm.
        rewrite skip_ws_newline_indent by reflexivity. reflexivity.
      * rewrite more_items_cons.
        str_norm.
        rewrite skip_ws_stop by reflexivity.
        change (N_of_ascii "," =? 125)%N with false.
        change (N_of_ascii "," =? 44)%N with true. cbv iota.
        unfold encode_basestring_ascii.
        str_norm.
        rewrite skip_ws_newline_indent by reflexivity.
        change (N_of_ascii DQUOTE =? 34)%N with true. cbv iota.
        str_norm.
        rewrite (IHp items k' x' level rest Hitems).
        -- reflexivity.
        -- lia.
Qed.

Lemma pyval_ind' (P : pyval -> Prop) :
  (forall z, P (PInt z)) ->
  (forall s, P (PStr s)) ->
  (forall items, Forall (fun kv => P (snd kv)) items -> P (PDict items)) ->
  forall v, P v.
Proof.
  intros Hint Hstr Hdict.
  fix IH 1. intros [z|s|items].
  - apply Hint.
  - apply Hstr.
  - apply Hdict.
    refine ((fix go (l : list (string * pyval)) : Forall (fun kv => P (snd kv)) l :=
               match l with
               | [] => ltac:(constructor)
               | kv :: l' => ltac:(constructor; [apply IH | apply go])
               end) items).
Qed.

Lemma length_cons c s : String.length (String c s) = S (String.length s).
Proof. reflexivity. Qed.

Lemma length_spaces n : String.length (spaces n) = n.
Proof. induction n as [|n IH]; simpl; [reflexivity | now rewrite IH]. Qed.

Lemma is_ascii_spaces n : Utf8.is_ascii (spaces n) = true.
Proof. induction n as [|n IH]; simpl; [reflexivity | exact IH]. Qed.

Lemma weight_le_length (v : pyval) :
  forall level, (weight v <= String.length (iterencode level v))%nat.
Proof.
  induction v as [z|s|items IH] using pyval_ind'; intros level.
  - simpl. lia.
  - simpl. lia.
  - destruct items as [|[k x] items]; [simpl; lia|].
    rewrite iterencode_dict_cons, weight_dict, weight_items_cons.
    apply Forall_cons in IH as [Hx IH]. simpl in Hx.
    assert (Hmore : (weight_items items <= String.length (more_items level items))%nat).
    { clear Hx. induction items as [|[k' x'] items IHi].
      - simpl. lia.
      - apply Forall_cons in IH as [Hx' IH]. simpl in Hx'.
        rewrite more_items_cons, weight_items_cons.
        unfold encode_basestring_ascii.
        str_norm. repeat (rewrite length_cons || rewrite length_append).
        specialize (Hx' (S level)). specialize (IHi IH). lia. }
    unfold encode_basestring_ascii. str_norm.
    repeat (rewrite length_cons || rewrite length_append).
    specialize (Hx (S level)). lia.
Qed.

Lemma skip_ws_dumps v : skip_ws (dumps v) = dumps v.
Proof.
  unfold dumps. rewrite <- (append_nil_r (iterencode 0 v)) at 1.
  rewrite skip_ws_iterencode. apply append_nil_r.
Qed.

Lemma loads_dumps (v : pyval) : wf v -> loads (dumps v) = Decoded v.
Proof.
  intros Hwf. unfold loads. rewrite skip_ws_dumps.
  pose proof (proj1 (scan_iterencode (S (String.length (dumps v)))) v O EmptyString Hwf) as H.
  rewrite append_nil_r in H. unfold dumps in *.
  rewrite H; [reflexivity | | reflexivity].
  pose proof (weight_le_length v O). lia.
Qed.

(** The text that [dumps] writes is ASCII. *)

Lemma is_ascii_app a b : Utf8.is_ascii (a +:+ b) = Utf8.is_ascii a && Utf8.is_ascii b.
Proof.
  induction a as [|c a IH]; [reflexivity|].
  rewrite append_cons. simpl. rewrite IH. apply andb_assoc.
Qed.

Lemma is_ascii_escape_char c : Utf8.is_ascii (escape_char c) = true.
Proof. destruct c as [[] [] [] [] [] [] [] []]; reflexivity. Qed.

Lemma is_ascii_escape s : Utf8.is_ascii (escape s) = true.
Proof.
  induction s as [|c s IH]; [reflexivity|].
  simpl escape. rewrite is_ascii_app, is_ascii_escape_char, IH. reflexivity.
Qed.

Lemma is_ascii_quote s : Utf8.is_ascii (encode_basestring_ascii s) = true.
Proof.
  unfold encode_basestring_ascii. rewrite append_cons. simpl.
  rewrite is_ascii_app, is_ascii_escape. reflexivity.
Qed.

Lemma is_ascii_uint d : Utf8.is_ascii (NilEmpty.string_of_uint d) = true.
Proof. induction d; simpl; auto. Qed.

Lemma is_ascii_repr_int z : Utf8.is_ascii (repr_int z) = true.
Proof.
  unfold repr_int, NilZero.string_of_int, NilZero.string_of_uint.
  destruct (Z.to_int z) as [d|d]; destruct d; simpl; auto using is_ascii_uint.
Qed.

Lemma is_ascii_newline_indent level : Utf8.is_ascii (newline_indent level) = true.
Proof.
  unfold newline_indent. change (Utf8.is_ascii (String LF ?s)) with (Utf8.is_ascii s).
  apply is_ascii_spaces.
Qed.

Lemma is_ascii_iterencode (v : pyval) :
  forall level, Utf8.is_ascii (iterencode level v) = true.
Proof.
  induction v as [z|s|items IH] using pyval_ind'; intros level.
  - apply is_ascii_repr_int.
  - apply is_ascii_quote.
  - destruct items as [|[k x] items]; [reflexivity|].
    rewrite iterencode_dict_cons.
    apply Forall_cons in IH as [Hx IH]. simpl in Hx.
    assert (Hmore : Utf8.is_ascii (more_items level items) = true).
    { clear Hx. induction items as [|[k' x'] items IHi].
      - rewrite more_items_nil, is_ascii_app, is_ascii_newline_indent. reflexivity.
      - apply Forall_cons in IH as [Hx' IH]. simpl in Hx'.
        rewrite more_items_cons.
        rewrite !is_ascii_app, is_ascii_newline_indent, is_ascii_quote, Hx', IHi by exact IH.
        reflexivity. }
    rewrite !is_ascii_app, is_ascii_newline_indent, is_ascii_quote, Hx, Hmore.
    reflexivity.
Qed.

Lemma utf8_valid_ascii s : Utf8.is_ascii s = true -> Utf8.valid s = true.
Proof.
  induction s as [|c s IH]; [reflexivity|].
  simpl. intros H. apply andb_true_iff in H as [Hc Hs].
  rewrite Hc. apply IH, Hs.
Qed.

Lemma utf8_encode_ascii s : Utf8.is_ascii s = true -> Utf8.encode s = s.
Proof.
  induction s as [|c s IH]; [reflexivity|].
  simpl. intros H. apply andb_true_iff in H as [Hc Hs].
  rewrite Hc, IH by exact Hs. reflexivity.
Qed.

Lemma utf8_decode_encode_ascii s :
  Utf8.is_ascii s = true -> Utf8.decode (Utf8.encode s) = Utf8.Text s.
Proof.
  intros H. rewrite utf8_encode_ascii by exact H.
  unfold Utf8.decode. rewrite utf8_valid_ascii, H by exact H. reflexivity.
Qed.

(** What the scanner returns is a well-formed value. *)

Lemma dict_set_keys k v d :
  map fst (dict_set k v d) = if dict_mem k d then map fst d else map fst d ++ [k].
Proof.
  unfold dict_mem. induction d as [|[k' v'] d IH]; simpl; [reflexivity|].
  destruct (String.eqb_spec k k') as [->|Hne]; simpl; [reflexivity|].
  rewrite IH. destruct (dict_get k d); reflexivity.
Qed.

Lemma dict_mem_keys k d : dict_mem k d = true <-> k ∈ map fst d.
Proof.
  unfold dict_mem. induction d as [|[k' v'] d IH]; simpl.
  - split; [discriminate | intros H; inversion H].
  - destruct (String.eqb_spec k k') as [->|Hne].
    + split; [intros _; left | reflexivity].
    + rewrite IH. split; [intros H; right; exact H|].
      intros H. apply elem_of_cons in H as [H|H]; [congruence | exact H].
Qed.

Lemma dict_set_nodup k v d : NoDup (map fst d) -> NoDup (map fst (dict_set k v d)).
Proof.
  intros Hnd. rewrite dict_set_keys.
  destruct (dict_mem k d) eqn:E; [exact Hnd|].
  apply NoDup_app. split; [exact Hnd|]. split.
  - intros x Hx Hx'. apply list_elem_of_singleton in Hx'. subst x.
    apply dict_mem_keys in Hx. congruence.
  - apply NoDup_singleton.
Qed.

Lemma dict_set_wf_items k v d : wf v -> wf_items d -> wf_items (dict_set k v d).
Proof.
  intros Hv. induction d as [|[k' v'] d IH]; simpl.
  - intros _. split; [exact Hv | exact I].
  - intros [Hv' Hd]. destruct (String.eqb k k'); simpl; auto.
Qed.

Lemma dict_set_wf k v d : wf v -> wf (PDict d) -> wf (PDict (dict_set k v d)).
Proof.
  intros Hv [Hnd Hd]. split; [apply dict_set_nodup, Hnd | apply dict_set_wf_items; assumption].
Qed.

Lemma dict_of_pairs_wf l : wf_items l -> wf (PDict (dict_of_pairs l)).
Proof.
  unfold dict_of_pairs.
  assert (H : forall acc, wf (PDict acc) -> wf_items l ->
            wf (PDict (fold_left (fun d kv => dict_set (fst kv) (snd kv) d) l acc))).
  { induction l as [|[k v] l IH]; intros acc Hacc Hl; simpl; [exact Hacc|].
    destruct Hl as [Hv Hl]. apply IH; [apply dict_set_wf; assumption | exact Hl]. }
  apply H. split; [constructor | exact I].
Qed.

Ltac cases_of H :=
  repeat (match type of H with
          | context [match ?x with _ => _ end] => destruct x eqn:?
          end; try discriminate H).

Lemma scan_int_wf negative s v rest : scan_int negative s = Scanned v rest -> wf v.
Proof.
  unfold scan_int. intros H. cases_of H; inversion H; exact I.
Qed.

Lemma scan_map_Scanned {A B} (f : A -> B) r b rest :
  scan_map f r = Scanned b rest -> exists a, r = Scanned a rest /\ b = f a.
Proof. destruct r; simpl; intros H; inversion H; eauto. Qed.

Lemma scan_once_wf (fuel : nat) :
  (forall s v rest, scan_once fuel s = Scanned v rest -> wf v) /\
  (forall s l rest, JSONObject_pairs fuel s = Scanned l rest -> wf_items l).
Proof.
  induction fuel as [|fuel [IHv IHp]]; [split; intros; discriminate|].
  split.
  - intros s v rest H. destruct s as [|c s]; [discriminate|].
    cbn [scan_once] in H. cases_of H; try (eapply scan_int_wf, H).
    + apply scan_map_Scanned in H as (a & _ & ->). exact I.
    + inversion H. split; [constructor | exact I].
    + apply scan_map_Scanned in H as (l & Hl & ->).
      apply dict_of_pairs_wf. eapply IHp, Hl.
  - intros s l rest H. rewrite JSONObject_pairs_S in H. cases_of H.
    + inversion H; subst. split; [eapply IHv; eassumption | exact I].
    + apply scan_map_Scanned in H as (l' & Hl & ->).
      split; [eapply IHv; eassumption | eapply IHp; eassumption].
Qed.

Lemma loads_wf s v : loads s = Decoded v -> wf v.
Proof.
  unfold loads. intros H. cases_of H. inversion H; subst.
  eapply (proj1 (scan_once_wf _)). eassumption.
Qed.

(** ** Loading and saving *)

Lemma bind_unfold {A B} (m : py A) (f : A -> py B) w :
  (m ≫= f) w = match m w with
               | Return a w' => f a w'
               | Raise e w' => Raise e w'
               | Unmodelled => Unmodelled
               end.
Proof. reflexivity. Qed.

Lemma bind_return {A B} (m : py A) (f : A -> py B) w a w' :
  m w = Return a w' -> (m ≫= f) w = f a w'.
Proof. intros H. rewrite bind_unfold, H. reflexivity. Qed.

Lemma bind_inv {A B} (m : py A) (f : A -> py B) w b w' :
  (m ≫= f) w = Return b w' -> exists a w1, m w = Return a w1 /\ f a w1 = Return b w'.
Proof. rewrite bind_unfold. destruct (m w); intros H; try discriminate. eauto. Qed.

Lemma load_data_eq (p : string) (w : world) :
  load_data p w =
  match files w !! p with
  | None => Return (PDict []) w
  | Some bytes =>
      match Utf8.decode bytes with
      | Utf8.Text s =>
          match Json.loads s with
          | Decoded v => Return v w
          | Rejected =>
              Return (PDict []) (World (files w) (trace w ++ [Printed (diagnostic p)]))
          | NotModelled => Unmodelled
          end
      | Utf8.Undecodable => Raise UnicodeDecodeError w
      | Utf8.Wide => Unmodelled
      end
  end.
Proof.
  unfold load_data, os_path_exists, try_except, json_load, open_read,
    json_loads, mbind, py_bind.
  destruct (files w !! p) as [bytes|] eqn:E.
  - rewrite bool_decide_eq_true_2 by eauto. cbv beta iota. rewrite E.
    destruct (Utf8.decode bytes); try reflexivity.
    destruct (loads s); reflexivity.
  - rewrite bool_decide_eq_false_2 by (intros [? ?]; discriminate).
    reflexivity.
Qed.

Lemma save_data_eq (p : string) (d : pyval) (w : world) :
  save_data p d w =
  Return tt (World (<[p := Utf8.encode (dumps d)]> (files w))
                   (trace w ++ [Wrote p (Utf8.encode (dumps d))])).
Proof. reflexivity. Qed.

Lemma stored_files w w' p :
  files w' !! p = files w !! p -> stored w' p = stored w p.
Proof.
  intros H. unfold stored. rewrite !load_data_eq, H.
  destruct (files w !! p) as [bytes|]; [|reflexivity].
  destruct (Utf8.decode bytes); try reflexivity.
  destruct (loads s); reflexivity.
Qed.

Lemma load_data_stored p w v :
  stored w p = Some v ->
  exists w', load_data p w = Return v w' /\ files w' = files w /\
             writes (trace w') = writes (trace w).
Proof.
  unfold stored. rewrite load_data_eq.
  destruct (files w !! p) as [bytes|].
  - destruct (Utf8.decode bytes); try discriminate.
    destruct (loads s); intros Hv; inversion Hv; subst;
      eexists; (split; [reflexivity|]); (split; [reflexivity|]); [reflexivity|].
    simpl. unfold writes. rewrite flat_map_app. simpl. apply app_nil_r.
  - intros Hv; inversion Hv; subst. eexists. repeat split.
Qed.

Lemma stored_wf w p v : stored w p = Some v -> wf v.
Proof.
  unfold stored. rewrite load_data_eq.
  destruct (files w !! p) as [bytes|].
  - destruct (Utf8.decode bytes); try discriminate.
    destruct (loads s) eqn:L; intros Hv; inversion Hv; subst.
    + eapply loads_wf. eassumption.
    + split; [constructor | exact I].
  - intros Hv; inversion Hv; subst. split; [constructor | exact I].
Qed.

Lemma stored_save (w' : world) p d :
  wf d -> files w' !! p = Some (Utf8.encode (dumps d)) -> stored w' p = Some d.
Proof.
  intros Hwf Hf. unfold stored. rewrite load_data_eq, Hf.
  rewrite utf8_decode_encode_ascii by apply is_ascii_iterencode.
  rewrite loads_dumps by exact Hwf. reflexivity.
Qed.


Lemma ret_bind {A B} (a : A) (f : A -> py B) w : (mret a ≫= f) w = f a w.
Proof. reflexivity. Qed.

Lemma ret_bind_fun {A B} (a : A) (f : A -> py B) : (mret a ≫= f) = f a.
Proof. reflexivity. Qed.

Lemma load_data_stored' p w v :
  stored w p = Some v ->
  exists w' lines, load_data p w = Return v w' /\ files w' = files w /\
             trace w' = trace w ++ map Printed lines /\
             (forall q, stored w' q = stored w q).
Proof.
  intros H.
  assert (H' : exists w' lines, load_data p w = Return v w' /\ files w' = files w /\
             trace w' = trace w ++ map Printed lines).
  { revert H. unfold stored. rewrite load_data_eq.
    destruct (files w !! p) as [bytes|].
    - destruct (Utf8.decode bytes); try discriminate.
      destruct (loads s); intros Hv; inversion Hv; subst.
      + exists w, []. simpl. rewrite app_nil_r. auto.
      + eexists _, [_]. simpl. eauto.
    - intros Hv; inversion Hv; subst. exists w, []. simpl. rewrite app_nil_r. auto. }
  destruct H' as (w' & lines & H1 & H2 & H3).
  exists w', lines. repeat split; try assumption.
  intros q. apply stored_files. now rewrite H2.
Qed.

Lemma writes_prints lines : writes (map Printed lines) = [].
Proof. induction lines; simpl; auto. Qed.

(** ** The operations, one run at a time *)

Lemma py_contains_dict k d : py_contains (PStr k) (PDict d) = mret (dict_mem k d).
Proof. reflexivity. Qed.

Lemma py_getitem_dict k d v :
  dict_get k d = Some v -> py_getitem (PDict d) (PStr k) = mret v.
Proof. intros H. unfold py_getitem. rewrite H. reflexivity. Qed.

Lemma py_getitem_field k record v :
  field k record = Some v -> py_getitem record (PStr k) = mret v.
Proof. destruct record; try discriminate. apply py_getitem_dict. Qed.

Lemma py_setitem_dict k v d :
  py_setitem (PDict d) (PStr k) v = mret (PDict (dict_set k v d)).
Proof. reflexivity. Qed.

Lemma py_delitem_dict k d :
  dict_mem k d = true -> py_delitem (PDict d) (PStr k) = mret (PDict (dict_del k d)).
Proof. intros H. unfold py_delitem. rewrite H. reflexivity. Qed.

Lemma py_iadd_item2_dict k1 k2 d inner z n :
  dict_get k1 d = Some (PDict inner) ->
  dict_get k2 inner = Some (PInt z) ->
  py_iadd_item2 (PDict d) (PStr k1) (PStr k2) n
  = mret (PDict (dict_set k1 (PDict (dict_set k2 (PInt (z + n)) inner)) d)).
Proof.
  intros H1 H2. unfold py_iadd_item2.
  rewrite (py_getitem_dict _ _ _ H1), ret_bind_fun.
  rewrite (py_getitem_dict _ _ _ H2), ret_bind_fun. reflexivity.
Qed.

Lemma dict_mem_get k d v : dict_get k d = Some v -> dict_mem k d = true.
Proof. unfold dict_mem. intros ->. reflexivity. Qed.

Lemma dict_mem_none k d : dict_get k d = None -> dict_mem k d = false.
Proof. unfold dict_mem. intros ->. reflexivity. Qed.

Lemma writes_app t1 t2 : writes (t1 ++ t2) = writes t1 ++ writes t2.
Proof. unfold writes. apply flat_map_app. Qed.

Lemma new_hotel_writes w w' lines evs :
  trace w' = trace w ++ map Printed lines ++ evs ->
  (forall content, (HOTELS_FILE, content) ∈ writes evs ->
                   files w' !! HOTELS_FILE = Some content) ->
  hotel_writes_current w w'.
Proof.
  intros T Hevs content Hin.
  rewrite T, !writes_app, writes_prints in Hin. simpl in Hin.
  apply elem_of_app in Hin as [Hin|Hin]; [left; exact Hin | right; apply Hevs, Hin].
Qed.

Lemma no_hotel_write w w' lines :
  trace w' = trace w ++ map Printed lines -> hotel_writes_current w w'.
Proof.
  intros T. apply (new_hotel_writes w w' lines []).
  - rewrite T, app_nil_r. reflexivity.
  - intros content Hin. inversion Hin.
Qed.

Lemma same_writes w w' :
  writes (trace w') = writes (trace w) -> hotel_writes_current w w'.
Proof. intros T content Hin. rewrite T in Hin. left. exact Hin. Qed.

Lemma hotel_write_last w w' lines hbytes :
  trace w' = trace w ++ map Printed lines ++ [Wrote HOTELS_FILE hbytes] ->
  files w' !! HOTELS_FILE = Some hbytes ->
  hotel_writes_current w w'.
Proof.
  intros T F. apply (new_hotel_writes w w' lines _ T).
  intros content Hin. apply list_elem_of_singleton in Hin.
  inversion Hin; subst. exact F.
Qed.

Lemma hotel_write_then w w' lines hbytes path bytes :
  trace w' = trace w ++ map Printed lines
             ++ [Wrote HOTELS_FILE hbytes; Wrote path bytes] ->
  path <> HOTELS_FILE ->
  files w' !! HOTELS_FILE = Some hbytes ->
  hotel_writes_current w w'.
Proof.
  intros T Hne F. apply (new_hotel_writes w w' lines _ T).
  intros content Hin. simpl in Hin.
  apply elem_of_cons in Hin as [Hin|Hin]; [inversion Hin; subst; exact F|].
  apply list_elem_of_singleton in Hin. inversion Hin; subst. contradiction.
Qed.

Lemma other_write w w' lines path bytes :
  trace w' = trace w ++ map Printed lines ++ [Wrote path bytes] ->
  path <> HOTELS_FILE ->
  hotel_writes_current w w'.
Proof.
  intros T Hne. apply (new_hotel_writes w w' lines _ T).
  intros content Hin. apply list_elem_of_singleton in Hin.
  inversion Hin; subst. contradiction.
Qed.

Ltac py_simpl :=
  repeat (cbv beta iota; first [rewrite ret_bind | rewrite ret_bind_fun]);
  cbv beta iota.

Lemma create_reservation_refusal
    (uuid4 customer_id hotel_id : string) (w : world)
    (reservations : pyval) (hotels : list (string * pyval)) :
  stored w RESERVATIONS_FILE = Some reservations ->
  stored w HOTELS_FILE = Some (PDict hotels) ->
  (dict_get hotel_id hotels = None \/
   exists hotel, dict_get hotel_id hotels = Some hotel /\
                 field "available_rooms" hotel = Some (PInt 0)) ->
  exists w',
    Reservation.create_reservation uuid4 customer_id hotel_id w = Return None w' /\
    files w' = files w /\
    writes (trace w') = writes (trace w).
Proof.
  intros Hr Hh Hcase.
  destruct (load_data_stored' _ _ _ Hr) as (w1 & l1 & L1 & F1 & T1 & S1).
  rewrite <- S1 in Hh.
  destruct (load_data_stored' _ _ _ Hh) as (w2 & l2 & L2 & F2 & T2 & S2).
  unfold Reservation.create_reservation.
  rewrite (bind_return _ _ _ _ _ L1), (bind_return _ _ _ _ _ L2).
  rewrite py_contains_dict. py_simpl.
  destruct Hcase as [Habs | (hotel & Hget & Hav)].
  - rewrite (dict_mem_none _ _ Habs). py_simpl.
    eexists. split; [reflexivity|]. simpl. split; [congruence|].
    rewrite T2, T1, !writes_app, !writes_prints, !app_nil_r. reflexivity.
  - rewrite (dict_mem_get _ _ _ Hget). py_simpl.
    rewrite (py_getitem_dict _ _ _ Hget). py_simpl.
    rewrite (py_getitem_field _ _ _ Hav). py_simpl.
    eexists. split; [reflexivity|]. simpl. split; [congruence|].
    rewrite T2, T1, !writes_app, !writes_prints, !app_nil_r. reflexivity.
Qed.

(** Well-formedness is kept by the dictionary primitives. *)

Lemma dict_get_wf k d v : wf_items d -> dict_get k d = Some v -> wf v.
Proof.
  induction d as [|[k' v'] d IH]; simpl; [discriminate|].
  intros [Hv Hd]. destruct (String.eqb k k'); [intros H; inversion H; subst; exact Hv | auto].
Qed.

Lemma dict_del_keys_subseteq k d : map fst (dict_del k d) ⊆ map fst d.
Proof.
  induction d as [|[k' v'] d IH]; simpl; [done|].
  destruct (String.eqb k k'); simpl.
  - intros x Hx. right. exact Hx.
  - intros x Hx. apply elem_of_cons in Hx as [->|Hx]; [left | right; apply IH, Hx].
Qed.

Lemma dict_del_wf k d : wf (PDict d) -> wf (PDict (dict_del k d)).
Proof.
  intros [Hnd Hd]. split.
  - clear Hd. induction d as [|[k' v'] d IH]; simpl; [constructor|].
    simpl in Hnd. apply NoDup_cons in Hnd as [Hk Hnd].
    destruct (String.eqb k k'); [exact Hnd|]. simpl. apply NoDup_cons. split.
    + intros Hin. apply Hk. eapply dict_del_keys_subseteq, Hin.
    + apply IH, Hnd.
  - clear Hnd. induction d as [|[k' v'] d IH]; simpl; [exact I|].
    destruct Hd as [Hv Hd]. destruct (String.eqb k k'); [exact Hd|].
    split; [exact Hv | apply IH, Hd].
Qed.

Lemma wf_hotel h : wf (Hotel.to_dict h).
Proof. split; [|simpl; tauto]. apply (bool_decide_unpack _). reflexivity. Qed.

Lemma wf_customer c : wf (Customer.to_dict c).
Proof. split; [|simpl; tauto]. apply (bool_decide_unpack _). reflexivity. Qed.

Lemma wf_reservation r : wf (Reservation.to_dict r).
Proof. split; [|simpl; tauto]. apply (bool_decide_unpack _). reflexivity. Qed.

Lemma wf_set_available (hotels h : list (string * pyval)) hid n :
  wf (PDict hotels) -> dict_get hid hotels = Some (PDict h) ->
  wf (PDict (dict_set hid (PDict (dict_set "available_rooms" (PInt n) h)) hotels)).
Proof.
  intros Hwf Hget. apply dict_set_wf; [|exact Hwf].
  apply dict_set_wf; [exact I|]. eapply dict_get_wf; [apply Hwf | exact Hget].
Qed.

Lemma files_neq : HOTELS_FILE <> RESERVATIONS_FILE /\ HOTELS_FILE <> CUSTOMERS_FILE
                  /\ CUSTOMERS_FILE <> RESERVATIONS_FILE.
Proof. repeat split; discriminate. Qed.

Lemma create_reservation_success
    (uuid4 customer_id hotel_id : string) (w : world)
    (reservations hotels h : list (string * pyval)) (n : Z) :
  stored w RESERVATIONS_FILE = Some (PDict reservations) ->
  stored w HOTELS_FILE = Some (PDict hotels) ->
  dict_get hotel_id hotels = Some (PDict h) ->
  dict_get "available_rooms" h = Some (PInt n) ->
  n <> 0 ->
  let r := Reservation.init uuid4 customer_id hotel_id in
  let hotels' := with_available hotel_id (n - 1) h hotels in
  let reservations' := dict_set uuid4 (Reservation.to_dict r) reservations in
  let hbytes := Utf8.encode (dumps (PDict hotels')) in
  let rbytes := Utf8.encode (dumps (PDict reservations')) in
  exists w' lines,
    Reservation.create_reservation uuid4 customer_id hotel_id w = Return (Some r) w' /\
    files w' = <[RESERVATIONS_FILE := rbytes]> (<[HOTELS_FILE := hbytes]> (files w)) /\
    trace w' = trace w ++ map Printed lines
               ++ [Wrote HOTELS_FILE hbytes; Wrote RESERVATIONS_FILE rbytes] /\
    stored w' HOTELS_FILE = Some (PDict hotels') /\
    stored w' RESERVATIONS_FILE = Some (PDict reservations').
Proof.
  intros Hr Hh Hget Hav Hn r hotels' reservations' hbytes rbytes.
  pose proof (stored_wf _ _ _ Hr) as Wr. pose proof (stored_wf _ _ _ Hh) as Wh.
  destruct (load_data_stored' _ _ _ Hr) as (w1 & l1 & L1 & F1 & T1 & S1).
  rewrite <- S1 in Hh.
  destruct (load_data_stored' _ _ _ Hh) as (w2 & l2 & L2 & F2 & T2 & S2).
  unfold Reservation.create_reservation.
  rewrite (bind_return _ _ _ _ _ L1), (bind_return _ _ _ _ _ L2).
  rewrite py_contains_dict. py_simpl.
  rewrite (dict_mem_get _ _ _ Hget). py_simpl.
  rewrite (py_getitem_dict _ _ _ Hget). py_simpl.
  rewrite (py_getitem_dict _ _ _ Hav). py_simpl.
  assert (Hz : py_eq_int (PInt n) 0 = false) by (simpl; lia).
  rewrite Hz. py_simpl.
  rewrite (py_iadd_item2_dict _ _ _ _ _ _ Hget Hav). py_simpl.
  replace (n + -1) with (n - 1) by lia.
  rewrite bind_unfold, save_data_eq.
  rewrite py_setitem_dict. py_simpl.
  rewrite bind_unfold, save_data_eq. py_simpl.
  eexists _, (l1 ++ l2). split; [reflexivity|]. simpl files. simpl trace.
  split; [rewrite F2, F1; reflexivity|].
  split.
  { rewrite T2, T1, map_app, <- !app_assoc. reflexivity. }
  destruct files_neq as (N1 & N2 & N3).
  split.
  - apply stored_save.
    + apply wf_set_available; assumption.
    + simpl. rewrite lookup_insert_ne by congruence. apply lookup_insert_eq.
  - apply stored_save.
    + apply dict_set_wf; [apply wf_reservation | exact Wr].
    + simpl. apply lookup_insert_eq.
Qed.

Lemma cancel_reservation_hotel_present
    (reservation_id hotel_id : string) (w : world)
    (reservations hotels h : list (string * pyval)) (reservation : pyval) (n : Z) :
  stored w RESERVATIONS_FILE = Some (PDict reservations) ->
  stored w HOTELS_FILE = Some (PDict hotels) ->
  dict_get reservation_id reservations = Some reservation ->
  field "hotel_id" reservation = Some (PStr hotel_id) ->
  dict_get hotel_id hotels = Some (PDict h) ->
  dict_get "available_rooms" h = Some (PInt n) ->
  let hotels' := with_available hotel_id (n + 1) h hotels in
  let reservations' := dict_del reservation_id reservations in
  let hbytes := Utf8.encode (dumps (PDict hotels')) in
  let rbytes := Utf8.encode (dumps (PDict reservations')) in
  exists w' lines,
    Reservation.cancel_reservation reservation_id w = Return true w' /\
    files w' = <[RESERVATIONS_FILE := rbytes]> (<[HOTELS_FILE := hbytes]> (files w)) /\
    trace w' = trace w ++ map Printed lines
               ++ [Wrote HOTELS_FILE hbytes; Wrote RESERVATIONS_FILE rbytes] /\
    stored w' HOTELS_FILE = Some (PDict hotels') /\
    stored w' RESERVATIONS_FILE = Some (PDict reservations').
Proof.
  intros Hr Hh Hres Hhid Hget Hav hotels' reservations' hbytes rbytes.
  pose proof (stored_wf _ _ _ Hr) as Wr. pose proof (stored_wf _ _ _ Hh) as Wh.
  destruct (load_data_stored' _ _ _ Hr) as (w1 & l1 & L1 & F1 & T1 & S1).
  rewrite <- S1 in Hh.
  destruct (load_data_stored' _ _ _ Hh) as (w2 & l2 & L2 & F2 & T2 & S2).
  unfold Reservation.cancel_reservation.
  rewrite (bind_return _ _ _ _ _ L1), (bind_return _ _ _ _ _ L2).
  rewrite py_contains_dict. py_simpl.
  rewrite (dict_mem_get _ _ _ Hres). py_simpl.
  rewrite (py_getitem_dict _ _ _ Hres). py_simpl.
  rewrite (py_getitem_field _ _ _ Hhid). py_simpl.
  rewrite py_contains_dict. py_simpl.
  rewrite (dict_mem_get _ _ _ Hget). py_simpl.
  rewrite (py_iadd_item2_dict _ _ _ _ _ _ Hget Hav). py_simpl.
  rewrite bind_unfold, save_data_eq. cbv beta iota.
  rewrite (py_delitem_dict _ _ (dict_mem_get _ _ _ Hres)). py_simpl.
  rewrite bind_unfold, save_data_eq. py_simpl.
  eexists _, (l1 ++ l2). split; [reflexivity|]. simpl files. simpl trace.
  split; [rewrite F2, F1; reflexivity|].
  split.
  { rewrite T2, T1, map_app, <- !app_assoc. reflexivity. }
  destruct files_neq as (N1 & N2 & N3).
  split.
  - apply stored_save.
    + apply wf_set_available; assumption.
    + simpl. rewrite lookup_insert_ne by congruence. apply lookup_insert_eq.
  - apply stored_save.
    + apply dict_del_wf, Wr.
    + simpl. apply lookup_insert_eq.
Qed.

Lemma cancel_reservation_hotel_absent
    (reservation_id hotel_id : string) (w : world)
    (reservations hotels : list (string * pyval)) (reservation : pyval) :
  stored w RESERVATIONS_FILE = Some (PDict reservations) ->
  stored w HOTELS_FILE = Some (PDict hotels) ->
  dict_get reservation_id reservations = Some reservation ->
  field "hotel_id" reservation = Some (PStr hotel_id) ->
  dict_get hotel_id hotels = None ->
  let reservations' := dict_del reservation_id reservations in
  let rbytes := Utf8.encode (dumps (PDict reservations')) in
  exists w' lines,
    Reservation.cancel_reservation reservation_id w = Return true w' /\
    files w' = <[RESERVATIONS_FILE := rbytes]> (files w) /\
    trace w' = trace w ++ map Printed lines ++ [Wrote RESERVATIONS_FILE rbytes] /\
    stored w' HOTELS_FILE = Some (PDict hotels) /\
    stored w' RESERVATIONS_FILE = Some (PDict reservations').
Proof.
  intros Hr Hh Hres Hhid Hget reservations' rbytes.
  pose proof (stored_wf _ _ _ Hr) as Wr.
  destruct (load_data_stored' _ _ _ Hr) as (w1 & l1 & L1 & F1 & T1 & S1).
  pose proof Hh as Hh0.
  rewrite <- S1 in Hh.
  destruct (load_data_stored' _ _ _ Hh) as (w2 & l2 & L2 & F2 & T2 & S2).
  unfold Reservation.cancel_reservation.
  rewrite (bind_return _ _ _ _ _ L1), (bind_return _ _ _ _ _ L2).
  rewrite py_contains_dict. py_simpl.
  rewrite (dict_mem_get _ _ _ Hres). py_simpl.
  rewrite (py_getitem_dict _ _ _ Hres). py_simpl.
  rewrite (py_getitem_field _ _ _ Hhid). py_simpl.
  rewrite py_contains_dict. py_simpl.
  rewrite (dict_mem_none _ _ Hget). py_simpl.
  rewrite (py_delitem_dict _ _ (dict_mem_get _ _ _ Hres)). py_simpl.
  rewrite bind_unfold, save_data_eq. py_simpl.
  eexists _, (l1 ++ l2). split; [reflexivity|]. simpl files. simpl trace.
  split; [rewrite F2, F1; reflexivity|].
  split.
  { rewrite T2, T1, map_app, <- !app_assoc. reflexivity. }
  destruct files_neq as (N1 & N2 & N3).
  split.
  - rewrite <- Hh0. apply stored_files. simpl.
    rewrite lookup_insert_ne by congruence. now rewrite F2, F1.
  - apply stored_save.
    + apply dict_del_wf, Wr.
    + simpl. apply lookup_insert_eq.
Qed.

Lemma cancel_reservation_absent (reservation_id : string) (w : world)
    (reservations : list (string * pyval)) (hotels : pyval) :
  stored w RESERVATIONS_FILE = Some (PDict reservations) ->
  stored w HOTELS_FILE = Some hotels ->
  dict_get reservation_id reservations = None ->
  exists w' lines,
    Reservation.cancel_reservation reservation_id w = Return false w' /\
    files w' = files w /\
    trace w' = trace w ++ map Printed lines.
Proof.
  intros Hr Hh Hres.
  destruct (load_data_stored' _ _ _ Hr) as (w1 & l1 & L1 & F1 & T1 & S1).
  rewrite <- S1 in Hh.
  destruct (load_data_stored' _ _ _ Hh) as (w2 & l2 & L2 & F2 & T2 & S2).
  unfold Reservation.cancel_reservation.
  rewrite (bind_return _ _ _ _ _ L1), (bind_return _ _ _ _ _ L2).
  rewrite py_contains_dict. py_simpl.
  rewrite (dict_mem_none _ _ Hres). py_simpl.
  exists w2, (l1 ++ l2). split; [reflexivity|].
  split; [congruence|]. rewrite T2, T1, map_app, <- app_assoc. reflexivity.
Qed.

Lemma delete_hotel_absent (hotel_id : string) (w : world)
    (hotels : list (string * pyval)) :
  stored w HOTELS_FILE = Some (PDict hotels) ->
  dict_get hotel_id hotels = None ->
  exists w' lines,
    Hotel.delete_hotel hotel_id w = Return false w' /\
    files w' = files w /\
    trace w' = trace w ++ map Printed lines.
Proof.
  intros Hh Hget.
  destruct (load_data_stored' _ _ _ Hh) as (w1 & l1 & L1 & F1 & T1 & S1).
  unfold Hotel.delete_hotel.
  rewrite (bind_return _ _ _ _ _ L1).
  rewrite py_contains_dict. py_simpl.
  rewrite (dict_mem_none _ _ Hget). py_simpl.
  exists w1, l1. auto.
Qed.

Lemma delete_hotel_present (hotel_id : string) (w : world)
    (hotels : list (string * pyval)) (hotel : pyval) :
  stored w HOTELS_FILE = Some (PDict hotels) ->
  dict_get hotel_id hotels = Some hotel ->
  let hotels' := dict_del hotel_id hotels in
  let hbytes := Utf8.encode (dumps (PDict hotels')) in
  exists w' lines,
    Hotel.delete_hotel hotel_id w = Return true w' /\
    files w' = <[HOTELS_FILE := hbytes]> (files w) /\
    trace w' = trace w ++ map Printed lines ++ [Wrote HOTELS_FILE hbytes] /\
    stored w' HOTELS_FILE = Some (PDict hotels').
Proof.
  intros Hh Hget hotels' hbytes.
  pose proof (stored_wf _ _ _ Hh) as Wh.
  destruct (load_data_stored' _ _ _ Hh) as (w1 & l1 & L1 & F1 & T1 & S1).
  unfold Hotel.delete_hotel.
  rewrite (bind_return _ _ _ _ _ L1).
  rewrite py_contains_dict. py_simpl.
  rewrite (dict_mem_get _ _ _ Hget). py_simpl.
  rewrite (py_delitem_dict _ _ (dict_mem_get _ _ _ Hget)). py_simpl.
  rewrite bind_unfold, save_data_eq. py_simpl.
  eexists _, l1. split; [reflexivity|]. simpl files. simpl trace.
  split; [rewrite F1; reflexivity|].
  split; [rewrite T1, <- app_assoc; reflexivity|].
  apply stored_save; [apply dict_del_wf, Wh | simpl; apply lookup_insert_eq].
Qed.

Lemma create_hotel_stored (uuid4 name location : string) (rooms : Z) (w : world)
    (hotels : list (string * pyval)) :
  stored w HOTELS_FILE = Some (PDict hotels) ->
  let new_hotel := Hotel.init uuid4 name location rooms in
  let hotels' := dict_set uuid4 (Hotel.to_dict new_hotel) hotels in
  let hbytes := Utf8.encode (dumps (PDict hotels')) in
  exists w' lines,
    Hotel.create_hotel uuid4 name location rooms w = Return new_hotel w' /\
    files w' = <[HOTELS_FILE := hbytes]> (files w) /\
    trace w' = trace w ++ map Printed lines ++ [Wrote HOTELS_FILE hbytes] /\
    stored w' HOTELS_FILE = Some (PDict hotels').
Proof.
  intros Hh new_hotel hotels' hbytes.
  pose proof (stored_wf _ _ _ Hh) as Wh.
  destruct (load_data_stored' _ _ _ Hh) as (w1 & l1 & L1 & F1 & T1 & S1).
  unfold Hotel.create_hotel.
  rewrite (bind_return _ _ _ _ _ L1). py_simpl.
  rewrite py_setitem_dict. py_simpl.
  rewrite bind_unfold, save_data_eq. py_simpl.
  eexists _, l1. split; [reflexivity|]. simpl files. simpl trace.
  split; [rewrite F1; reflexivity|].
  split; [rewrite T1, <- app_assoc; reflexivity|].
  apply stored_save; [apply dict_set_wf; [apply wf_hotel | exact Wh] | simpl; apply lookup_insert_eq].
Qed.

Lemma delete_customer_absent (customer_id : string) (w : world)
    (customers : list (string * pyval)) :
  stored w CUSTOMERS_FILE = Some (PDict customers) ->
  dict_get customer_id customers = None ->
  exists w' lines,
    Customer.delete_customer customer_id w = Return false w' /\
    files w' = files w /\
    trace w' = trace w ++ map Printed lines.
Proof.
  intros Hh Hget.
  destruct (load_data_stored' _ _ _ Hh) as (w1 & l1 & L1 & F1 & T1 & S1).
  unfold Customer.delete_customer.
  rewrite (bind_return _ _ _ _ _ L1).
  rewrite py_contains_dict. py_simpl.
  rewrite (dict_mem_none _ _ Hget). py_simpl.
  exists w1, l1. auto.
Qed.

Lemma dict_get_set_eq k v d : dict_get k (dict_set k v d) = Some v.
Proof.
  induction d as [|[k' v'] d IH]; simpl.
  - now rewrite String.eqb_refl.
  - destruct (String.eqb k k') eqn:E; simpl; rewrite ?String.eqb_refl, ?E; auto.
Qed.

Lemma dict_get_set_ne k k' v d : k <> k' -> dict_get k' (dict_set k v d) = dict_get k' d.
Proof.
  intros Hne. induction d as [|[k2 v2] d IH]; simpl.
  - destruct (String.eqb_spec k' k); [congruence | reflexivity].
  - destruct (String.eqb_spec k k2) as [->|Hk]; simpl.
    + destruct (String.eqb_spec k' k2); [congruence | reflexivity].
    + destruct (String.eqb k' k2); [reflexivity | exact IH].
Qed.

Lemma dict_get_del_ne k k' d : k <> k' -> dict_get k' (dict_del k d) = dict_get k' d.
Proof.
  intros Hne. induction d as [|[k2 v2] d IH]; simpl; [reflexivity|].
  destruct (String.eqb_spec k k2) as [->|Hk]; simpl.
  - destruct (String.eqb_spec k' k2); [congruence | reflexivity].
  - destruct (String.eqb k' k2); [reflexivity | exact IH].
Qed.

Lemma dict_get_elem k d v : dict_get k d = Some v -> k ∈ map fst d.
Proof. intros H. apply dict_mem_keys. eapply dict_mem_get, H. Qed.

Lemma dict_get_del_eq k d : NoDup (map fst d) -> dict_get k (dict_del k d) = None.
Proof.
  induction d as [|[k2 v2] d IH]; simpl; [reflexivity|].
  intros Hnd. apply NoDup_cons in Hnd as [Hk Hnd].
  destruct (String.eqb_spec k k2) as [->|Hne]; simpl.
  - destruct (dict_get k2 d) eqn:E; [|reflexivity].
    exfalso. apply Hk. eapply dict_get_elem, E.
  - destruct (String.eqb_spec k k2); [congruence | apply IH, Hnd].
Qed.

Lemma available_with_available w hid n h hotels :
  stored w HOTELS_FILE = Some (PDict (with_available hid n h hotels)) ->
  available w hid = Some (PInt n).
Proof.
  intros H. unfold available. rewrite H. simpl.
  unfold with_available. rewrite dict_get_set_eq. simpl.
  apply dict_get_set_eq.
Qed.

Lemma available_stored w hid hotels h v :
  stored w HOTELS_FILE = Some (PDict hotels) ->
  dict_get hid hotels = Some (PDict h) ->
  dict_get "available_rooms" h = Some v ->
  available w hid = Some v.
Proof. intros H1 H2 H3. unfold available. rewrite H1. simpl. rewrite H2. simpl. exact H3. Qed.

Lemma available_inv w hid v :
  available w hid = Some v ->
  exists hotels h, stored w HOTELS_FILE = Some (PDict hotels) /\
                   dict_get hid hotels = Some (PDict h) /\
                   dict_get "available_rooms" h = Some v.
Proof.
  unfold available. destruct (stored w HOTELS_FILE) as [[z|s|hotels]|]; try discriminate.
  simpl. destruct (dict_get hid hotels) as [[z|s|h]|] eqn:E; try discriminate.
  simpl. eauto.
Qed.

(** Inversion of the primitives *)

Lemma py_contains_inv k c w b w' :
  py_contains (PStr k) c w = Return b w' ->
  w' = w /\ ((exists d, c = PDict d /\ b = dict_mem k d) \/ (exists s, c = PStr s)).
Proof.
  destruct c as [z|s|d]; simpl; intros H; inversion H; subst; split; eauto.
Qed.

Lemma py_getitem_inv c k w v w' :
  py_getitem c (PStr k) w = Return v w' ->
  w' = w /\ exists d, c = PDict d /\ dict_get k d = Some v.
Proof.
  destruct c as [z|s|d]; simpl; try discriminate.
  destruct (dict_get k d) eqn:E; intros H; inversion H; subst. eauto.
Qed.

Lemma py_setitem_inv c k v w c' w' :
  py_setitem c (PStr k) v w = Return c' w' ->
  w' = w /\ exists d, c = PDict d /\ c' = PDict (dict_set k v d).
Proof.
  destruct c as [z|s|d]; simpl; try discriminate.
  intros H; inversion H; subst. eauto.
Qed.

Lemma py_add_int_inv a n w v w' :
  py_add_int a n w = Return v w' ->
  w' = w /\ exists z, a = PInt z /\ v = PInt (z + n).
Proof.
  destruct a as [z|s|d]; simpl; try discriminate.
  intros H; inversion H; subst. eauto.
Qed.

Lemma load_data_files p w v w' : load_data p w = Return v w' -> files w' = files w.
Proof.
  intros H. assert (Hs : stored w p = Some v) by (unfold stored; now rewrite H).
  destruct (load_data_stored' _ _ _ Hs) as (w1 & l & H1 & F & _).
  rewrite H in H1. inversion H1; subst. exact F.
Qed.

Lemma create_reservation_inv uuid4 customer_id hotel_id w r w' :
  Reservation.create_reservation uuid4 customer_id hotel_id w = Return (Some r) w' ->
  exists reservations hotels h n,
    stored w RESERVATIONS_FILE = Some (PDict reservations) /\
    stored w HOTELS_FILE = Some (PDict hotels) /\
    dict_get hotel_id hotels = Some (PDict h) /\
    dict_get "available_rooms" h = Some (PInt n) /\
    n <> 0.
Proof.
  unfold Reservation.create_reservation. intros H.
  apply bind_inv in H as (rv & w1 & L1 & H).
  apply bind_inv in H as (hv & w2 & L2 & H).
  apply bind_inv in H as (present & w3 & Hc & H).
  apply bind_inv in H as (refused & w4 & Href & H).
  destruct refused; [discriminate|].
  apply bind_inv in H as (hotels' & w5 & Hadd & H).
  apply bind_inv in H as ([] & w6 & _ & H).
  apply bind_inv in H as (rs' & w7 & Hset & _).
  apply py_setitem_inv in Hset as (_ & rs & -> & _).
  apply py_contains_inv in Hc as (-> & Hc).
  destruct present; [|discriminate].
  apply bind_inv in Href as (hotel & w8 & G1 & Href).
  apply py_getitem_inv in G1 as (-> & hs & -> & Hget).
  apply bind_inv in Href as (a & w9 & G2 & Href).
  apply py_getitem_inv in G2 as (-> & h & -> & Hav).
  injection Href as Hzero _.
  unfold py_iadd_item2 in Hadd.
  rewrite (py_getitem_dict _ _ _ Hget), ret_bind in Hadd.
  rewrite (py_getitem_dict _ _ _ Hav), ret_bind in Hadd.
  apply bind_inv in Hadd as (new & w10 & Hnew & _).
  apply py_add_int_inv in Hnew as (_ & n & -> & _).
  exists rs, hs, h, n.
  assert (S1 : stored w RESERVATIONS_FILE = Some (PDict rs))
    by (unfold stored; now rewrite L1).
  assert (S2 : stored w HOTELS_FILE = Some (PDict hs)).
  { rewrite <- (stored_files w w1) by (now rewrite (load_data_files _ _ _ _ L1)).
    unfold stored. now rewrite L2. }
  repeat split; try assumption.
  intros ->. simpl in *. discriminate.
Qed.

(** ** The files an operation may change *)

Section Footprint.
Context (paths : list string).

Lemma touches_ret {A} (a : A) : touches_only paths (mret a).
Proof. intros w w' H p _. inversion H. reflexivity. Qed.

Lemma touches_raise {A} (e : exn) : touches_only paths (@raise A e).
Proof. intros w w' H p _. inversion H. reflexivity. Qed.

Lemma touches_unmodelled {A} : touches_only paths (@unmodelled A).
Proof. intros w w' H. discriminate. Qed.

Lemma touches_print line : touches_only paths (print line).
Proof. intros w w' H p _. inversion H. reflexivity. Qed.

Lemma touches_bind {A B} (m : py A) (f : A -> py B) :
  touches_only paths m -> (forall a, touches_only paths (f a)) ->
  touches_only paths (m ≫= f).
Proof.
  intros Hm Hf w w' H p Hp. rewrite bind_unfold in H.
  destruct (m w) as [a w1|e w1|] eqn:E; try discriminate.
  - rewrite (Hf a w1 w' H p Hp). apply (Hm w w1); [now rewrite E | exact Hp].
  - simpl in H. inversion H; subst. apply (Hm w w'); [now rewrite E | exact Hp].
Qed.

Lemma touches_try_except {A} (body handler : py A) caught :
  touches_only paths body -> touches_only paths handler ->
  touches_only paths (try_except body caught handler).
Proof.
  intros Hb Hh w w' H p Hp. unfold try_except in H.
  destruct (body w) as [a w1|e w1|] eqn:E; try discriminate.
  - simpl in H. inversion H; subst. apply (Hb w w'); [now rewrite E | exact Hp].
  - destruct (bool_decide (e ∈ caught)).
    + rewrite (Hh w1 w' H p Hp). apply (Hb w w1); [now rewrite E | exact Hp].
    + simpl in H. inversion H; subst. apply (Hb w w'); [now rewrite E | exact Hp].
Qed.

Lemma touches_load_data file_path : touches_only paths (load_data file_path).
Proof.
  intros w w' H p _. rewrite load_data_eq in H.
  cases_of H; simpl in H; inversion H; reflexivity.
Qed.

Lemma touches_save_data file_path data :
  file_path ∈ paths -> touches_only paths (save_data file_path data).
Proof.
  intros Hin w w' H p Hp. rewrite save_data_eq in H. inversion H; subst.
  simpl. apply lookup_insert_ne. intros ->. contradiction.
Qed.

Lemma touches_py_contains k c : touches_only paths (py_contains k c).
Proof. destruct c, k; first [apply touches_ret | apply touches_raise]. Qed.

Lemma touches_py_getitem c k : touches_only paths (py_getitem c k).
Proof.
  destruct c, k; simpl; try destruct (dict_get _ _);
    first [apply touches_ret | apply touches_raise | apply touches_unmodelled].
Qed.

Lemma touches_py_setitem c k v : touches_only paths (py_setitem c k v).
Proof.
  destruct c, k;
    first [apply touches_ret | apply touches_raise | apply touches_unmodelled].
Qed.

Lemma touches_py_delitem c k : touches_only paths (py_delitem c k).
Proof.
  destruct c, k; simpl; try destruct (dict_mem _ _);
    first [apply touches_ret | apply touches_raise | apply touches_unmodelled].
Qed.

Lemma touches_py_add_int a n : touches_only paths (py_add_int a n).
Proof. destruct a; first [apply touches_ret | apply touches_raise]. Qed.

Lemma touches_py_iadd_item2 c k1 k2 n : touches_only paths (py_iadd_item2 c k1 k2 n).
Proof.
  unfold py_iadd_item2.
  repeat first [ apply touches_bind; [|intros ?]
               | apply touches_py_getitem | apply touches_py_setitem
               | apply touches_py_add_int ].
Qed.

End Footprint.

Ltac footprint :=
  repeat first
    [ apply touches_load_data
    | apply touches_save_data; apply (bool_decide_unpack _); reflexivity
    | apply touches_py_contains | apply touches_py_getitem
    | apply touches_py_setitem | apply touches_py_delitem
    | apply touches_py_add_int | apply touches_py_iadd_item2
    | apply touches_ret | apply touches_raise | apply touches_print
    | match goal with |- touches_only _ (if ?b then _ else _) => destruct b end
    | apply touches_bind; [|intros ?] ].

Lemma touches_create_hotel uuid4 name location rooms :
  touches_only [HOTELS_FILE] (Hotel.create_hotel uuid4 name location rooms).
Proof. unfold Hotel.create_hotel. footprint. Qed.

Lemma touches_delete_hotel hotel_id :
  touches_only [HOTELS_FILE] (Hotel.delete_hotel hotel_id).
Proof. unfold Hotel.delete_hotel. footprint. Qed.

Lemma touches_create_customer uuid4 name email :
  touches_only [CUSTOMERS_FILE] (Customer.create_customer uuid4 name email).
Proof. unfold Customer.create_customer. footprint. Qed.

Lemma touches_delete_customer customer_id :
  touches_only [CUSTOMERS_FILE] (Customer.delete_customer customer_id).
Proof. unfold Customer.delete_customer. footprint. Qed.

Lemma touches_create_reservation uuid4 customer_id hotel_id :
  touches_only [HOTELS_FILE; RESERVATIONS_FILE]
    (Reservation.create_reservation uuid4 customer_id hotel_id).
Proof. unfold Reservation.create_reservation. footprint. Qed.

Lemma touches_cancel_reservation reservation_id :
  touches_only [HOTELS_FILE; RESERVATIONS_FILE]
    (Reservation.cancel_reservation reservation_id).
Proof. unfold Reservation.cancel_reservation. footprint. Qed.

(** ** What sequential runs keep true *)

Lemma booked_nonneg hid rs : 0 <= booked hid rs.
Proof. induction rs as [|[k r] rs IH]; simpl; [lia|]. destruct (refers hid r); lia. Qed.

Lemma booked_set hid u new rs :
  booked hid (dict_set u new rs) <= booked hid rs + (if refers hid new then 1 else 0).
Proof.
  induction rs as [|[k r] rs IH]; simpl.
  - lia.
  - destruct (String.eqb u k); simpl.
    + destruct (refers hid r), (refers hid new); lia.
    + lia.
Qed.

Lemma booked_del hid rid rs r :
  dict_get rid rs = Some r ->
  booked hid (dict_del rid rs) = booked hid rs - (if refers hid r then 1 else 0).
Proof.
  induction rs as [|[k r'] rs IH]; simpl; [discriminate|].
  destruct (String.eqb rid k).
  - intros H; inversion H; subst. lia.
  - intros H. simpl. rewrite (IH H). lia.
Qed.

Lemma booked_unused hid (used : list string) rs :
  (forall rid r, dict_get rid rs = Some r ->
                 exists h, field "hotel_id" r = Some (PStr h) /\ h ∈ used) ->
  NoDup (map fst rs) ->
  hid ∉ used -> booked hid rs = 0.
Proof.
  intros Hall Hnd Hhid. induction rs as [|[k r] rs IH]; simpl; [reflexivity|].
  simpl in Hnd. apply NoDup_cons in Hnd as [Hk Hnd].
  rewrite IH; [| |exact Hnd].
  - destruct (Hall k r) as (h & Hf & Hin); [simpl; now rewrite String.eqb_refl|].
    unfold refers. rewrite Hf.
    destruct (String.eqb_spec h hid) as [->|]; [contradiction | reflexivity].
  - intros rid r' Hget. apply (Hall rid r'). simpl.
    destruct (String.eqb_spec rid k) as [->|]; [|exact Hget].
    exfalso. apply Hk. eapply dict_get_elem, Hget.
Qed.

Lemma dict_get_del_some k k' d v :
  NoDup (map fst d) -> dict_get k (dict_del k' d) = Some v -> dict_get k d = Some v.
Proof.
  intros Hnd H. destruct (String.eqb_spec k' k) as [->|Hne].
  - rewrite dict_get_del_eq in H by exact Hnd. discriminate.
  - rewrite dict_get_del_ne in H by exact Hne. exact H.
Qed.

Lemma dict_get_set_some k k' v v' d :
  dict_get k (dict_set k' v' d) = Some v ->
  (k = k' /\ v = v') \/ (k <> k' /\ dict_get k d = Some v).
Proof.
  destruct (String.eqb_spec k' k) as [->|Hne].
  - rewrite dict_get_set_eq. intros H; inversion H. auto.
  - rewrite dict_get_set_ne by exact Hne. intros H. right. split; [congruence | exact H].
Qed.

Lemma perform_return {A} (m : py A) w a w' :
  m w = Return a w' -> (m;; mret tt) w = Return tt w'.
Proof. intros H. rewrite (bind_return _ _ _ _ _ H). reflexivity. Qed.

(** * Further facts about the model *)

(** ** The operations, with the stores they leave *)

Lemma load_data_holding (w : world) p d :
  wf d -> files w !! p = Some (Utf8.encode (dumps d)) -> load_data p w = Return d w.
Proof.
  intros Hwf Hf. rewrite load_data_eq, Hf.
  rewrite utf8_decode_encode_ascii by apply is_ascii_iterencode.
  rewrite loads_dumps by exact Hwf. reflexivity.
Qed.

Lemma writes_snoc_prints t lines :
  writes (t ++ map Printed lines) = writes t.
Proof. rewrite writes_app, writes_prints. apply app_nil_r. Qed.

Lemma dict_del_set_fresh k v d :
  dict_get k d = None -> dict_del k (dict_set k v d) = d.
Proof.
  induction d as [|[k' v'] d IH]; simpl.
  - intros _. now rewrite String.eqb_refl.
  - destruct (String.eqb k k') eqn:E; [discriminate|].
    intros H. simpl. rewrite E, (IH H). reflexivity.
Qed.

Lemma create_customer_exact (uuid4 name email : string) (w : world)
    (customers : list (string * pyval)) :
  stored w CUSTOMERS_FILE = Some (PDict customers) ->
  let new_customer := Customer.init uuid4 name email in
  let customers' := dict_set uuid4 (Customer.to_dict new_customer) customers in
  let cbytes := Utf8.encode (dumps (PDict customers')) in
  exists w' lines,
    Customer.create_customer uuid4 name email w = Return new_customer w' /\
    files w' = <[CUSTOMERS_FILE := cbytes]> (files w) /\
    trace w' = trace w ++ map Printed lines ++ [Wrote CUSTOMERS_FILE cbytes] /\
    stored w' CUSTOMERS_FILE = Some (PDict customers').
Proof.
  intros Hh new_customer customers' cbytes.
  pose proof (stored_wf _ _ _ Hh) as Wh.
  destruct (load_data_stored' _ _ _ Hh) as (w1 & l1 & L1 & F1 & T1 & S1).
  unfold Customer.create_customer.
  rewrite (bind_return _ _ _ _ _ L1). py_simpl.
  rewrite py_setitem_dict. py_simpl.
  rewrite bind_unfold, save_data_eq. py_simpl.
  eexists _, l1. split; [reflexivity|]. simpl files. simpl trace.
  split; [rewrite F1; reflexivity|].
  split; [rewrite T1, <- List.app_assoc; reflexivity|].
  apply stored_save; [apply dict_set_wf; [apply wf_customer | exact Wh]|].
  simpl. apply lookup_insert_eq.
Qed.

Lemma delete_customer_present (customer_id : string) (w : world)
    (customers : list (string * pyval)) (customer : pyval) :
  stored w CUSTOMERS_FILE = Some (PDict customers) ->
  dict_get customer_id customers = Some customer ->
  let customers' := dict_del customer_id customers in
  let cbytes := Utf8.encode (dumps (PDict customers')) in
  exists w' lines,
    Customer.delete_customer customer_id w = Return true w' /\
    files w' = <[CUSTOMERS_FILE := cbytes]> (files w) /\
    trace w' = trace w ++ map Printed lines ++ [Wrote CUSTOMERS_FILE cbytes] /\
    stored w' CUSTOMERS_FILE = Some (PDict customers').
Proof.
  intros Hh Hget customers' cbytes.
  pose proof (stored_wf _ _ _ Hh) as Wh.
  destruct (load_data_stored' _ _ _ Hh) as (w1 & l1 & L1 & F1 & T1 & S1).
  unfold Customer.delete_customer.
  rewrite (bind_return _ _ _ _ _ L1).
  rewrite py_contains_dict. py_simpl.
  rewrite (dict_mem_get _ _ _ Hget). py_simpl.
  rewrite (py_delitem_dict _ _ (dict_mem_get _ _ _ Hget)). py_simpl.
  rewrite bind_unfold, save_data_eq. py_simpl.
  eexists _, l1. split; [reflexivity|]. simpl files. simpl trace.
  split; [rewrite F1; reflexivity|].
  split; [rewrite T1, <- List.app_assoc; reflexivity|].
  apply stored_save; [apply dict_del_wf, Wh | simpl; apply lookup_insert_eq].
Qed.

(** What a listing shows is what the file holds, when an operation of the
    program wrote it. *)
Lemma display_written (w : world) p d :
  stored w p = Some d ->
  (exists bytes, files w !! p = Some bytes /\ bytes = Utf8.encode (dumps d)) ->
  load_data p w = Return d w.
Proof.
  intros Hs (bytes & Hf & ->). apply load_data_holding; [|exact Hf].
  eapply stored_wf, Hs.
Qed.

(** ** The files an operation reads *)

Section Reads.
Context (paths : list string).

Lemma ignores_ret {A} (a : A) : ignores paths (mret a).
Proof. intros w1 w2 H. simpl. split; [reflexivity | exact H]. Qed.

Lemma ignores_raise {A} (e : exn) : ignores paths (@raise A e).
Proof. intros w1 w2 H. simpl. split; [reflexivity | exact H]. Qed.

Lemma ignores_unmodelled {A} : ignores paths (@unmodelled A).
Proof. intros w1 w2 H. exact I. Qed.

Lemma ignores_print line : ignores paths (print line).
Proof.
  intros w1 w2 [T F]. simpl. split; [reflexivity|].
  split; simpl; [now rewrite T | exact F].
Qed.

Lemma ignores_bind {A B} (m : py A) (f : A -> py B) :
  ignores paths m -> (forall a, ignores paths (f a)) -> ignores paths (m ≫= f).
Proof.
  intros Hm Hf w1 w2 H. rewrite !bind_unfold.
  specialize (Hm w1 w2 H).
  destruct (m w1) as [a1 w1'|e1 w1'|], (m w2) as [a2 w2'|e2 w2'|];
    simpl in Hm; try contradiction.
  - destruct Hm as [-> Hm]. apply Hf, Hm.
  - exact Hm.
  - exact I.
Qed.

Lemma ignores_try_except {A} (body handler : py A) caught :
  ignores paths body -> ignores paths handler ->
  ignores paths (try_except body caught handler).
Proof.
  intros Hb Hh w1 w2 H. unfold try_except.
  specialize (Hb w1 w2 H).
  destruct (body w1) as [a1 w1'|e1 w1'|], (body w2) as [a2 w2'|e2 w2'|];
    simpl in Hb; try contradiction.
  - exact Hb.
  - destruct Hb as [-> Hb]. destruct (bool_decide (e2 ∈ caught)).
    + apply Hh, Hb.
    + simpl. split; [reflexivity | exact Hb].
  - exact I.
Qed.

Lemma ignores_load_data file_path :
  file_path ∉ paths -> ignores paths (load_data file_path).
Proof.
  intros Hp w1 w2 [T F]. rewrite !load_data_eq, (F _ Hp).
  destruct (files w2 !! file_path) as [bytes|].
  - destruct (Utf8.decode bytes) as [text| |]; simpl.
    + destruct (loads text); simpl.
      * split; [reflexivity|]. split; assumption.
      * split; [reflexivity|]. split; simpl; [now rewrite T | exact F].
      * exact I.
    + split; [reflexivity|]. split; assumption.
    + exact I.
  - simpl. split; [reflexivity|]. split; assumption.
Qed.

Lemma ignores_save_data file_path data : ignores paths (save_data file_path data).
Proof.
  intros w1 w2 [T F]. rewrite !save_data_eq. simpl. split; [reflexivity|].
  split; simpl; [now rewrite T|].
  intros p Hp. destruct (decide (p = file_path)) as [->|Hne].
  - rewrite !lookup_insert_eq. reflexivity.
  - rewrite !lookup_insert_ne by congruence. apply F, Hp.
Qed.

Lemma ignores_py_contains k c : ignores paths (py_contains k c).
Proof. destruct c, k; first [apply ignores_ret | apply ignores_raise]. Qed.

Lemma ignores_py_getitem c k : ignores paths (py_getitem c k).
Proof.
  destruct c, k; simpl; try destruct (dict_get _ _);
    first [apply ignores_ret | apply ignores_raise | apply ignores_unmodelled].
Qed.

Lemma ignores_py_setitem c k v : ignores paths (py_setitem c k v).
Proof.
  destruct c, k;
    first [apply ignores_ret | apply ignores_raise | apply ignores_unmodelled].
Qed.

Lemma ignores_py_delitem c k : ignores paths (py_delitem c k).
Proof.
  destruct c, k; simpl; try destruct (dict_mem _ _);
    first [apply ignores_ret | apply ignores_raise | apply ignores_unmodelled].
Qed.

Lemma ignores_py_add_int a n : ignores paths (py_add_int a n).
Proof. destruct a; first [apply ignores_ret | apply ignores_raise]. Qed.

Lemma ignores_py_iadd_item2 c k1 k2 n : ignores paths (py_iadd_item2 c k1 k2 n).
Proof.
  unfold py_iadd_item2.
  repeat first [ apply ignores_bind; [|intros ?]
               | apply ignores_py_getitem | apply ignores_py_setitem
               | apply ignores_py_add_int ].
Qed.

End Reads.

Ltac unread :=
  repeat first
    [ apply ignores_load_data; assumption
    | apply ignores_save_data
    | apply ignores_py_contains | apply ignores_py_getitem
    | apply ignores_py_setitem | apply ignores_py_delitem
    | apply ignores_py_add_int | apply ignores_py_iadd_item2
    | apply ignores_ret | apply ignores_raise | apply ignores_print
    | match goal with |- ignores _ (if ?b then _ else _) => destruct b end
    | apply ignores_bind; [|intros ?] ].

Lemma not_elem_of_cons_l {A} (x y : A) (l : list A) : x ∉ y :: l -> x <> y.
Proof. intros H ->. apply H. left. Qed.

(** ** Values within the limits of the interpreter *)

Lemma fits_dict bound depth items :
  fits bound (S depth) (PDict items)
  <-> Forall (fun kv => fits bound depth kv.2) items.
Proof.
  induction items as [|[k x] items IH].
  - split; [constructor | intros _; exact I].
  - change (fits bound (S depth) (PDict ((k, x) :: items)))
      with (fits bound depth x /\ fits bound (S depth) (PDict items)).
    rewrite IH, Forall_cons. reflexivity.
Qed.

Lemma fits_mono v :
  forall bound bound' depth depth',
    bound <= bound' -> (depth <= depth')%nat ->
    fits bound depth v -> fits bound' depth' v.
Proof.
  induction v as [z|s|items IH] using pyval_ind'; intros b b' d d' Hb Hd H.
  - change (Z.abs z < b) in H. change (Z.abs z < b'). lia.
  - exact I.
  - destruct d as [|d]; [destruct H|]. destruct d' as [|d']; [lia|].
    rewrite fits_dict in *. rewrite Forall_forall in *.
    intros kv Hin. eapply (IH kv Hin b b' d d'); [lia | lia | apply H, Hin].
Qed.

Lemma fits_dict_set bound depth k v d :
  fits bound depth v -> fits bound (S depth) (PDict d) ->
  fits bound (S depth) (PDict (dict_set k v d)).
Proof.
  rewrite !fits_dict. intros Hv.
  induction d as [|[k' v'] d IH]; simpl; intros H.
  - constructor; [exact Hv | constructor].
  - apply Forall_cons in H as [H1 H2].
    destruct (String.eqb k k'); constructor; auto.
Qed.

Lemma fits_dict_del bound depth k d :
  fits bound (S depth) (PDict d) -> fits bound (S depth) (PDict (dict_del k d)).
Proof.
  rewrite !fits_dict.
  induction d as [|[k' v'] d IH]; simpl; intros H; [constructor|].
  apply Forall_cons in H as [H1 H2].
  destruct (String.eqb k k'); [exact H2 | constructor; auto].
Qed.

Lemma fits_dict_get bound depth k d v :
  fits bound (S depth) (PDict d) -> dict_get k d = Some v -> fits bound depth v.
Proof.
  rewrite fits_dict.
  induction d as [|[k' v'] d IH]; simpl; intros H Hget; [discriminate|].
  apply Forall_cons in H as [H1 H2].
  destruct (String.eqb k k'); [inversion Hget; subst; exact H1 | auto].
Qed.

Lemma fits_available bound depth hid h hotels n :
  fits bound (S depth) (PDict hotels) ->
  dict_get hid hotels = Some (PDict h) ->
  dict_get "available_rooms" h = Some (PInt n) ->
  Z.abs n < bound.
Proof.
  intros H Hget Hav. pose proof (fits_dict_get _ _ _ _ _ H Hget) as Hh.
  destruct depth as [|depth]; [destruct Hh|].
  exact (fits_dict_get _ _ _ _ _ Hh Hav).
Qed.

Lemma fits_with_available bound depth hid n h hotels :
  fits bound (S depth) (PDict hotels) ->
  dict_get hid hotels = Some (PDict h) ->
  Z.abs n < bound ->
  fits bound (S depth) (PDict (with_available hid n h hotels)).
Proof.
  intros H Hget Hn. pose proof (fits_dict_get _ _ _ _ _ H Hget) as Hh.
  destruct depth as [|depth]; [destruct Hh|].
  apply fits_dict_set; [|exact H].
  apply fits_dict_set; [exact Hn | exact Hh].
Qed.

Lemma fits_hotel bound depth uuid4 name location rooms :
  Z.abs rooms < bound ->
  fits bound (S depth) (Hotel.to_dict (Hotel.init uuid4 name location rooms)).
Proof. intros H. simpl. tauto. Qed.

Lemma fits_customer bound depth c : fits bound (S depth) (Customer.to_dict c).
Proof. simpl. tauto. Qed.

Lemma fits_reservation bound depth r : fits bound (S depth) (Reservation.to_dict r).
Proof. simpl. tauto. Qed.

Lemma mappings_fit_mono bound bound' s :
  bound <= bound' -> mappings_fit bound s -> mappings_fit bound' s.
Proof.
  intros Hb (Hh & Hc & Hr).
  repeat split; eapply fits_mono; try eassumption; lia.
Qed.

Lemma rooms_below_mono bound bound' c :
  bound <= bound' -> rooms_below bound c -> rooms_below bound' c.
Proof. destruct c; simpl; lia || auto. Qed.

(** One call lets the integers of the mappings grow by one at most. *)
Lemma fit_apply_call (bound : Z) (c : call) (s : stores) :
  mappings_fit bound s -> rooms_below bound c ->
  mappings_fit (bound + 1) (apply_call c s).
Proof.
  intros Hfit Hc.
  assert (Hbase : mappings_fit (bound + 1) s)
    by (eapply mappings_fit_mono; [|exact Hfit]; lia).
  destruct s as [hs cs rs]. destruct Hfit as (Fh0 & _). destruct Hbase as (Fh & Fc & Fr).
  unfold mappings_fit. simpl in *.
  change MAX_DEPTH with (S (S 98%nat)) in *.
  assert (Hkeep : fits (bound + 1) (S (S 98%nat)) (PDict hs) /\
                  fits (bound + 1) (S (S 98%nat)) (PDict cs) /\
                  fits (bound + 1) (S (S 98%nat)) (PDict rs))
    by (repeat split; assumption).
  destruct c as [u n l r|hid|u n e|cid|u cid hid|rid]; simpl.
  - split; [|split; assumption].
    apply fits_dict_set; [apply fits_hotel; simpl in Hc; lia | exact Fh].
  - split; [apply fits_dict_del, Fh | split; assumption].
  - split; [exact Fh|]. split; [|exact Fr].
    apply fits_dict_set; [apply fits_customer | exact Fc].
  - split; [exact Fh|]. split; [apply fits_dict_del, Fc | exact Fr].
  - destruct (dict_get hid hs) as [[z|t|h]|] eqn:E; try exact Hkeep.
    destruct (dict_get "available_rooms" h) as [[a|t|d]|] eqn:Ea; try exact Hkeep.
    destruct (a =? 0); [exact Hkeep|]. simpl.
    pose proof (fits_available _ _ _ _ _ _ Fh0 E Ea) as Ha.
    split; [apply fits_with_available; [exact Fh | exact E | lia]|].
    split; [exact Fc|].
    apply fits_dict_set; [apply fits_reservation | exact Fr].
  - destruct (dict_get rid rs) as [res|] eqn:E; [|exact Hkeep].
    destruct (field "hotel_id" res) as [[z|h0|d]|] eqn:Ef; try exact Hkeep.
    + simpl. split; [exact Fh|]. split; [exact Fc | apply fits_dict_del, Fr].
    + destruct (dict_get h0 hs) as [[z|t|h]|] eqn:Eh; try exact Hkeep.
      * destruct (dict_get "available_rooms" h) as [[a|t|d]|] eqn:Ea; try exact Hkeep.
        simpl. pose proof (fits_available _ _ _ _ _ _ Fh0 Eh Ea) as Ha.
        split; [apply fits_with_available; [exact Fh | exact Eh | lia]|].
        split; [exact Fc | apply fits_dict_del, Fr].
      * simpl. split; [exact Fh|]. split; [exact Fc | apply fits_dict_del, Fr].
Qed.

Lemma apply_calls_cons c calls s :
  apply_calls (c :: calls) s = apply_calls calls (apply_call c s).
Proof. reflexivity. Qed.

(** A run of calls lets them grow by the number of calls at most. *)
Lemma fit_apply_calls (calls : list call) :
  forall (bound : Z) (s : stores),
    mappings_fit bound s -> Forall (rooms_below bound) calls ->
    mappings_fit (bound + Z.of_nat (length calls)) (apply_calls calls s).
Proof.
  induction calls as [|c calls IH]; intros bound s Hfit Hrooms.
  - simpl. rewrite Z.add_0_r. exact Hfit.
  - apply Forall_cons in Hrooms as [Hc Hrooms].
    rewrite apply_calls_cons.
    replace (bound + Z.of_nat (length (c :: calls)))
      with (bound + 1 + Z.of_nat (length calls)) by (simpl length; lia).
    apply IH; [apply fit_apply_call; assumption|].
    eapply Forall_impl; [exact Hrooms|].
    intros c' Hc'. eapply rooms_below_mono; [|exact Hc']. lia.
Qed.

Lemma fit_empty bound : mappings_fit bound (Stores [] [] []).
Proof. repeat split. Qed.

(** ** The operations on the decoded stores *)

Lemma shows_same_files w w' s :
  files w' !! HOTELS_FILE = files w !! HOTELS_FILE ->
  files w' !! CUSTOMERS_FILE = files w !! CUSTOMERS_FILE ->
  files w' !! RESERVATIONS_FILE = files w !! RESERVATIONS_FILE ->
  shows w s -> shows w' s.
Proof.
  intros Fh Fc Fr (Hh & Hc & Hr). repeat split.
  - rewrite <- Hh. apply stored_files, Fh.
  - rewrite <- Hc. apply stored_files, Fc.
  - rewrite <- Hr. apply stored_files, Fr.
Qed.

Lemma stored_other w w' p q bytes :
  files w' = <[q := bytes]> (files w) -> p <> q -> stored w' p = stored w p.
Proof. intros F Hne. apply stored_files. rewrite F. apply lookup_insert_ne. congruence. Qed.

Lemma stored_other2 w w' p q1 q2 b1 b2 :
  files w' = <[q1 := b1]> (<[q2 := b2]> (files w)) -> p <> q1 -> p <> q2 ->
  stored w' p = stored w p.
Proof.
  intros F H1 H2. apply stored_files. rewrite F.
  rewrite !lookup_insert_ne by congruence. reflexivity.
Qed.

Lemma dict_del_absent k d : dict_get k d = None -> dict_del k d = d.
Proof.
  induction d as [|[k' v'] d IH]; simpl; [reflexivity|].
  destruct (String.eqb k k'); [discriminate|]. intros H. now rewrite (IH H).
Qed.

Lemma dict_del_nodup k d : NoDup (map fst d) -> NoDup (map fst (dict_del k d)).
Proof.
  induction d as [|[k' v'] d IH]; simpl; [constructor|].
  intros Hnd. apply NoDup_cons in Hnd as [Hk Hnd].
  destruct (String.eqb k k'); [exact Hnd|]. simpl. apply NoDup_cons. split.
  - intros Hin. apply Hk. eapply dict_del_keys_subseteq, Hin.
  - apply IH, Hnd.
Qed.

(** Each call, on stores whose records are in shape, returns and leaves the
    files holding what [apply_call] computes; what it wrote to the hotels
    file is what that file holds afterwards. *)
Lemma perform_apply_call (c : call) (w : world) (s : stores) :
  shows w s -> records_shaped (hotels_of s) (reservations_of s) ->
  exists w',
    perform c w = Return tt w' /\ hotel_writes_current w w' /\
    shows w' (apply_call c s).
Proof.
  destruct s as [hs cs rs]. intros (Hh & Hc & Hr) [Hhot Hres]. simpl in *.
  destruct c as [u n l r|hid|u n e|cid|u cid hid|rid]; simpl.
  - destruct (create_hotel_stored u n l r w hs Hh) as (w' & lines & Hrun & F & T & Sh).
    exists w'. split; [eapply perform_return, Hrun|].
    split; [eapply hotel_write_last; [exact T | rewrite F; apply lookup_insert_eq]|].
    repeat split; simpl.
    + exact Sh.
    + rewrite <- Hc. eapply stored_other; [exact F | discriminate].
    + rewrite <- Hr. eapply stored_other; [exact F | discriminate].
  - destruct (dict_get hid hs) as [hotel|] eqn:E.
    + destruct (delete_hotel_present hid w hs hotel Hh E)
        as (w' & lines & Hrun & F & T & Sh).
      exists w'. split; [eapply perform_return, Hrun|].
      split; [eapply hotel_write_last; [exact T | rewrite F; apply lookup_insert_eq]|].
      repeat split; simpl.
      * exact Sh.
      * rewrite <- Hc. eapply stored_other; [exact F | discriminate].
      * rewrite <- Hr. eapply stored_other; [exact F | discriminate].
    + destruct (delete_hotel_absent hid w hs Hh E) as (w' & lines & Hrun & F & T).
      exists w'. split; [eapply perform_return, Hrun|].
      split; [eapply no_hotel_write, T|].
      rewrite (dict_del_absent _ _ E).
      apply (shows_same_files w); try (now rewrite F). repeat split; assumption.
  - destruct (create_customer_exact u n e w cs Hc) as (w' & lines & Hrun & F & T & Sc).
    exists w'. split; [eapply perform_return, Hrun|].
    split; [eapply other_write; [exact T | discriminate]|].
    repeat split; simpl.
    + rewrite <- Hh. eapply stored_other; [exact F | discriminate].
    + exact Sc.
    + rewrite <- Hr. eapply stored_other; [exact F | discriminate].
  - destruct (dict_get cid cs) as [customer|] eqn:E.
    + destruct (delete_customer_present cid w cs customer Hc E)
        as (w' & lines & Hrun & F & T & Sc).
      exists w'. split; [eapply perform_return, Hrun|].
      split; [eapply other_write; [exact T | discriminate]|].
      repeat split; simpl.
      * rewrite <- Hh. eapply stored_other; [exact F | discriminate].
      * exact Sc.
      * rewrite <- Hr. eapply stored_other; [exact F | discriminate].
    + destruct (delete_customer_absent cid w cs Hc E) as (w' & lines & Hrun & F & T).
      exists w'. split; [eapply perform_return, Hrun|].
      split; [eapply no_hotel_write, T|].
      rewrite (dict_del_absent _ _ E).
      apply (shows_same_files w); try (now rewrite F). repeat split; assumption.
  - destruct (dict_get hid hs) as [hotel|] eqn:E.
    2:{ destruct (create_reservation_refusal u cid hid w (PDict rs) hs
                    Hr Hh (or_introl E)) as (w' & Hrun & F & T).
        exists w'. split; [eapply perform_return, Hrun|].
        split; [apply same_writes, T|].
        apply (shows_same_files w); try (now rewrite F). repeat split; assumption. }
    destruct (Hhot hid hotel E) as (a & Ha).
    destruct hotel as [z|t|h]; try discriminate. simpl in Ha. rewrite Ha.
    destruct (Z.eqb_spec a 0) as [->|Hne].
    + destruct (create_reservation_refusal u cid hid w (PDict rs) hs Hr Hh)
        as (w' & Hrun & F & T).
      { right. exists (PDict h). split; [exact E | exact Ha]. }
      exists w'. split; [eapply perform_return, Hrun|].
      split; [apply same_writes, T|].
      apply (shows_same_files w); try (now rewrite F). repeat split; assumption.
    + destruct (create_reservation_success u cid hid w rs hs h a Hr Hh E Ha Hne)
        as (w' & lines & Hrun & F & T & Sh & Sr).
      exists w'. split; [eapply perform_return, Hrun|].
      split.
      { eapply hotel_write_then; [exact T | discriminate|].
        rewrite F, lookup_insert_ne by discriminate. apply lookup_insert_eq. }
      repeat split; simpl.
      * exact Sh.
      * rewrite <- Hc. eapply stored_other2; [exact F | discriminate | discriminate].
      * exact Sr.
  - destruct (dict_get rid rs) as [res|] eqn:E.
    2:{ destruct (cancel_reservation_absent rid w rs (PDict hs) Hr Hh E)
          as (w' & lines & Hrun & F & T).
        exists w'. split; [eapply perform_return, Hrun|].
        split; [eapply no_hotel_write, T|].
        apply (shows_same_files w); try (now rewrite F). repeat split; assumption. }
    destruct (Hres rid res E) as (h0 & Hf). rewrite Hf.
    destruct (dict_get h0 hs) as [hotel|] eqn:Eh.
    + destruct (Hhot h0 hotel Eh) as (a & Ha).
      destruct hotel as [z|t|h]; try discriminate. simpl in Ha. rewrite Ha.
      destruct (cancel_reservation_hotel_present rid h0 w rs hs h res a
                  Hr Hh E Hf Eh Ha) as (w' & lines & Hrun & F & T & Sh & Sr).
      exists w'. split; [eapply perform_return, Hrun|].
      split.
      { eapply hotel_write_then; [exact T | discriminate|].
        rewrite F, lookup_insert_ne by discriminate. apply lookup_insert_eq. }
      repeat split; simpl.
      * exact Sh.
      * rewrite <- Hc. eapply stored_other2; [exact F | discriminate | discriminate].
      * exact Sr.
    + destruct (cancel_reservation_hotel_absent rid h0 w rs hs res Hr Hh E Hf Eh)
        as (w' & lines & Hrun & F & T & Sh & Sr).
      exists w'. split; [eapply perform_return, Hrun|].
      split; [eapply other_write; [exact T | discriminate]|].
      repeat split; simpl.
      * exact Sh.
      * rewrite <- Hc. eapply stored_other; [exact F | discriminate].
      * exact Sr.
Qed.

(** [apply_call] keeps the records in shape. *)
Lemma records_shaped_apply_call (c : call) (s : stores) :
  NoDup (map fst (hotels_of s)) -> NoDup (map fst (reservations_of s)) ->
  records_shaped (hotels_of s) (reservations_of s) ->
  records_shaped (hotels_of (apply_call c s)) (reservations_of (apply_call c s)).
Proof.
  destruct s as [hs cs rs]. intros Nh Nr [Hhot Hres]. simpl in *.
  assert (Hbase : records_shaped hs rs) by (split; assumption).
  destruct c as [u n l r|hid|u n e|cid|u cid hid|rid]; simpl; try exact Hbase.
  - split; [|exact Hres]. intros id hotel Hget.
    apply dict_get_set_some in Hget as [[-> ->]|[_ Hget]]; [|eauto].
    exists r. reflexivity.
  - split; [|exact Hres]. intros id hotel Hget.
    apply dict_get_del_some in Hget; eauto.
  - destruct (dict_get hid hs) as [[z|t|h]|] eqn:E; try exact Hbase.
    destruct (dict_get "available_rooms" h) as [[a|t|d]|] eqn:Ea; try exact Hbase.
    destruct (a =? 0); [exact Hbase|]. simpl. split.
    + intros id hotel Hget. unfold with_available in Hget.
      apply dict_get_set_some in Hget as [[-> ->]|[_ Hget]]; [|eauto].
      exists (a - 1). simpl. apply dict_get_set_eq.
    + intros id res Hget.
      apply dict_get_set_some in Hget as [[-> ->]|[_ Hget]]; [|eauto].
      exists hid. reflexivity.
  - destruct (dict_get rid rs) as [res|] eqn:E; [|exact Hbase].
    destruct (Hres rid res E) as (h0 & Ef). rewrite Ef.
    assert (Hres' : forall id r', dict_get id (dict_del rid rs) = Some r' ->
                                  exists h, field "hotel_id" r' = Some (PStr h)).
    { intros id r' Hget. apply dict_get_del_some in Hget; eauto. }
    destruct (dict_get h0 hs) as [[z|t|h]|] eqn:Eh; try exact Hbase.
    + destruct (dict_get "available_rooms" h) as [[a|t|d]|] eqn:Ea; try exact Hbase.
      simpl. split; [|exact Hres'].
      intros id hotel Hget. unfold with_available in Hget.
      apply dict_get_set_some in Hget as [[-> ->]|[_ Hget]]; [|eauto].
      exists (a + 1). simpl. apply dict_get_set_eq.
    + simpl. split; [exact Hhot | exact Hres'].
Qed.

Lemma shows_nodup w s :
  shows w s -> NoDup (map fst (hotels_of s)) /\ NoDup (map fst (reservations_of s)).
Proof.
  intros (Hh & _ & Hr). split.
  - apply (stored_wf _ _ _ Hh).
  - apply (stored_wf _ _ _ Hr).
Qed.

(** [apply_call] keeps the keys of the mappings distinct. *)
Lemma nodup_apply_call (c : call) (s : stores) :
  NoDup (map fst (hotels_of s)) -> NoDup (map fst (reservations_of s)) ->
  NoDup (map fst (hotels_of (apply_call c s))) /\
  NoDup (map fst (reservations_of (apply_call c s))).
Proof.
  destruct s as [hs cs rs]. simpl. intros Nh Nr.
  destruct c as [u n l r|hid|u n e|cid|u cid hid|rid]; simpl;
    repeat case_match; simpl; unfold with_available;
    split; auto using dict_set_nodup, dict_del_nodup.
Qed.

(** A run on stores whose records are in shape returns, and the files hold
    what [apply_calls] computes; each content the run wrote to the hotels
    file is the hotels mapping that a beginning of the run computes. *)
Lemma run_apply_calls (calls : list call) :
  forall (w : world) (s : stores),
    shows w s -> records_shaped (hotels_of s) (reservations_of s) ->
    exists w',
      run calls w = Return tt w' /\
      shows w' (apply_calls calls s) /\
      records_shaped (hotels_of (apply_calls calls s))
                     (reservations_of (apply_calls calls s)) /\
      forall content,
        (HOTELS_FILE, content) ∈ writes (trace w') ->
        (HOTELS_FILE, content) ∈ writes (trace w) \/
        exists done todo,
          calls = done ++ todo /\
          stored (World {[ HOTELS_FILE := content ]} []) HOTELS_FILE
          = Some (PDict (hotels_of (apply_calls done s))).
Proof.
  induction calls as [|c calls IH]; intros w s Hs Hshape.
  - exists w. split; [reflexivity|]. split; [exact Hs|]. split; [exact Hshape|]. auto.
  - destruct (perform_apply_call c w s Hs Hshape) as (w1 & Hrun1 & Hw1 & Hs1).
    destruct (shows_nodup _ _ Hs) as [Nh Nr].
    pose proof (records_shaped_apply_call c s Nh Nr Hshape) as Hshape1.
    destruct (IH w1 _ Hs1 Hshape1) as (w' & Hrun & Hs' & Hshape' & Hw').
    exists w'. split; [|split; [exact Hs'|split; [exact Hshape'|]]].
    + simpl run. rewrite (bind_return _ _ _ _ _ Hrun1). exact Hrun.
    + intros content Hin.
      destruct (Hw' content Hin) as [Hin1|(done & todo & -> & Hst)].
      * destruct (Hw1 content Hin1) as [Hin0|F]; [left; exact Hin0|].
        right. exists [c], calls. split; [reflexivity|].
        change (apply_calls [c] s) with (apply_call c s).
        destruct Hs1 as (Sh1 & _). rewrite <- Sh1. apply stored_files. simpl.
        rewrite lookup_singleton_eq. symmetry. exact F.
      * right. exists (c :: done), todo. split; [reflexivity | exact Hst].
Qed.

Lemma hotel_uuids_app calls1 calls2 :
  hotel_uuids (calls1 ++ calls2) = hotel_uuids calls1 ++ hotel_uuids calls2.
Proof. apply flat_map_app. Qed.

Lemma reservation_uuids_app calls1 calls2 :
  reservation_uuids (calls1 ++ calls2)
  = reservation_uuids calls1 ++ reservation_uuids calls2.
Proof. apply flat_map_app. Qed.

Lemma hotel_uuids_cons c calls :
  hotel_uuids (c :: calls) = hotel_uuids [c] ++ hotel_uuids calls.
Proof. apply (hotel_uuids_app [c]). Qed.

Lemma reservation_uuids_cons c calls :
  reservation_uuids (c :: calls) = reservation_uuids [c] ++ reservation_uuids calls.
Proof. apply (reservation_uuids_app [c]). Qed.

Lemma shows_empty : shows empty_stores (Stores [] [] []).
Proof. repeat split. Qed.

Lemma shaped_empty : records_shaped [] [].
Proof. split; intros ? ? ?; discriminate. Qed.

(** ** Rooms free and rooms booked *)

Lemma booked_set_fresh hid u new rs :
  dict_get u rs = None ->
  booked hid (dict_set u new rs) = booked hid rs + (if refers hid new then 1 else 0).
Proof.
  induction rs as [|[k r] rs IH]; simpl.
  - intros _. lia.
  - destruct (String.eqb u k); [discriminate|]. intros H. simpl. rewrite (IH H). lia.
Qed.

Lemma refers_inv hid r h :
  field "hotel_id" r = Some (PStr h) -> refers hid r = String.eqb h hid.
Proof. intros H. unfold refers. rewrite H. reflexivity. Qed.

Lemma field_available_set n h key :
  key <> "available_rooms" ->
  field key (PDict (dict_set "available_rooms" (PInt n) h)) = field key (PDict h).
Proof. intros Hne. simpl. apply dict_get_set_ne. congruence. Qed.

(** One call keeps the balance, when the identifier it is given is new. *)
Lemma balanced_apply_call (c : call) (s : stores) (uh ur : list string) :
  NoDup (map fst (hotels_of s)) -> NoDup (map fst (reservations_of s)) ->
  balanced uh ur (hotels_of s) (reservations_of s) ->
  (forall u, u ∈ hotel_uuids [c] -> u ∉ uh) ->
  (forall u, u ∈ reservation_uuids [c] -> u ∉ ur) ->
  balanced (hotel_uuids [c] ++ uh) (reservation_uuids [c] ++ ur)
           (hotels_of (apply_call c s)) (reservations_of (apply_call c s)).
Proof.
  destruct s as [hs cs rs]. intros Nh Nr [Hhot Hres] Fh Fr. simpl in *.
  assert (Hbase : forall uh' ur', uh ⊆ uh' -> ur ⊆ ur' -> balanced uh' ur' hs rs).
  { intros uh' ur' Ih Ir. split.
    - intros id hotel Hget. destruct (Hhot id hotel Hget) as (Hin & Hrest).
      split; [apply Ih, Hin | exact Hrest].
    - intros id res Hget. destruct (Hres id res Hget) as (Hin & h & Hf & Hh).
      split; [apply Ir, Hin|]. exists h. split; [exact Hf | apply Ih, Hh]. }
  destruct c as [u n l r|hid|u n e|cid|u cid hid|rid]; simpl.
  - (* create_hotel *)
    assert (Hu : u ∉ uh) by (apply Fh; left).
    split.
    + intros id hotel Hget.
      apply dict_get_set_some in Hget as [[-> ->]|[Hne Hget]].
      * split; [left|]. exists r, r. split; [reflexivity|]. split; [reflexivity|].
        rewrite (booked_unused u uh rs); [lia| |exact Nr|exact Hu].
        intros rid res Hg. destruct (Hres rid res Hg) as (_ & h & Hf & Hh). eauto.
      * destruct (Hhot id hotel Hget) as (Hin & Hrest). split; [right; exact Hin|].
        exact Hrest.
    + intros id res Hget. destruct (Hres id res Hget) as (Hin & h & Hf & Hh).
      split; [exact Hin|]. exists h. split; [exact Hf | right; exact Hh].
  - (* delete_hotel *)
    split; [|exact Hres].
    intros id hotel Hget. apply dict_get_del_some in Hget; [|exact Nh].
    exact (Hhot id hotel Hget).
  - apply Hbase; done.
  - apply Hbase; done.
  - (* create_reservation *)
    assert (Hkeep : balanced uh (u :: ur) hs rs).
    { apply Hbase; [done|]. intros x Hx. right. exact Hx. }
    assert (Hu : dict_get u rs = None).
    { destruct (dict_get u rs) as [res|] eqn:E; [|reflexivity].
      destruct (Hres u res E) as (Hin & _). exfalso. apply (Fr u); [left | exact Hin]. }
    destruct (dict_get hid hs) as [[z|t|h]|] eqn:E; try exact Hkeep.
    destruct (dict_get "available_rooms" h) as [[a|t|d]|] eqn:Ea; try exact Hkeep.
    destruct (a =? 0); [exact Hkeep|]. simpl.
    destruct (Hhot hid (PDict h) E) as (Hhid & rooms & a' & Hrooms & Ha' & Hsum).
    simpl in Ha'. rewrite Ea in Ha'. injection Ha' as <-.
    split.
    + intros id hotel Hget. unfold with_available in Hget.
      rewrite booked_set_fresh by exact Hu.
      rewrite (refers_inv id _ hid) by reflexivity.
      apply dict_get_set_some in Hget as [[-> ->]|[Hne Hget]].
      * split; [exact Hhid|]. exists rooms, (a - 1).
        split; [rewrite field_available_set by discriminate; exact Hrooms|].
        split; [simpl; apply dict_get_set_eq|].
        rewrite String.eqb_refl. lia.
      * destruct (Hhot id hotel Hget) as (Hin & rooms' & a' & Hr' & Ha' & Hsum').
        split; [exact Hin|]. exists rooms', a'. split; [exact Hr'|]. split; [exact Ha'|].
        destruct (String.eqb_spec hid id) as [->|_]; [contradiction | lia].
    + intros id res Hget.
      apply dict_get_set_some in Hget as [[-> ->]|[Hne Hget]].
      * split; [left|]. exists hid. split; [reflexivity | exact Hhid].
      * destruct (Hres id res Hget) as (Hin & Hrest). split; [right; exact Hin | exact Hrest].
  - (* cancel_reservation *)
    assert (Hkeep : balanced uh ur hs rs) by (apply Hbase; done).
    destruct (dict_get rid rs) as [res|] eqn:E; [|exact Hkeep].
    destruct (Hres rid res E) as (_ & h0 & Hf & Hh0). rewrite Hf.
    assert (Hres' : forall id r', dict_get id (dict_del rid rs) = Some r' ->
              id ∈ ur /\ exists h, field "hotel_id" r' = Some (PStr h) /\ h ∈ uh).
    { intros id r' Hget. apply dict_get_del_some in Hget; [|exact Nr]. eauto. }
    destruct (dict_get h0 hs) as [[z|t|h]|] eqn:Eh; try exact Hkeep.
    + destruct (dict_get "available_rooms" h) as [[a|t|d]|] eqn:Ea; try exact Hkeep.
      simpl. split; [|exact Hres'].
      destruct (Hhot h0 (PDict h) Eh) as (Hhid & rooms & a' & Hrooms & Ha' & Hsum).
      simpl in Ha'. rewrite Ea in Ha'. injection Ha' as <-.
      intros id hotel Hget. unfold with_available in Hget.
      rewrite (booked_del id rid rs res E), (refers_inv id _ h0 Hf).
      apply dict_get_set_some in Hget as [[-> ->]|[Hne Hget]].
      * split; [exact Hhid|]. exists rooms, (a + 1).
        split; [rewrite field_available_set by discriminate; exact Hrooms|].
        split; [simpl; apply dict_get_set_eq|].
        rewrite String.eqb_refl. lia.
      * destruct (Hhot id hotel Hget) as (Hin & rooms' & a' & Hr' & Ha' & Hsum').
        split; [exact Hin|]. exists rooms', a'. split; [exact Hr'|]. split; [exact Ha'|].
        destruct (String.eqb_spec h0 id) as [->|_]; [contradiction | lia].
    + simpl. split; [|exact Hres'].
      intros id hotel Hget.
      rewrite (booked_del id rid rs res E), (refers_inv id _ h0 Hf).
      destruct (Hhot id hotel Hget) as (Hin & rooms' & a' & Hr' & Ha' & Hsum').
      split; [exact Hin|]. exists rooms', a'. split; [exact Hr'|]. split; [exact Ha'|].
      destruct (String.eqb_spec h0 id) as [->|_]; [congruence | lia].
Qed.

Lemma balanced_shaped uh ur hs rs : balanced uh ur hs rs -> records_shaped hs rs.
Proof.
  intros [Hhot Hres]. split.
  - intros id hotel Hget. destruct (Hhot id hotel Hget) as (_ & r & a & _ & Ha & _). eauto.
  - intros id res Hget. destruct (Hres id res Hget) as (_ & h & Hf & _). eauto.
Qed.

(** A run of calls keeps the balance, when no identifier is given twice. *)
Lemma balanced_apply_calls (calls : list call) :
  forall (s : stores) (uh ur : list string),
    NoDup (map fst (hotels_of s)) -> NoDup (map fst (reservations_of s)) ->
    balanced uh ur (hotels_of s) (reservations_of s) ->
    NoDup (hotel_uuids calls) -> NoDup (reservation_uuids calls) ->
    (forall u, u ∈ hotel_uuids calls -> u ∉ uh) ->
    (forall u, u ∈ reservation_uuids calls -> u ∉ ur) ->
    exists uh' ur',
      balanced uh' ur' (hotels_of (apply_calls calls s))
                       (reservations_of (apply_calls calls s)).
Proof.
  induction calls as [|c calls IH]; intros s uh ur Dh Dr Hb Nh Nr Fh Fr.
  - exists uh, ur. exact Hb.
  - rewrite hotel_uuids_cons in Nh, Fh. rewrite reservation_uuids_cons in Nr, Fr.
    apply NoDup_app in Nh as (Nh1 & Nh2 & Nh3).
    apply NoDup_app in Nr as (Nr1 & Nr2 & Nr3).
    destruct (nodup_apply_call c s Dh Dr) as [Dh1 Dr1].
    assert (Hb1 : balanced (hotel_uuids [c] ++ uh) (reservation_uuids [c] ++ ur)
                    (hotels_of (apply_call c s)) (reservations_of (apply_call c s))).
    { apply balanced_apply_call; try assumption.
      - intros u Hu. apply Fh, elem_of_app. left. exact Hu.
      - intros u Hu. apply Fr, elem_of_app. left. exact Hu. }
    rewrite apply_calls_cons.
    apply (IH _ _ _ Dh1 Dr1 Hb1 Nh3 Nr3).
    + intros u Hu Hin. apply elem_of_app in Hin as [Hin|Hin].
      * apply (Nh2 u Hin Hu).
      * apply (Fh u); [apply elem_of_app; right; exact Hu | exact Hin].
    + intros u Hu Hin. apply elem_of_app in Hin as [Hin|Hin].
      * apply (Nr2 u Hin Hu).
      * apply (Fr u); [apply elem_of_app; right; exact Hu | exact Hin].
Qed.

(** ** Rooms free within the capacity *)

(** One call keeps every hotel within its capacity, when the identifier it
    is given for a hotel is new. *)
Lemma capacity_apply_call (c : call) (s : stores) (used : list string) :
  NoDup (map fst (hotels_of s)) -> NoDup (map fst (reservations_of s)) ->
  capacity used (hotels_of s) (reservations_of s) ->
  (forall u, u ∈ hotel_uuids [c] -> u ∉ used) ->
  capacity (hotel_uuids [c] ++ used)
           (hotels_of (apply_call c s)) (reservations_of (apply_call c s)).
Proof.
  destruct s as [hs cs rs]. intros Nh Nr [Hhot Hres] Fh. simpl in *.
  assert (Hbase : forall used', used ⊆ used' -> capacity used' hs rs).
  { intros used' I. split.
    - intros id hotel Hget. destruct (Hhot id hotel Hget) as (Hin & Hrest).
      split; [apply I, Hin | exact Hrest].
    - intros id res Hget. destruct (Hres id res Hget) as (h & Hf & Hh).
      exists h. split; [exact Hf | apply I, Hh]. }
  destruct c as [u n l r|hid|u n e|cid|u cid hid|rid]; simpl.
  - (* create_hotel *)
    assert (Hu : u ∉ used) by (apply Fh; left).
    split.
    + intros id hotel Hget.
      apply dict_get_set_some in Hget as [[-> ->]|[Hne Hget]].
      * split; [left|]. exists r, r. split; [reflexivity|]. split; [reflexivity|].
        rewrite (booked_unused u used rs Hres Nr Hu). lia.
      * destruct (Hhot id hotel Hget) as (Hin & Hrest). split; [right; exact Hin|].
        exact Hrest.
    + intros id res Hget. destruct (Hres id res Hget) as (h & Hf & Hh).
      exists h. split; [exact Hf | right; exact Hh].
  - (* delete_hotel *)
    split; [|exact Hres].
    intros id hotel Hget. apply dict_get_del_some in Hget; [|exact Nh].
    exact (Hhot id hotel Hget).
  - apply Hbase; done.
  - apply Hbase; done.
  - (* create_reservation *)
    assert (Hkeep : capacity used hs rs) by (apply Hbase; done).
    destruct (dict_get hid hs) as [[z|t|h]|] eqn:E; try exact Hkeep.
    destruct (dict_get "available_rooms" h) as [[a|t|d]|] eqn:Ea; try exact Hkeep.
    destruct (Z.eqb_spec a 0) as [->|Hne]; [exact Hkeep|]. simpl.
    destruct (Hhot hid (PDict h) E) as (Hhid & rooms & a' & Hrooms & Ha' & Hsum & Hlow).
    simpl in Ha'. rewrite Ea in Ha'. injection Ha' as <-.
    split.
    + intros id hotel Hget. unfold with_available in Hget.
      pose proof (booked_set id u
                    (Reservation.to_dict (Reservation.init u cid hid)) rs) as Hb.
      rewrite (refers_inv id _ hid) in Hb by reflexivity.
      apply dict_get_set_some in Hget as [[-> ->]|[Hne' Hget]].
      * split; [exact Hhid|]. exists rooms, (a - 1).
        split; [rewrite field_available_set by discriminate; exact Hrooms|].
        split; [simpl; apply dict_get_set_eq|].
        rewrite String.eqb_refl in Hb. lia.
      * destruct (Hhot id hotel Hget) as (Hin & rooms' & a' & Hr' & Ha' & Hsum' & Hlow').
        split; [exact Hin|]. exists rooms', a'. split; [exact Hr'|]. split; [exact Ha'|].
        destruct (String.eqb_spec hid id) as [->|_]; [contradiction|].
        split; [lia | exact Hlow'].
    + intros id res Hget.
      apply dict_get_set_some in Hget as [[-> ->]|[_ Hget]].
      * exists hid. split; [reflexivity | exact Hhid].
      * exact (Hres id res Hget).
  - (* cancel_reservation *)
    assert (Hkeep : capacity used hs rs) by (apply Hbase; done).
    destruct (dict_get rid rs) as [res|] eqn:E; [|exact Hkeep].
    destruct (Hres rid res E) as (h0 & Hf & Hh0). rewrite Hf.
    assert (Hres' : forall id r', dict_get id (dict_del rid rs) = Some r' ->
              exists h, field "hotel_id" r' = Some (PStr h) /\ h ∈ used).
    { intros id r' Hget. apply dict_get_del_some in Hget; [|exact Nr]. eauto. }
    destruct (dict_get h0 hs) as [[z|t|h]|] eqn:Eh; try exact Hkeep.
    + destruct (dict_get "available_rooms" h) as [[a|t|d]|] eqn:Ea; try exact Hkeep.
      simpl. split; [|exact Hres'].
      destruct (Hhot h0 (PDict h) Eh) as (Hhid & rooms & a' & Hrooms & Ha' & Hsum & Hlow).
      simpl in Ha'. rewrite Ea in Ha'. injection Ha' as <-.
      intros id hotel Hget. unfold with_available in Hget.
      rewrite (booked_del id rid rs res E), (refers_inv id _ h0 Hf).
      apply dict_get_set_some in Hget as [[-> ->]|[Hne Hget]].
      * split; [exact Hhid|]. exists rooms, (a + 1).
        split; [rewrite field_available_set by discriminate; exact Hrooms|].
        split; [simpl; apply dict_get_set_eq|].
        rewrite String.eqb_refl. lia.
      * destruct (Hhot id hotel Hget) as (Hin & rooms' & a' & Hr' & Ha' & Hsum' & Hlow').
        split; [exact Hin|]. exists rooms', a'. split; [exact Hr'|]. split; [exact Ha'|].
        destruct (String.eqb_spec h0 id) as [->|_]; [contradiction|].
        split; [lia | exact Hlow'].
    + simpl. split; [|exact Hres'].
      intros id hotel Hget.
      rewrite (booked_del id rid rs res E), (refers_inv id _ h0 Hf).
      destruct (Hhot id hotel Hget) as (Hin & rooms' & a' & Hr' & Ha' & Hsum' & Hlow').
      split; [exact Hin|]. exists rooms', a'. split; [exact Hr'|]. split; [exact Ha'|].
      destruct (String.eqb_spec h0 id) as [->|_]; [congruence|].
      split; [lia | exact Hlow'].
Qed.

(** A run of calls keeps every hotel within its capacity, when no hotel
    identifier is given twice. *)
Lemma capacity_apply_calls (calls : list call) :
  forall (s : stores) (used : list string),
    NoDup (map fst (hotels_of s)) -> NoDup (map fst (reservations_of s)) ->
    capacity used (hotels_of s) (reservations_of s) ->
    NoDup (hotel_uuids calls) ->
    (forall u, u ∈ hotel_uuids calls -> u ∉ used) ->
    exists used',
      capacity used' (hotels_of (apply_calls calls s))
                     (reservations_of (apply_calls calls s)).
Proof.
  induction calls as [|c calls IH]; intros s used Dh Dr Hcap Nh Fh.
  - exists used. exact Hcap.
  - rewrite hotel_uuids_cons in Nh, Fh.
    apply NoDup_app in Nh as (Nh1 & Nh2 & Nh3).
    destruct (nodup_apply_call c s Dh Dr) as [Dh1 Dr1].
    assert (Hcap1 : capacity (hotel_uuids [c] ++ used)
                      (hotels_of (apply_call c s)) (reservations_of (apply_call c s))).
    { apply capacity_apply_call; try assumption.
      intros u Hu. apply Fh, elem_of_app. left. exact Hu. }
    rewrite apply_calls_cons.
    apply (IH _ _ Dh1 Dr1 Hcap1 Nh3).
    intros u Hu Hin. apply elem_of_app in Hin as [Hin|Hin].
    + apply (Nh2 u Hin Hu).
    + apply (Fh u); [apply elem_of_app; right; exact Hu | exact Hin].
Qed.

Lemma capacity_within used hs rs id hotel :
  capacity used hs rs -> dict_get id hs = Some hotel -> within_capacity hotel.
Proof.
  intros [Hhot _] Hget.
  destruct (Hhot id hotel Hget) as (_ & rooms & a & Hr & Ha & Hsum & Hlow).
  exists rooms, a. split; [exact Hr|]. split; [exact Ha|].
  pose proof (booked_nonneg id rs). split; [lia | exact Hlow].
Qed.

(** From empty stores, under the hypotheses on the identifiers and on the
    size of [rooms], what a beginning of the run leaves in the hotels file is
    a mapping of hotels within their capacity that [json.dump] prints. *)
Lemma beginning_within_capacity (calls done todo : list call) (w : world) :
  NoDup (hotel_uuids calls) ->
  Forall (rooms_below (int_limit - Z.of_nat (length calls))) calls ->
  calls = done ++ todo ->
  stored w HOTELS_FILE
  = Some (PDict (hotels_of (apply_calls done (Stores [] [] [])))) ->
  hotels_within_capacity w.
Proof.
  intros Hnd Hrooms -> Hst.
  rewrite hotel_uuids_app in Hnd. apply NoDup_app in Hnd as (Hnd & _ & _).
  apply Forall_app in Hrooms as [Hrooms _].
  destruct (capacity_apply_calls done (Stores [] [] []) []) as (used & Hcap);
    try assumption.
  - constructor.
  - constructor.
  - split; intros ? ? ?; discriminate.
  - intros u _ Hin. inversion Hin.
  - pose proof (fit_apply_calls done _ _ (fit_empty _) Hrooms) as (Hfit & _ & _).
    eexists. split; [exact Hst|]. split.
    + eapply fits_mono; [| |exact Hfit]; [rewrite length_app; lia | lia].
    + intros id hotel Hget. eapply capacity_within; [exact Hcap | exact Hget].
Qed.

(** ** The unit tests *)

Import TestHotelReservationSystem.

Lemma dict_mem_set k v d : dict_mem k (dict_set k v d) = true.
Proof. eapply dict_mem_get, dict_get_set_eq. Qed.

(** The three calls that open both reservation tests. *)
Lemma hotel_customer_reservation
    (h c r name location cname email : string) (rooms : Z) (w : world)
    (hotels customers reservations : list (string * pyval)) :
  stored w HOTELS_FILE = Some (PDict hotels) ->
  stored w CUSTOMERS_FILE = Some (PDict customers) ->
  stored w RESERVATIONS_FILE = Some (PDict reservations) ->
  rooms <> 0 ->
  exists w1 w2 w3,
    Hotel.create_hotel h name location rooms w
    = Return (Hotel.init h name location rooms) w1 /\
    Customer.create_customer c cname email w1
    = Return (Customer.init c cname email) w2 /\
    Reservation.create_reservation r c h w2
    = Return (Some (Reservation.init r c h)) w3 /\
    load_data RESERVATIONS_FILE w3
    = Return (PDict (dict_set r (Reservation.to_dict (Reservation.init r c h))
                       reservations)) w3 /\
    available w3 h = Some (PInt (rooms - 1)).
Proof.
  intros Hh Hc Hr Hrooms.
  destruct (create_hotel_stored h name location rooms w hotels Hh)
    as (w1 & l1 & Hrun1 & F1 & T1 & Sh1).
  assert (Hc1 : stored w1 CUSTOMERS_FILE = Some (PDict customers))
    by (rewrite <- Hc; eapply stored_other; [exact F1 | discriminate]).
  destruct (create_customer_exact c cname email w1 customers Hc1)
    as (w2 & l2 & Hrun2 & F2 & T2 & Sc2).
  assert (Hh2 : stored w2 HOTELS_FILE
                = Some (PDict (dict_set h (Hotel.to_dict (Hotel.init h name location rooms))
                                 hotels)))
    by (rewrite <- Sh1; eapply stored_other; [exact F2 | discriminate]).
  assert (Hr2 : stored w2 RESERVATIONS_FILE = Some (PDict reservations)).
  { rewrite <- Hr.
    rewrite (stored_other w1 w2 _ _ _ F2) by discriminate.
    eapply stored_other; [exact F1 | discriminate]. }
  destruct (create_reservation_success r c h w2 reservations _ _ rooms
              Hr2 Hh2 (dict_get_set_eq _ _ _) eq_refl Hrooms)
    as (w3 & l3 & Hrun3 & F3 & T3 & Sh3 & Sr3).
  exists w1, w2, w3. split; [exact Hrun1|]. split; [exact Hrun2|].
  split; [exact Hrun3|]. split.
  - apply display_written; [exact Sr3|]. eexists. split; [|reflexivity].
    rewrite F3. apply lookup_insert_eq.
  - eapply available_with_available, Sh3.
Qed.

(** ** A text cut short *)

(** Where a cut of [a +:+ b] falls: inside [a], or after it. *)
Lemma append_cut (a b p q : string) :
  a +:+ b = p +:+ q ->
  (exists a2, a2 <> "" /\ a = p +:+ a2 /\ q = a2 +:+ b) \/
  (exists p2, p = a +:+ p2 /\ b = p2 +:+ q).
Proof.
  revert p. induction a as [|c a IH]; intros p H.
  - right. exists p. split; [reflexivity | exact H].
  - destruct p as [|c' p].
    + left. exists (String c a). split; [discriminate|]. split; [reflexivity|].
      rewrite append_nil_l in H. symmetry. exact H.
    + rewrite !append_cons in H. injection H as <- H.
      destruct (IH p H) as [(a2 & Hne & -> & ->)|(p2 & -> & ->)].
      * left. exists a2. repeat split; assumption.
      * right. exists p2. split; reflexivity.
Qed.

Lemma cons_cut (c : ascii) (t p q : string) :
  String c t = p +:+ q ->
  p = "" \/ exists p', p = String c p' /\ t = p' +:+ q.
Proof.
  destruct p as [|c' p]; [left; reflexivity|].
  rewrite append_cons. intros H. injection H as <- H. right. eauto.
Qed.

(** A cut of white space is white space. *)
Lemma skip_ws_spaces_cut n p a : spaces n = p +:+ a -> skip_ws p = "".
Proof.
  revert p. induction n as [|n IH]; intros p H; simpl in H.
  - destruct p; [reflexivity | discriminate].
  - apply cons_cut in H as [->|(p' & -> & H)]; [reflexivity|].
    simpl. apply IH, H.
Qed.

Lemma skip_ws_indent_cut level p a : newline_indent level = p +:+ a -> skip_ws p = "".
Proof.
  unfold newline_indent. intros H.
  apply cons_cut in H as [->|(p' & -> & H)]; [reflexivity|].
  change (skip_ws (String LF p')) with (skip_ws p'). eapply skip_ws_spaces_cut, H.
Qed.

(** A cut of [indent +:+ rest] is white space, or goes on into [rest]. *)
Lemma indent_cut level rest p q :
  newline_indent level +:+ rest = p +:+ q ->
  skip_ws p = "" \/ exists c p2, p = newline_indent level +:+ String c p2 /\
                                 rest = String c p2 +:+ q.
Proof.
  intros H. apply append_cut in H as [(a2 & _ & H & _)|(p2 & -> & H)].
  - left. eapply skip_ws_indent_cut, H.
  - destruct p2 as [|c p2].
    + left. rewrite append_nil_r. apply (skip_ws_indent_cut level _ ""). now rewrite append_nil_r.
    + right. eauto.
Qed.

(** No closing quote is found in a cut of an escaped string. *)
Lemma scanstring_escape_char_cut (c : ascii) (p a : string) :
  a <> "" -> escape_char c = p +:+ a -> scanstring p = Malformed.
Proof.
  intros Ha H.
  destruct c as [[] [] [] [] [] [] [] []];
    match type of H with
    | escape_char ?c = _ =>
        let v := eval vm_compute in (escape_char c) in change (escape_char c) with v in H
    end;
    repeat (apply cons_cut in H as [->|(? & -> & H)]; [reflexivity|]);
    match type of H with
    | _ = ?p +:+ _ => destruct p; [rewrite append_nil_l in H; congruence | discriminate]
    end.
Qed.

Lemma scanstring_escape_cut (s p a : string) :
  escape s = p +:+ a -> scanstring p = Malformed.
Proof.
  revert p. induction s as [|c s IH]; intros p H; simpl escape in H.
  - destruct p; [reflexivity | discriminate].
  - apply append_cut in H as [(a2 & Hne & H & _)|(p2 & -> & H)].
    + eapply scanstring_escape_char_cut; eassumption.
    + rewrite scanstring_escape_char, (IH p2 H). reflexivity.
Qed.

(** A cut of a decimal numeral is a decimal numeral. *)
Lemma string_of_uint_cut (d : uint) (p q : string) :
  NilEmpty.string_of_uint d = p +:+ q ->
  p = "" \/
  exists d', p = NilEmpty.string_of_uint d' /\ d' <> Nil /\
             ((exists e, d' = D0 e) -> exists e, d = D0 e).
Proof.
  revert p. induction d as [|d IH|d IH|d IH|d IH|d IH|d IH|d IH|d IH|d IH|d IH];
    intros p H; simpl in H.
  1: { destruct p; [left; reflexivity | discriminate]. }
  all: apply cons_cut in H as [->|(p' & -> & H)]; [left; reflexivity|];
    right; destruct (IH p' H) as [->|(d' & -> & _ & _)].
  all: let fin := (split; [reflexivity|]); (split; [discriminate|]);
                  intros [e He]; try discriminate; eauto in
       first
         [ exists (D0 Nil); solve [fin] | exists (D1 Nil); solve [fin]
         | exists (D2 Nil); solve [fin] | exists (D3 Nil); solve [fin]
         | exists (D4 Nil); solve [fin] | exists (D5 Nil); solve [fin]
         | exists (D6 Nil); solve [fin] | exists (D7 Nil); solve [fin]
         | exists (D8 Nil); solve [fin] | exists (D9 Nil); solve [fin]
         | exists (D0 d'); solve [fin] | exists (D1 d'); solve [fin]
         | exists (D2 d'); solve [fin] | exists (D3 d'); solve [fin]
         | exists (D4 d'); solve [fin] | exists (D5 d'); solve [fin]
         | exists (D6 d'); solve [fin] | exists (D7 d'); solve [fin]
         | exists (D8 d'); solve [fin] | exists (D9 d'); solve [fin] ].
Qed.

Lemma scan_once_uint (fuel : nat) (d : uint) (rest : string) :
  d <> Nil -> (forall d', d <> D0 d') -> ends_number rest = true ->
  scan_once (S fuel) (NilEmpty.string_of_uint d +:+ rest)
  = Scanned (PInt (Z.of_uint d)) rest.
Proof.
  intros Hnil Hhead Hrest.
  pose proof (scan_int_uint false d rest Hnil Hhead Hrest) as H.
  destruct d; try congruence; try (exfalso; eapply Hhead; reflexivity);
    simpl NilEmpty.string_of_uint in *; rewrite append_cons in *;
    simpl scan_once; exact H.
Qed.

(** A numeral cut short is rejected or read to its end as a smaller number. *)
Lemma scan_once_repr_int_cut (fuel : nat) (z : Z) (p q : string) :
  repr_int z = p +:+ q -> q <> "" ->
  scan_once (S fuel) p = Malformed \/
  exists z', scan_once (S fuel) p = Scanned (PInt z') "".
Proof.
  unfold repr_int. intros H Hq. destruct z as [|n|n]; simpl Z.to_int in H.
  - simpl in H. apply cons_cut in H as [->|(p' & -> & H)]; [left; reflexivity|].
    destruct p'; [rewrite append_nil_l in H; congruence | discriminate].
  - unfold NilZero.string_of_int, NilZero.string_of_uint in H.
    pose proof (DecimalPos.Unsigned.to_uint_nonnil n) as Hnil.
    pose proof (to_uint_head n) as Hhead.
    assert (H' : NilEmpty.string_of_uint (Pos.to_uint n) = p +:+ q)
      by (destruct (Pos.to_uint n); try congruence; exact H).
    apply string_of_uint_cut in H' as [->|(d' & -> & Hd' & Hzero)];
      [left; reflexivity|].
    right. eexists. rewrite <- (append_nil_r (NilEmpty.string_of_uint d')).
    apply scan_once_uint; [exact Hd' | | reflexivity].
    intros e ->. destruct Hzero as [e' He']; [eauto|]. apply (Hhead e'), He'.
  - unfold NilZero.string_of_int in H.
    pose proof (to_uint_head n) as Hhead.
    apply cons_cut in H as [->|(p' & -> & H)]; [left; reflexivity|].
    change (scan_once (S fuel) (String "-" p')) with (scan_int true p').
    pose proof (DecimalPos.Unsigned.to_uint_nonnil n) as Hnil.
    assert (H' : NilEmpty.string_of_uint (Pos.to_uint n) = p' +:+ q)
      by (unfold NilZero.string_of_uint in H;
          destruct (Pos.to_uint n); try congruence; exact H).
    apply string_of_uint_cut in H' as [->|(d' & -> & Hd' & Hzero)];
      [left; reflexivity|].
    right. eexists. rewrite <- (append_nil_r (NilEmpty.string_of_uint d')).
    apply scan_int_uint; [exact Hd' | | reflexivity].
    intros e ->. destruct Hzero as [e' He']; [eauto|]. apply (Hhead e'), He'.
Qed.

Lemma ends_number_more_cut level items p q :
  more_items level items = p +:+ q -> ends_number p = true.
Proof.
  destruct p as [|c p]; [reflexivity|]. rewrite append_cons.
  destruct items as [|[k x] items]; intros H; injection H as <- _; reflexivity.
Qed.

Lemma skip_ws_iterencode_cut level v p q :
  iterencode level v = p +:+ q -> skip_ws p = p.
Proof.
  destruct (iterencode_head level v) as (c & tl & -> & Hc).
  intros H. apply cons_cut in H as [->|(p' & -> & _)]; [reflexivity|].
  apply skip_ws_stop, Hc.
Qed.

Lemma length_append_le_l (a b : string) :
  (String.length a <= String.length (a +:+ b))%nat.
Proof. rewrite length_append. lia. Qed.

Ltac str_norm_in H :=
  repeat (rewrite append_assoc in H || rewrite append_cons in H
          || rewrite append_nil_l in H).

Ltac lengths H :=
  repeat (rewrite length_cons in H || rewrite length_append in H); lia.

(** The scanner on a text that [dumps] wrote and that was cut short: the
    cut is rejected, or, inside a number, read up to the end of the text. *)
Lemma scan_cut (fuel : nat) :
  (forall v level p q,
      wf v -> iterencode level v = p +:+ q -> q <> "" ->
      (String.length p < fuel)%nat ->
      scan_once fuel p = Malformed \/
      ((exists z, v = PInt z) /\ exists z', scan_once fuel p = Scanned (PInt z') "")) /\
  (forall items k x level p q,
      wf_items ((k, x) :: items) ->
      escape k +:+ String DQUOTE
        (String ":" (String " "
           (iterencode (S level) x +:+ more_items level items))) = p +:+ q ->
      q <> "" ->
      (String.length p < fuel)%nat ->
      JSONObject_pairs fuel p = Malformed).
Proof.
  induction fuel as [|fuel [IHv IHp]].
  - split; intros; lia.
  - split.
    + intros v level p q Hwf H Hq Hlen.
      destruct v as [z|s|[|[k x] items]].
      * simpl iterencode in H.
        destruct (scan_once_repr_int_cut fuel z p q H Hq) as [Hm|Hs];
          [left; exact Hm | right; split; [eauto | exact Hs]].
      * left. simpl iterencode in H. unfold encode_basestring_ascii in H.
        str_norm_in H.
        apply cons_cut in H as [->|(p' & -> & H)]; [reflexivity|].
        rewrite scan_once_string.
        apply append_cut in H as [(a2 & _ & H & _)|(p2 & -> & H)].
        -- rewrite (scanstring_escape_cut _ _ _ H). reflexivity.
        -- apply cons_cut in H as [->|(p3 & -> & H)].
           ++ rewrite append_nil_r.
              rewrite (scanstring_escape_cut s (escape s) "");
                [reflexivity | now rewrite append_nil_r].
           ++ destruct p3; [rewrite append_nil_l in H; congruence | discriminate].
      * left. simpl iterencode in H.
        apply cons_cut in H as [->|(p' & -> & H)]; [reflexivity|].
        apply cons_cut in H as [->|(p'' & -> & H)]; [reflexivity|].
        destruct p''; [rewrite append_nil_l in H; congruence | discriminate].
      * left. rewrite iterencode_dict_cons in H. unfold encode_basestring_ascii in H.
        str_norm_in H.
        apply cons_cut in H as [->|(p1 & -> & H)]; [reflexivity|].
        rewrite scan_once_object.
        apply indent_cut in H as [Hws|(c & p2 & -> & H)].
        -- rewrite Hws. reflexivity.
        -- apply cons_cut in H as [Hnil|(p3 & Heq & H)]; [discriminate|].
           injection Heq as -> ->.
           rewrite skip_ws_newline_indent by reflexivity.
           change (N_of_ascii DQUOTE =? 125)%N with false.
           change (N_of_ascii DQUOTE =? 34)%N with true. cbv iota.
           apply wf_dict in Hwf as [_ Hwfi].
           rewrite (IHp items k x level p3 q Hwfi H Hq); [reflexivity|].
           lengths Hlen.
    + intros items k x level p q Hwf H Hq Hlen.
      apply wf_items_cons in Hwf as [Hx Hitems].
      rewrite JSONObject_pairs_S.
      apply append_cut in H as [(a2 & _ & H & _)|(p2 & -> & H)].
      * rewrite (scanstring_escape_cut _ _ _ H). reflexivity.
      * apply cons_cut in H as [->|(p3 & -> & H)].
        -- rewrite append_nil_r.
           rewrite (scanstring_escape_cut k (escape k) "");
             [reflexivity | now rewrite append_nil_r].
        -- rewrite scanstring_escape.
           apply cons_cut in H as [->|(p4 & -> & H)]; [reflexivity|].
           rewrite skip_ws_stop by reflexivity.
           change (negb (N_of_ascii ":" =? 58)%N) with false. cbv iota.
           apply cons_cut in H as [->|(p5 & -> & H)].
           ++ destruct fuel; [exfalso; lengths Hlen | reflexivity].
           ++ change (skip_ws (String " " p5)) with (skip_ws p5).
              assert (Hlen5 : (String.length p5 < fuel)%nat) by lengths Hlen.
              apply append_cut in H as [(a2 & Ha2 & H & _)|(p6 & -> & H)].
              ** rewrite (skip_ws_iterencode_cut _ _ _ _ H).
                 destruct (IHv x (S level) p5 a2 Hx H Ha2 Hlen5)
                   as [-> | (_ & z' & ->)]; reflexivity.
              ** rewrite skip_ws_iterencode.
                 rewrite (proj1 (scan_iterencode fuel) x (S level) p6 Hx);
                   [| pose proof (weight_le_length x (S level)); lengths Hlen5
                    | eapply ends_number_more_cut, H].
                 destruct items as [|[k' x'] items].
                 --- rewrite more_items_nil in H.
                     apply indent_cut in H as [Hws|(c & p7 & -> & H)].
                     +++ rewrite Hws. reflexivity.
                     +++ apply cons_cut in H as [Hnil|(p8 & Heq & H)]; [discriminate|].
                         destruct p8; [rewrite append_nil_l in H; congruence | discriminate].
                 --- rewrite more_items_cons in H. unfold encode_basestring_ascii in H.
                     str_norm_in H.
                     apply cons_cut in H as [->|(p7 & -> & H)]; [reflexivity|].
                     rewrite skip_ws_stop by reflexivity.
                     change (N_of_ascii "," =? 125)%N with false.
                     change (N_of_ascii "," =? 44)%N with true. cbv iota.
                     apply indent_cut in H as [Hws|(c & p8 & -> & H)].
                     +++ rewrite Hws. reflexivity.
                     +++ apply cons_cut in H as [Hnil|(p9 & Heq & H)]; [discriminate|].
                         injection Heq as -> ->.
                         rewrite skip_ws_newline_indent by reflexivity.
                         change (N_of_ascii DQUOTE =? 34)%N with true. cbv iota.
                         rewrite (IHp items k' x' level p9 q Hitems H Hq);
                           [reflexivity|].
                         lengths Hlen.
Qed.

Lemma loads_cut (items : list (string * pyval)) (p q : string) :
  wf (PDict items) -> dumps (PDict items) = p +:+ q -> q <> "" ->
  loads p = Rejected.
Proof.
  intros Hwf H Hq. unfold loads, dumps in *.
  rewrite (skip_ws_iterencode_cut _ _ _ _ H).
  destruct (proj1 (scan_cut (S (String.length p))) (PDict items) O p q Hwf H Hq)
    as [-> | ((z & Hz) & _)]; [lia | reflexivity | discriminate].
Qed.

(** ** Runs, call by call *)

Lemma run_cons c calls w w1 :
  perform c w = Return tt w1 -> run (c :: calls) w = run calls w1.
Proof. intros H. simpl run. rewrite (bind_return _ _ _ _ _ H). reflexivity. Qed.

Lemma available_same_files w w' hid :
  files w' = files w -> available w' hid = available w hid.
Proof.
  intros F. unfold available. rewrite (stored_files w w') by (now rewrite F). reflexivity.
Qed.

Lemma bind_raise {A B} (m : py A) (f : A -> py B) w e w' :
  m w = Raise e w' -> (m ≫= f) w = Raise e w'.
Proof. intros H. rewrite bind_unfold, H. reflexivity. Qed.

(** * The claims of the specification *)

(** C1, as the code has it.  Start from empty stores and make any sequence of
    calls in which [uuid4] hands out no hotel identifier twice and every
    [rooms] given to [create_hotel], of whatever sign, stays as many below
    [int_limit] as the run has calls.  Then every call returns, and every
    hotel record in the hotels store has [available_rooms <= rooms], and
    [0 <= available_rooms] when its [rooms] is not negative; so has every
    hotel record of every content that was written to the hotels file on the
    way, which covers the moments between the two writes of one call.  No
    integer that is written has more digits than [json.dump] prints. *)
Theorem available_rooms_within_bounds (calls : list call) :
  NoDup (hotel_uuids calls) ->
  Forall (rooms_below (int_limit - Z.of_nat (length calls))) calls ->
  exists w,
    run calls empty_stores = Return tt w /\
    hotels_within_capacity w /\
    forall content,
      (HOTELS_FILE, content) ∈ writes (trace w) -> content_within_capacity content.
Proof.
  intros Hnd Hrooms.
  destruct (run_apply_calls calls empty_stores (Stores [] [] []) shows_empty shaped_empty)
    as (w & Hrun & (Hh & _) & _ & Hwrites).
  exists w. split; [exact Hrun|]. split.
  - apply (beginning_within_capacity calls calls [] w Hnd Hrooms);
      [now rewrite app_nil_r | exact Hh].
  - intros content Hin.
    destruct (Hwrites content Hin) as [Hnone|(done & todo & Hcalls & Hst)];
      [inversion Hnone|].
    exact (beginning_within_capacity calls done todo _ Hnd Hrooms Hcalls Hst).
Qed.

(** The bound on a run that creates hotels, one of them with a negative
    number of rooms, books, cancels and deletes. *)
Lemma available_rooms_within_bounds_witness :
  exists w,
    run [CreateHotel "h1" "Cancel Hotel" "Miami" 2;
         CreateCustomer "c1" "Bob" "bob@example.com";
         CreateReservation "r1" "c1" "h1";
         CancelReservation "r1";
         CreateHotel "h2" "Delete Hotel" "LA" (-1);
         CreateReservation "r2" "c1" "h2";
         DeleteHotel "h1"] empty_stores = Return tt w /\
    hotels_within_capacity w /\
    forall content,
      (HOTELS_FILE, content) ∈ writes (trace w) -> content_within_capacity content.
Proof.
  apply (available_rooms_within_bounds
           [CreateHotel "h1" "Cancel Hotel" "Miami" 2;
            CreateCustomer "c1" "Bob" "bob@example.com";
            CreateReservation "r1" "c1" "h1";
            CancelReservation "r1";
            CreateHotel "h2" "Delete Hotel" "LA" (-1);
            CreateReservation "r2" "c1" "h2";
            DeleteHotel "h1"]).
  - apply (bool_decide_unpack _). vm_compute. reflexivity.
  - repeat (apply Forall_cons; split); try apply Forall_nil; try exact I;
      vm_compute; reflexivity.
Defined.

(** C1 as stated, for an arbitrary [rooms] argument, fails: [create_hotel]
    stores whatever it is given, so after [create_hotel(..., -1)] on empty
    stores the hotel has [available_rooms = -1], below zero. *)
Lemma negative_rooms_break_the_bounds :
  exists w, run [CreateHotel "h1" "Inn" "Lima" (-1)] empty_stores = Return tt w /\
            ~ hotels_in_bounds w.
Proof.
  destruct (create_hotel_stored "h1" "Inn" "Lima" (-1) empty_stores [] eq_refl)
    as (w & lines & Hrun & F & T & Sh).
  exists w. split.
  - simpl run. rewrite (bind_return _ _ _ _ _ (perform_return _ _ _ _ Hrun)). reflexivity.
  - intros (hs & Hh & Hall). rewrite Sh in Hh. inversion Hh; subst hs.
    destruct (Hall "h1" _ eq_refl) as (R & A & HR & HA & Hb).
    simpl in HR, HA. inversion HR; inversion HA; subst. lia.
Qed.

(** Were [uuid4] to repeat a hotel identifier, the bound could fail as well:
    the second hotel takes the place of the first, and cancelling the earlier
    reservation gives it a room it never lost. *)
Example repeated_hotel_id_breaks_the_bounds :
  exists w,
    run [CreateHotel "h1" "Inn" "Lima" 1;
         CreateReservation "r1" "c1" "h1";
         CreateHotel "h1" "Inn" "Lima" 1;
         CancelReservation "r1"] empty_stores = Return tt w /\
    available w "h1" = Some (PInt 2).
Proof. eexists. split; vm_compute; reflexivity. Qed.

(** C2.  In any state of the stores, [create_reservation] with a [hotel_id]
    that is absent from the hotels store, or whose record has
    [available_rooms] equal to 0, returns [None] and leaves every file as it
    was: nothing is saved. *)
Theorem create_reservation_refused
    (uuid4 customer_id hotel_id : string) (w : world)
    (reservations : pyval) (hotels : list (string * pyval)) :
  stored w RESERVATIONS_FILE = Some reservations ->
  stored w HOTELS_FILE = Some (PDict hotels) ->
  (dict_get hotel_id hotels = None \/
   exists hotel, dict_get hotel_id hotels = Some hotel /\
                 field "available_rooms" hotel = Some (PInt 0)) ->
  exists w',
    Reservation.create_reservation uuid4 customer_id hotel_id w = Return None w' /\
    files w' = files w /\
    writes (trace w') = writes (trace w).
Proof. apply create_reservation_refusal. Qed.

(** Both refusals on a hotel whose only room is taken: the full hotel, and a
    hotel identifier the store does not know. *)
Lemma create_reservation_refused_witness :
  (exists w', Reservation.create_reservation "r2" "c2" "h1" full_house = Return None w' /\
              files w' = files full_house /\
              writes (trace w') = writes (trace full_house)) /\
  (exists w', Reservation.create_reservation "r2" "c2" "h9" full_house = Return None w' /\
              files w' = files full_house /\
              writes (trace w') = writes (trace full_house)).
Proof.
  split.
  - eapply (create_reservation_refused "r2" "c2" "h1" full_house).
    + vm_compute. reflexivity.
    + vm_compute. reflexivity.
    + right. eexists. split; vm_compute; reflexivity.
  - eapply (create_reservation_refused "r2" "c2" "h9" full_house).
    + vm_compute. reflexivity.
    + vm_compute. reflexivity.
    + left. vm_compute. reflexivity.
Defined.

(** C3.  When the hotel is in the store with [available_rooms = N] and
    [N > 0], [create_reservation] returns a reservation and leaves the hotel
    with [N - 1]; cancelling that reservation next, the hotel still being
    there, returns [True] and leaves the hotel with [N] again. *)
Theorem create_then_cancel_restores_availability
    (uuid4 customer_id hotel_id : string) (w : world)
    (reservations : list (string * pyval)) (N : Z) :
  stored w RESERVATIONS_FILE = Some (PDict reservations) ->
  available w hotel_id = Some (PInt N) ->
  0 < N ->
  exists r w1 w2,
    Reservation.create_reservation uuid4 customer_id hotel_id w = Return (Some r) w1 /\
    available w1 hotel_id = Some (PInt (N - 1)) /\
    Reservation.cancel_reservation (Reservation.reservation_id r) w1 = Return true w2 /\
    available w2 hotel_id = Some (PInt N).
Proof.
  intros Hr Hav HN.
  apply available_inv in Hav as (hotels & h & Hh & Hget & Hav).
  destruct (create_reservation_success uuid4 customer_id hotel_id w
              reservations hotels h N Hr Hh Hget Hav ltac:(lia))
    as (w1 & l1 & Hrun1 & F1 & T1 & Sh1 & Sr1).
  set (r := Reservation.init uuid4 customer_id hotel_id) in *.
  assert (Hget1 : dict_get hotel_id (with_available hotel_id (N - 1) h hotels)
                  = Some (PDict (dict_set "available_rooms" (PInt (N - 1)) h)))
    by apply dict_get_set_eq.
  destruct (cancel_reservation_hotel_present uuid4 hotel_id w1 _ _ _
              (Reservation.to_dict r) (N - 1) Sr1 Sh1
              (dict_get_set_eq _ _ _) eq_refl Hget1 (dict_get_set_eq _ _ _))
    as (w2 & l2 & Hrun2 & F2 & T2 & Sh2 & Sr2).
  exists r, w1, w2. repeat split.
  - exact Hrun1.
  - eapply available_with_available, Sh1.
  - exact Hrun2.
  - replace (N - 1 + 1) with N in Sh2 by lia.
    eapply available_with_available, Sh2.
Qed.

(** Scenario C of the specification: two rooms, one booked, then freed. *)
Lemma create_then_cancel_restores_availability_witness :
  exists r w1 w2,
    Reservation.create_reservation "r1" "c1" "h1" miami_open = Return (Some r) w1 /\
    available w1 "h1" = Some (PInt (2 - 1)) /\
    Reservation.cancel_reservation (Reservation.reservation_id r) w1 = Return true w2 /\
    available w2 "h1" = Some (PInt 2).
Proof.
  eapply (create_then_cancel_restores_availability "r1" "c1" "h1" miami_open).
  - vm_compute. reflexivity.
  - vm_compute. reflexivity.
  - lia.
Defined.

(** C4.  When the reservation is in the reservations store and the hotel it
    names is not in the hotels store, [cancel_reservation] returns [True],
    the reservation is gone from the reservations store and the other
    reservations stay, and the hotels file is neither changed nor written. *)
Theorem cancel_reservation_of_deleted_hotel
    (reservation_id hotel_id : string) (w : world)
    (reservations hotels : list (string * pyval)) (reservation : pyval) :
  stored w RESERVATIONS_FILE = Some (PDict reservations) ->
  stored w HOTELS_FILE = Some (PDict hotels) ->
  dict_get reservation_id reservations = Some reservation ->
  field "hotel_id" reservation = Some (PStr hotel_id) ->
  dict_get hotel_id hotels = None ->
  exists w' reservations',
    Reservation.cancel_reservation reservation_id w = Return true w' /\
    stored w' RESERVATIONS_FILE = Some (PDict reservations') /\
    dict_get reservation_id reservations' = None /\
    (forall other, other <> reservation_id ->
                   dict_get other reservations' = dict_get other reservations) /\
    files w' !! HOTELS_FILE = files w !! HOTELS_FILE /\
    (forall content, (HOTELS_FILE, content) ∈ writes (trace w') ->
                     (HOTELS_FILE, content) ∈ writes (trace w)).
Proof.
  intros Hr Hh Hres Hhid Hget.
  destruct (cancel_reservation_hotel_absent reservation_id hotel_id w
              reservations hotels reservation Hr Hh Hres Hhid Hget)
    as (w' & lines & Hrun & F & T & Sh & Sr).
  exists w', (dict_del reservation_id reservations).
  split; [exact Hrun|]. split; [exact Sr|].
  split; [apply dict_get_del_eq, (stored_wf _ _ _ Hr)|].
  split; [intros other Hne; apply dict_get_del_ne; congruence|].
  split.
  - rewrite F. apply lookup_insert_ne. discriminate.
  - intros content. rewrite T, !writes_app, writes_prints. simpl.
    intros H. apply elem_of_app in H as [H|H]; [exact H|].
    apply list_elem_of_singleton in H. discriminate.
Qed.

(** Scenario E of the specification: the hotel was deleted after the booking. *)
Lemma cancel_reservation_of_deleted_hotel_witness :
  exists w' reservations',
    Reservation.cancel_reservation "r1" orphan_reservation = Return true w' /\
    stored w' RESERVATIONS_FILE = Some (PDict reservations') /\
    dict_get "r1" reservations' = None /\
    (forall other, other <> "r1" ->
       dict_get other reservations'
       = dict_get other
           [("r1", Reservation.to_dict (Reservation.init "r1" "c1" "h1"))]) /\
    files w' !! HOTELS_FILE = files orphan_reservation !! HOTELS_FILE /\
    (forall content, (HOTELS_FILE, content) ∈ writes (trace w') ->
                     (HOTELS_FILE, content) ∈ writes (trace orphan_reservation)).
Proof.
  eapply (cancel_reservation_of_deleted_hotel "r1" "h1" orphan_reservation).
  - vm_compute. reflexivity.
  - vm_compute. reflexivity.
  - vm_compute. reflexivity.
  - vm_compute. reflexivity.
  - vm_compute. reflexivity.
Defined.

(** C5.  For an identifier that is absent from the store, [delete_hotel],
    [delete_customer] and [cancel_reservation] each return [False], change no
    file and save nothing; called again they do the same. *)
Theorem deleting_an_absent_id_changes_nothing (id : string) (w : world) :
  (forall hotels,
      stored w HOTELS_FILE = Some (PDict hotels) ->
      dict_get id hotels = None ->
      exists w1 w2,
        Hotel.delete_hotel id w = Return false w1 /\
        files w1 = files w /\ writes (trace w1) = writes (trace w) /\
        Hotel.delete_hotel id w1 = Return false w2 /\
        files w2 = files w /\ writes (trace w2) = writes (trace w)) /\
  (forall customers,
      stored w CUSTOMERS_FILE = Some (PDict customers) ->
      dict_get id customers = None ->
      exists w1 w2,
        Customer.delete_customer id w = Return false w1 /\
        files w1 = files w /\ writes (trace w1) = writes (trace w) /\
        Customer.delete_customer id w1 = Return false w2 /\
        files w2 = files w /\ writes (trace w2) = writes (trace w)) /\
  (forall reservations hotels,
      stored w RESERVATIONS_FILE = Some (PDict reservations) ->
      stored w HOTELS_FILE = Some hotels ->
      dict_get id reservations = None ->
      exists w1 w2,
        Reservation.cancel_reservation id w = Return false w1 /\
        files w1 = files w /\ writes (trace w1) = writes (trace w) /\
        Reservation.cancel_reservation id w1 = Return false w2 /\
        files w2 = files w /\ writes (trace w2) = writes (trace w)).
Proof.
  split; [|split].
  - intros hotels Hs Hget.
    destruct (delete_hotel_absent id w hotels Hs Hget) as (w1 & l1 & R1 & F1 & T1).
    assert (Hs1 : stored w1 HOTELS_FILE = Some (PDict hotels))
      by (rewrite <- Hs; apply stored_files; now rewrite F1).
    destruct (delete_hotel_absent id w1 hotels Hs1 Hget) as (w2 & l2 & R2 & F2 & T2).
    exists w1, w2. repeat split; try assumption; try congruence.
    + rewrite T1, writes_app, writes_prints. apply app_nil_r.
    + rewrite T2, T1, !writes_app, !writes_prints, !app_nil_r. reflexivity.
  - intros customers Hs Hget.
    destruct (delete_customer_absent id w customers Hs Hget) as (w1 & l1 & R1 & F1 & T1).
    assert (Hs1 : stored w1 CUSTOMERS_FILE = Some (PDict customers))
      by (rewrite <- Hs; apply stored_files; now rewrite F1).
    destruct (delete_customer_absent id w1 customers Hs1 Hget) as (w2 & l2 & R2 & F2 & T2).
    exists w1, w2. repeat split; try assumption; try congruence.
    + rewrite T1, writes_app, writes_prints. apply app_nil_r.
    + rewrite T2, T1, !writes_app, !writes_prints, !app_nil_r. reflexivity.
  - intros reservations hotels Hs Hh Hget.
    destruct (cancel_reservation_absent id w reservations hotels Hs Hh Hget)
      as (w1 & l1 & R1 & F1 & T1).
    assert (Hs1 : stored w1 RESERVATIONS_FILE = Some (PDict reservations))
      by (rewrite <- Hs; apply stored_files; now rewrite F1).
    assert (Hh1 : stored w1 HOTELS_FILE = Some hotels)
      by (rewrite <- Hh; apply stored_files; now rewrite F1).
    destruct (cancel_reservation_absent id w1 reservations hotels Hs1 Hh1 Hget)
      as (w2 & l2 & R2 & F2 & T2).
    exists w1, w2. repeat split; try assumption; try congruence.
    + rewrite T1, writes_app, writes_prints. apply app_nil_r.
    + rewrite T2, T1, !writes_app, !writes_prints, !app_nil_r. reflexivity.
Qed.

(** An identifier that no store knows, in a world with one hotel. *)
Lemma deleting_an_absent_id_changes_nothing_witness :
  (exists w1 w2,
      Hotel.delete_hotel "h9" miami_open = Return false w1 /\
      files w1 = files miami_open /\ writes (trace w1) = writes (trace miami_open) /\
      Hotel.delete_hotel "h9" w1 = Return false w2 /\
      files w2 = files miami_open /\ writes (trace w2) = writes (trace miami_open)) /\
  (exists w1 w2,
      Customer.delete_customer "h9" miami_open = Return false w1 /\
      files w1 = files miami_open /\ writes (trace w1) = writes (trace miami_open) /\
      Customer.delete_customer "h9" w1 = Return false w2 /\
      files w2 = files miami_open /\ writes (trace w2) = writes (trace miami_open)) /\
  (exists w1 w2,
      Reservation.cancel_reservation "h9" miami_open = Return false w1 /\
      files w1 = files miami_open /\ writes (trace w1) = writes (trace miami_open) /\
      Reservation.cancel_reservation "h9" w1 = Return false w2 /\
      files w2 = files miami_open /\ writes (trace w2) = writes (trace miami_open)).
Proof.
  destruct (deleting_an_absent_id_changes_nothing "h9" miami_open) as (Hh & Hc & Hr).
  split; [|split].
  - eapply Hh; vm_compute; reflexivity.
  - eapply Hc; vm_compute; reflexivity.
  - eapply Hr; vm_compute; reflexivity.
Defined.



(** What [load_data] does hold to: a missing file is an empty mapping, with
    no diagnostic. *)
Lemma load_data_missing (file_path : string) (w : world) :
  files w !! file_path = None -> load_data file_path w = Return (PDict []) w.
Proof. intros H. rewrite load_data_eq, H. reflexivity. Qed.

(** A text that [json] rejects is an empty mapping, with the diagnostic. *)
Lemma load_data_rejected (file_path bytes text : string) (w : world) :
  files w !! file_path = Some bytes ->
  Utf8.decode bytes = Utf8.Text text ->
  Json.loads text = Rejected ->
  load_data file_path w =
  Return (PDict []) (World (files w) (trace w ++ [Printed (diagnostic file_path)])).
Proof. intros H1 H2 H3. rewrite load_data_eq, H1, H2, H3. reflexivity. Qed.

(** Bytes that are not UTF-8 make [file.read()] raise [UnicodeDecodeError],
    which the [except] clause of [load_data] does not name. *)
Lemma load_data_undecodable (file_path bytes : string) (w : world) :
  files w !! file_path = Some bytes ->
  Utf8.valid bytes = false ->
  load_data file_path w = Raise UnicodeDecodeError w.
Proof.
  intros H1 H2. rewrite load_data_eq, H1. unfold Utf8.decode. rewrite H2. reflexivity.
Qed.

(** C7, where the code departs from it.  On a hotels file that holds the
    single byte 0xFF, [load_data] gives no empty mapping: it raises
    [UnicodeDecodeError] to its caller. *)
Theorem load_data_raises_on_undecodable_bytes :
  load_data HOTELS_FILE undecodable_store = Raise UnicodeDecodeError undecodable_store.
Proof. apply (load_data_undecodable _ (String "255" EmptyString)); reflexivity. Qed.

(** C8.  A call of [create_reservation] that returns a reservation writes
    exactly two files, the hotels file first and the reservations file
    second.  What it writes to the reservations file is the mapping from
    before the call with the record of the new reservation, its three
    fields, under the new identifier; the hotels file then shows one room
    less.  In the world between the two writes the hotel already has one
    room less, while the reservations store is still the one from before the
    call, without the new record. *)
Theorem create_reservation_saves_hotels_before_reservations
    (uuid4 customer_id hotel_id : string) (w w' : world) (r : Reservation.t) :
  Reservation.create_reservation uuid4 customer_id hotel_id w = Return (Some r) w' ->
  exists n lines hbytes rbytes reservations,
    available w hotel_id = Some (PInt n) /\
    stored w RESERVATIONS_FILE = Some (PDict reservations) /\
    trace w' = trace w ++ map Printed lines
               ++ [Wrote HOTELS_FILE hbytes; Wrote RESERVATIONS_FILE rbytes] /\
    files w' = <[RESERVATIONS_FILE := rbytes]> (<[HOTELS_FILE := hbytes]> (files w)) /\
    r = {| Reservation.reservation_id := uuid4;
           Reservation.customer_id := customer_id;
           Reservation.hotel_id := hotel_id |} /\
    rbytes = dumps (PDict (dict_set uuid4
                             (PDict [("reservation_id", PStr uuid4);
                                     ("customer_id", PStr customer_id);
                                     ("hotel_id", PStr hotel_id)])
                             reservations)) /\
    stored w' RESERVATIONS_FILE
    = Some (PDict (dict_set uuid4
                     (PDict [("reservation_id", PStr uuid4);
                             ("customer_id", PStr customer_id);
                             ("hotel_id", PStr hotel_id)])
                     reservations)) /\
    available w' hotel_id = Some (PInt (n - 1)) /\
    let between := World (<[HOTELS_FILE := hbytes]> (files w))
                         (trace w ++ map Printed lines ++ [Wrote HOTELS_FILE hbytes]) in
    available between hotel_id = Some (PInt (n - 1)) /\
    stored between RESERVATIONS_FILE = Some (PDict reservations).
Proof.
  intros Hrun.
  destruct (create_reservation_inv _ _ _ _ _ _ Hrun)
    as (reservations & hotels & h & n & Hr & Hh & Hget & Hav & Hn).
  destruct (create_reservation_success uuid4 customer_id hotel_id w
              reservations hotels h n Hr Hh Hget Hav Hn)
    as (w1 & lines & Hrun1 & F1 & T1 & Sh1 & Sr1).
  rewrite Hrun in Hrun1. inversion Hrun1; subst w1.
  eexists n, lines, _, _, reservations.
  split; [eapply available_stored; eassumption|].
  split; [exact Hr|].
  split; [exact T1|]. split; [exact F1|].
  split; [reflexivity|].
  split; [apply utf8_encode_ascii, is_ascii_iterencode|].
  split; [exact Sr1|].
  split; [eapply available_with_available, Sh1|].
  split.
  - eapply available_with_available. apply stored_save.
    + apply wf_set_available; [apply (stored_wf _ _ _ Hh) | exact Hget].
    + simpl. apply lookup_insert_eq.
  - rewrite <- Hr. apply stored_files. simpl. apply lookup_insert_ne. discriminate.
Qed.

(** The two writes of a booking in a hotel with two free rooms. *)
Lemma create_reservation_saves_hotels_before_reservations_witness :
  exists n lines hbytes rbytes reservations,
    available miami_open "h1" = Some (PInt n) /\
    stored miami_open RESERVATIONS_FILE = Some (PDict reservations) /\
    trace (after (Reservation.create_reservation "r1" "c1" "h1") miami_open)
    = trace miami_open ++ map Printed lines
      ++ [Wrote HOTELS_FILE hbytes; Wrote RESERVATIONS_FILE rbytes] /\
    files (after (Reservation.create_reservation "r1" "c1" "h1") miami_open)
    = <[RESERVATIONS_FILE := rbytes]> (<[HOTELS_FILE := hbytes]> (files miami_open)) /\
    Reservation.init "r1" "c1" "h1"
    = {| Reservation.reservation_id := "r1";
         Reservation.customer_id := "c1";
         Reservation.hotel_id := "h1" |} /\
    rbytes = dumps (PDict (dict_set "r1"
                             (PDict [("reservation_id", PStr "r1");
                                     ("customer_id", PStr "c1");
                                     ("hotel_id", PStr "h1")])
                             reservations)) /\
    stored (after (Reservation.create_reservation "r1" "c1" "h1") miami_open)
           RESERVATIONS_FILE
    = Some (PDict (dict_set "r1"
                     (PDict [("reservation_id", PStr "r1");
                             ("customer_id", PStr "c1");
                             ("hotel_id", PStr "h1")])
                     reservations)) /\
    available (after (Reservation.create_reservation "r1" "c1" "h1") miami_open) "h1"
    = Some (PInt (n - 1)) /\
    let between := World (<[HOTELS_FILE := hbytes]> (files miami_open))
                         (trace miami_open ++ map Printed lines
                          ++ [Wrote HOTELS_FILE hbytes]) in
    available between "h1" = Some (PInt (n - 1)) /\
    stored between RESERVATIONS_FILE = Some (PDict reservations).
Proof.
  apply (create_reservation_saves_hotels_before_reservations "r1" "c1" "h1"
           miami_open
           (after (Reservation.create_reservation "r1" "c1" "h1") miami_open)
           (Reservation.init "r1" "c1" "h1")).
  vm_compute. reflexivity.
Defined.



(** C10.  Whether it returns or raises, a customer operation leaves the
    hotels and reservations files as they were, a hotel operation leaves the
    customers and reservations files as they were (so deleting a hotel keeps
    the reservations that name it), and a reservation operation leaves the
    customers file as it was. *)
Theorem operations_change_only_their_own_stores (w w' : world) :
  (forall uuid4 name email,
      world_of (Customer.create_customer uuid4 name email w) = Some w' ->
      files w' !! HOTELS_FILE = files w !! HOTELS_FILE /\
      files w' !! RESERVATIONS_FILE = files w !! RESERVATIONS_FILE) /\
  (forall customer_id,
      world_of (Customer.delete_customer customer_id w) = Some w' ->
      files w' !! HOTELS_FILE = files w !! HOTELS_FILE /\
      files w' !! RESERVATIONS_FILE = files w !! RESERVATIONS_FILE) /\
  (forall uuid4 name location rooms,
      world_of (Hotel.create_hotel uuid4 name location rooms w) = Some w' ->
      files w' !! CUSTOMERS_FILE = files w !! CUSTOMERS_FILE /\
      files w' !! RESERVATIONS_FILE = files w !! RESERVATIONS_FILE) /\
  (forall hotel_id,
      world_of (Hotel.delete_hotel hotel_id w) = Some w' ->
      files w' !! CUSTOMERS_FILE = files w !! CUSTOMERS_FILE /\
      files w' !! RESERVATIONS_FILE = files w !! RESERVATIONS_FILE) /\
  (forall uuid4 customer_id hotel_id,
      world_of (Reservation.create_reservation uuid4 customer_id hotel_id w) = Some w' ->
      files w' !! CUSTOMERS_FILE = files w !! CUSTOMERS_FILE) /\
  (forall reservation_id,
      world_of (Reservation.cancel_reservation reservation_id w) = Some w' ->
      files w' !! CUSTOMERS_FILE = files w !! CUSTOMERS_FILE).
Proof.
  repeat split; intros.
  all: first
    [ eapply touches_create_customer; [eassumption|]
    | eapply touches_delete_customer; [eassumption|]
    | eapply touches_create_hotel; [eassumption|]
    | eapply touches_delete_hotel; [eassumption|]
    | eapply touches_create_reservation; [eassumption|]
    | eapply touches_cancel_reservation; [eassumption|] ].
  all: apply (bool_decide_unpack _); reflexivity.
Qed.

(** One operation of each manager. *)
Lemma operations_change_only_their_own_stores_witness :
  (files (after (Customer.create_customer "c1" "Alice" "alice@example.com") miami_open)
     !! HOTELS_FILE = files miami_open !! HOTELS_FILE /\
   files (after (Customer.create_customer "c1" "Alice" "alice@example.com") miami_open)
     !! RESERVATIONS_FILE = files miami_open !! RESERVATIONS_FILE) /\
  (files (after (Hotel.delete_hotel "h1") full_house) !! CUSTOMERS_FILE
   = files full_house !! CUSTOMERS_FILE /\
   files (after (Hotel.delete_hotel "h1") full_house) !! RESERVATIONS_FILE
   = files full_house !! RESERVATIONS_FILE) /\
  files (after (Reservation.cancel_reservation "r1") full_house) !! CUSTOMERS_FILE
  = files full_house !! CUSTOMERS_FILE.
Proof.
  split; [|split].
  - destruct (operations_change_only_their_own_stores miami_open
                (after (Customer.create_customer "c1" "Alice" "alice@example.com")
                       miami_open)) as (H & _).
    apply (H "c1" "Alice" "alice@example.com"). vm_compute. reflexivity.
  - destruct (operations_change_only_their_own_stores full_house
                (after (Hotel.delete_hotel "h1") full_house)) as (_ & _ & _ & H & _).
    apply (H "h1"). vm_compute. reflexivity.
  - destruct (operations_change_only_their_own_stores full_house
                (after (Reservation.cancel_reservation "r1") full_house))
      as (_ & _ & _ & _ & _ & H).
    apply (H "r1"). vm_compute. reflexivity.
Defined.

(** * Further properties of the code *)

(** ** The persistence functions *)

(** X1.  Every file that [save_data] writes, for a value that [json.dump]
    prints in full, is plain ASCII, byte for byte the text of
    [json.dumps(data, indent=4)]: characters outside ASCII leave as [\u00xx]
    escapes, so the file always reads back as UTF-8. *)
Theorem save_data_writes_ascii (file_path : string) (data : pyval) (w : world) :
  printable data ->
  exists w',
    save_data file_path data w = Return tt w' /\
    files w' !! file_path = Some (dumps data) /\
    Utf8.is_ascii (dumps data) = true /\
    Utf8.decode (dumps data) = Utf8.Text (dumps data) /\
    trace w' = trace w ++ [Wrote file_path (dumps data)] /\
    forall other, other <> file_path -> files w' !! other = files w !! other.
Proof.
  intros _.
  pose proof (is_ascii_iterencode data O) as Hascii. fold (dumps data) in Hascii.
  eexists. split; [apply save_data_eq|].
  rewrite (utf8_encode_ascii _ Hascii). simpl.
  split; [apply lookup_insert_eq|]. split; [exact Hascii|].
  split; [rewrite <- (utf8_encode_ascii _ Hascii) at 1;
          apply utf8_decode_encode_ascii, Hascii|].
  split; [reflexivity|].
  intros other Hne. apply lookup_insert_ne. congruence.
Qed.

Lemma save_data_writes_ascii_witness :
  exists w',
    save_data CUSTOMERS_FILE
      (PDict [("c1", Customer.to_dict (Customer.init "c1" "Alice" "alice@example.com"))])
      empty_stores = Return tt w' /\
    files w' !! CUSTOMERS_FILE
    = Some (dumps (PDict [("c1", Customer.to_dict
                                   (Customer.init "c1" "Alice" "alice@example.com"))])) /\
    Utf8.is_ascii
      (dumps (PDict [("c1", Customer.to_dict
                              (Customer.init "c1" "Alice" "alice@example.com"))])) = true /\
    Utf8.decode
      (dumps (PDict [("c1", Customer.to_dict
                              (Customer.init "c1" "Alice" "alice@example.com"))]))
    = Utf8.Text
        (dumps (PDict [("c1", Customer.to_dict
                                (Customer.init "c1" "Alice" "alice@example.com"))])) /\
    trace w'
    = trace empty_stores
      ++ [Wrote CUSTOMERS_FILE
            (dumps (PDict [("c1", Customer.to_dict
                                    (Customer.init "c1" "Alice" "alice@example.com"))]))] /\
    forall other, other <> CUSTOMERS_FILE ->
      files w' !! other = files empty_stores !! other.
Proof.
  apply (save_data_writes_ascii CUSTOMERS_FILE
           (PDict [("c1", Customer.to_dict (Customer.init "c1" "Alice" "alice@example.com"))])
           empty_stores).
  vm_compute. repeat split.
Defined.

(** X2.  When a store file holds only the beginning of what [save_data] writes
    for a mapping, any beginning short of the whole text, [load_data] prints
    the diagnostic and returns the empty mapping: after a save that was
    interrupted, the next load sees no record at all. *)
Theorem load_data_after_an_interrupted_save
    (file_path : string) (items : list (string * pyval)) (w : world)
    (written missing : string) :
  wf (PDict items) ->
  Json.dumps (PDict items) = written +:+ missing ->
  missing <> "" ->
  files w !! file_path = Some written ->
  load_data file_path w
  = Return (PDict []) (World (files w) (trace w ++ [Printed (diagnostic file_path)])).
Proof.
  intros Hwf H Hq Hf.
  assert (Hascii : Utf8.is_ascii written = true).
  { pose proof (is_ascii_iterencode (PDict items) O) as Ha.
    fold (dumps (PDict items)) in Ha. rewrite H, is_ascii_app in Ha.
    apply andb_true_iff in Ha as [Ha _]. exact Ha. }
  apply (load_data_rejected file_path written written w Hf).
  - unfold Utf8.decode. rewrite (utf8_valid_ascii _ Hascii), Hascii. reflexivity.
  - eapply loads_cut; eassumption.
Qed.

Lemma load_data_after_an_interrupted_save_witness :
  load_data HOTELS_FILE interrupted_save
  = Return (PDict [])
      (World (files interrupted_save)
             (trace interrupted_save ++ [Printed (diagnostic HOTELS_FILE)])).
Proof.
  apply (load_data_after_an_interrupted_save HOTELS_FILE
           [("h1", Hotel.to_dict (Hotel.init "h1" "Test Hotel" "NYC" 10))]
           interrupted_save
           (String.substring 0 40
              (Json.dumps (PDict [("h1", Hotel.to_dict
                                           (Hotel.init "h1" "Test Hotel" "NYC" 10))])))
           (String.substring 40 200
              (Json.dumps (PDict [("h1", Hotel.to_dict
                                           (Hotel.init "h1" "Test Hotel" "NYC" 10))])))).
  - split; [apply (bool_decide_unpack _); vm_compute; reflexivity|].
    split; [apply wf_hotel | exact I].
  - vm_compute. reflexivity.
  - vm_compute. discriminate.
  - reflexivity.
Defined.

(** X3.  [display_hotels] and [display_customers] only read: whatever the
    files hold, and whether the call returns or raises, no file is changed and
    nothing is written. *)
Theorem display_changes_no_file (w w' : world) :
  world_of (Hotel.display_hotels w) = Some w' \/
  world_of (Customer.display_customers w) = Some w' ->
  files w' = files w /\ writes (trace w') = writes (trace w).
Proof.
  unfold Hotel.display_hotels, Customer.display_customers.
  intros [H|H]; rewrite load_data_eq in H;
    cases_of H; simpl in H; inversion H; subst; simpl;
    (split; [reflexivity|]); try reflexivity;
    rewrite writes_app; apply app_nil_r.
Qed.

Lemma display_changes_no_file_witness :
  exists w',
    world_of (Hotel.display_hotels truncated_store) = Some w' /\
    files w' = files truncated_store /\
    writes (trace w') = writes (trace truncated_store).
Proof.
  eexists. split; [vm_compute; reflexivity|].
  apply display_changes_no_file. left. vm_compute. reflexivity.
Defined.

(** X4.  The [UnicodeDecodeError] that [load_data] lets through reaches the
    caller of every operation that loads the file: with a store file that is
    not UTF-8, the operations of that store raise it and write nothing, and so
    do the reservation operations when it is the hotels file. *)
Theorem operations_raise_on_an_undecodable_store (w : world) (bytes : string) :
  Utf8.valid bytes = false ->
  (files w !! HOTELS_FILE = Some bytes ->
   (forall uuid4 name location rooms,
       Hotel.create_hotel uuid4 name location rooms w = Raise UnicodeDecodeError w) /\
   (forall hotel_id, Hotel.delete_hotel hotel_id w = Raise UnicodeDecodeError w) /\
   Hotel.display_hotels w = Raise UnicodeDecodeError w /\
   (forall uuid4 customer_id hotel_id reservations,
       stored w RESERVATIONS_FILE = Some reservations ->
       exists w',
         Reservation.create_reservation uuid4 customer_id hotel_id w
         = Raise UnicodeDecodeError w' /\
         files w' = files w /\ writes (trace w') = writes (trace w)) /\
   (forall reservation_id reservations,
       stored w RESERVATIONS_FILE = Some reservations ->
       exists w',
         Reservation.cancel_reservation reservation_id w = Raise UnicodeDecodeError w' /\
         files w' = files w /\ writes (trace w') = writes (trace w))) /\
  (files w !! CUSTOMERS_FILE = Some bytes ->
   (forall uuid4 name email,
       Customer.create_customer uuid4 name email w = Raise UnicodeDecodeError w) /\
   (forall customer_id,
       Customer.delete_customer customer_id w = Raise UnicodeDecodeError w) /\
   Customer.display_customers w = Raise UnicodeDecodeError w) /\
  (files w !! RESERVATIONS_FILE = Some bytes ->
   (forall uuid4 customer_id hotel_id,
       Reservation.create_reservation uuid4 customer_id hotel_id w
       = Raise UnicodeDecodeError w) /\
   (forall reservation_id,
       Reservation.cancel_reservation reservation_id w = Raise UnicodeDecodeError w)).
Proof.
  intros Hbad. split; [|split]; intros Hf;
    pose proof (load_data_undecodable _ _ w Hf Hbad) as L.
  - split; [|split; [|split; [|split]]].
    + intros. apply bind_raise, L.
    + intros. apply bind_raise, L.
    + exact L.
    + intros uuid4 customer_id hotel_id reservations Hr.
      destruct (load_data_stored' _ _ _ Hr) as (w1 & l1 & L1 & F1 & T1 & S1).
      exists w1. split; [|split; [exact F1 | rewrite T1; apply writes_snoc_prints]].
      unfold Reservation.create_reservation. rewrite (bind_return _ _ _ _ _ L1).
      apply bind_raise, load_data_undecodable with (bytes := bytes); [|exact Hbad].
      now rewrite F1.
    + intros reservation_id reservations Hr.
      destruct (load_data_stored' _ _ _ Hr) as (w1 & l1 & L1 & F1 & T1 & S1).
      exists w1. split; [|split; [exact F1 | rewrite T1; apply writes_snoc_prints]].
      unfold Reservation.cancel_reservation. rewrite (bind_return _ _ _ _ _ L1).
      apply bind_raise, load_data_undecodable with (bytes := bytes); [|exact Hbad].
      now rewrite F1.
  - split; [|split].
    + intros. apply bind_raise, L.
    + intros. apply bind_raise, L.
    + exact L.
  - split; intros; apply bind_raise, L.
Qed.

Lemma operations_raise_on_an_undecodable_store_witness :
  Hotel.create_hotel "h1" "Test Hotel" "NYC" 10 undecodable_store
  = Raise UnicodeDecodeError undecodable_store /\
  Hotel.delete_hotel "h1" undecodable_store = Raise UnicodeDecodeError undecodable_store /\
  (exists w',
     Reservation.create_reservation "r1" "c1" "h1" undecodable_store
     = Raise UnicodeDecodeError w' /\
     files w' = files undecodable_store /\
     writes (trace w') = writes (trace undecodable_store)).
Proof.
  destruct (operations_raise_on_an_undecodable_store undecodable_store
              (String "255" EmptyString) eq_refl) as [Hh _].
  destruct (Hh eq_refl) as (Hc & Hd & _ & Hr & _).
  split; [apply Hc|]. split; [apply Hd|].
  apply (Hr "r1" "c1" "h1" (PDict [])). reflexivity.
Defined.

(** ** Hotels *)

(** X5.  On a hotels store that loads as a mapping, [create_hotel] with a
    [rooms] of at most 4300 digits returns the new hotel with
    [available_rooms = rooms]; the listing then shows it under its identifier
    and shows every other hotel as before, and the call has added no integer
    that [json.dump] would refuse. *)
Theorem create_hotel_is_listed (uuid4 name location : string) (rooms : Z)
    (w : world) (hotels : list (string * pyval)) :
  stored w HOTELS_FILE = Some (PDict hotels) ->
  Z.abs rooms < int_limit ->
  exists w' hotels',
    Hotel.create_hotel uuid4 name location rooms w
    = Return (Hotel.init uuid4 name location rooms) w' /\
    Hotel.display_hotels w' = Return (PDict hotels') w' /\
    dict_get uuid4 hotels'
    = Some (Hotel.to_dict (Hotel.init uuid4 name location rooms)) /\
    available w' uuid4 = Some (PInt rooms) /\
    (forall other, other <> uuid4 -> dict_get other hotels' = dict_get other hotels) /\
    (printable (PDict hotels) -> printable (PDict hotels')).
Proof.
  intros Hh Hrooms.
  destruct (create_hotel_stored uuid4 name location rooms w hotels Hh)
    as (w' & lines & Hrun & F & T & Sh).
  eexists w', _. split; [exact Hrun|].
  split; [|split; [apply dict_get_set_eq|split; [|split]]].
  - apply display_written; [exact Sh|]. eexists. split; [|reflexivity].
    rewrite F. apply lookup_insert_eq.
  - eapply available_stored; [exact Sh | apply dict_get_set_eq | reflexivity].
  - intros other Hne. apply dict_get_set_ne. congruence.
  - unfold printable. change MAX_DEPTH with (S (S 98%nat)).
    intros Hp. apply fits_dict_set; [apply fits_hotel, Hrooms | exact Hp].
Qed.

Lemma create_hotel_is_listed_witness :
  exists w' hotels',
    Hotel.create_hotel "h2" "Test Hotel" "NYC" 10 miami_open
    = Return (Hotel.init "h2" "Test Hotel" "NYC" 10) w' /\
    Hotel.display_hotels w' = Return (PDict hotels') w' /\
    dict_get "h2" hotels'
    = Some (Hotel.to_dict (Hotel.init "h2" "Test Hotel" "NYC" 10)) /\
    available w' "h2" = Some (PInt 10) /\
    (forall other, other <> "h2" ->
      dict_get other hotels'
      = dict_get other
          [("h1", Hotel.to_dict (Hotel.init "h1" "Cancel Hotel" "Miami" 2))]) /\
    (printable (PDict [("h1", Hotel.to_dict (Hotel.init "h1" "Cancel Hotel" "Miami" 2))])
     -> printable (PDict hotels')).
Proof.
  apply (create_hotel_is_listed "h2" "Test Hotel" "NYC" 10 miami_open).
  - vm_compute. reflexivity.
  - vm_compute. reflexivity.
Defined.

(** X6.  When the hotels file holds a text that [json] rejects, [create_hotel]
    with a [rooms] of at most 4300 digits prints the diagnostic and goes on
    from an empty mapping: the file it saves holds the new hotel alone,
    whatever the rejected text held. *)
Theorem create_hotel_replaces_rejected_file
    (uuid4 name location : string) (rooms : Z) (w : world) (bytes text : string) :
  files w !! HOTELS_FILE = Some bytes ->
  Utf8.decode bytes = Utf8.Text text ->
  Json.loads text = Rejected ->
  Z.abs rooms < int_limit ->
  exists w',
    Hotel.create_hotel uuid4 name location rooms w
    = Return (Hotel.init uuid4 name location rooms) w' /\
    Hotel.display_hotels w'
    = Return (PDict [(uuid4, Hotel.to_dict (Hotel.init uuid4 name location rooms))]) w' /\
    printable (PDict [(uuid4, Hotel.to_dict (Hotel.init uuid4 name location rooms))]) /\
    trace w' = trace w ++ [Printed (diagnostic HOTELS_FILE);
                           Wrote HOTELS_FILE
                             (dumps (PDict [(uuid4, Hotel.to_dict
                                (Hotel.init uuid4 name location rooms))]))].
Proof.
  intros Hf Hd Hl Hrooms.
  pose proof (load_data_rejected HOTELS_FILE bytes text w Hf Hd Hl) as L.
  unfold Hotel.create_hotel.
  rewrite (bind_return _ _ _ _ _ L). py_simpl.
  rewrite py_setitem_dict. py_simpl.
  rewrite bind_unfold, save_data_eq. py_simpl.
  set (new := Hotel.init uuid4 name location rooms).
  change (dict_set (Hotel.hotel_id new) (Hotel.to_dict new) [])
    with [(uuid4, Hotel.to_dict new)].
  set (d := PDict [(uuid4, Hotel.to_dict new)]).
  assert (Hascii : Utf8.is_ascii (dumps d) = true) by apply is_ascii_iterencode.
  assert (Hwf : wf d).
  { apply (dict_set_wf uuid4 (Hotel.to_dict new) []);
      [apply wf_hotel | split; [constructor | exact I]]. }
  eexists. split; [reflexivity|]. split; [|split].
  - apply load_data_holding; [exact Hwf|]. cbn [files]. apply lookup_insert_eq.
  - unfold printable. change MAX_DEPTH with (S (S 98%nat)).
    apply (fits_dict_set _ _ uuid4 (Hotel.to_dict new) []);
      [apply fits_hotel, Hrooms | exact I].
  - cbn [trace]. rewrite (utf8_encode_ascii _ Hascii), <- List.app_assoc. reflexivity.
Qed.

Lemma create_hotel_replaces_rejected_file_witness :
  exists w',
    Hotel.create_hotel "h1" "Test Hotel" "NYC" 10 truncated_store
    = Return (Hotel.init "h1" "Test Hotel" "NYC" 10) w' /\
    Hotel.display_hotels w'
    = Return (PDict [("h1", Hotel.to_dict (Hotel.init "h1" "Test Hotel" "NYC" 10))]) w' /\
    printable (PDict [("h1", Hotel.to_dict (Hotel.init "h1" "Test Hotel" "NYC" 10))]) /\
    trace w' = trace truncated_store
               ++ [Printed (diagnostic HOTELS_FILE);
                   Wrote HOTELS_FILE
                     (dumps (PDict [("h1", Hotel.to_dict
                        (Hotel.init "h1" "Test Hotel" "NYC" 10))]))].
Proof.
  apply (create_hotel_replaces_rejected_file "h1" "Test Hotel" "NYC" 10
           truncated_store "{" "{"); vm_compute; reflexivity.
Defined.

(** X7.  When the store file holds a JSON document that is a number or a
    string, not an object, [create_hotel] and [create_customer] raise
    [TypeError] at the assignment of the new record and write nothing. *)
Theorem create_on_a_store_that_is_no_mapping
    (uuid4 name other : string) (rooms : Z) (w : world) (v : pyval) :
  (forall items, v <> PDict items) ->
  (stored w HOTELS_FILE = Some v ->
   exists w', Hotel.create_hotel uuid4 name other rooms w = Raise TypeError w' /\
              files w' = files w /\ writes (trace w') = writes (trace w)) /\
  (stored w CUSTOMERS_FILE = Some v ->
   exists w', Customer.create_customer uuid4 name other w = Raise TypeError w' /\
              files w' = files w /\ writes (trace w') = writes (trace w)).
Proof.
  intros Hv. split; intros Hs;
    destruct (load_data_stored' _ _ _ Hs) as (w1 & l1 & L1 & F1 & T1 & S1);
    [unfold Hotel.create_hotel | unfold Customer.create_customer];
    rewrite (bind_return _ _ _ _ _ L1); py_simpl;
    (destruct v as [z|s|items]; [| |destruct (Hv items eq_refl)]);
    (exists w1; split; [reflexivity|]; split; [exact F1|]);
    rewrite T1; apply writes_snoc_prints.
Qed.

Lemma create_on_a_store_that_is_no_mapping_witness :
  (exists w', Hotel.create_hotel "h1" "Inn" "Lima" 3 number_store = Raise TypeError w' /\
              files w' = files number_store /\
              writes (trace w') = writes (trace number_store)) /\
  (exists w', Customer.create_customer "c1" "Inn" "Lima" number_store = Raise TypeError w' /\
              files w' = files number_store /\
              writes (trace w') = writes (trace number_store)).
Proof.
  destruct (create_on_a_store_that_is_no_mapping "h1" "Inn" "Lima" 3 number_store (PInt 5))
    as [Hh Hc]; [discriminate|].
  split; [apply Hh | apply Hc]; vm_compute; reflexivity.
Defined.

(** X8.  [delete_hotel] of a hotel that is in the store returns [True]; the
    listing no longer shows it and shows every other hotel as before. The
    reservations file is not looked at: reservations that name the hotel stay
    as they are. *)
Theorem delete_hotel_removes_the_hotel
    (hotel_id : string) (w : world) (hotels : list (string * pyval)) (hotel : pyval) :
  stored w HOTELS_FILE = Some (PDict hotels) ->
  dict_get hotel_id hotels = Some hotel ->
  exists w' hotels',
    Hotel.delete_hotel hotel_id w = Return true w' /\
    Hotel.display_hotels w' = Return (PDict hotels') w' /\
    dict_get hotel_id hotels' = None /\
    (forall other, other <> hotel_id -> dict_get other hotels' = dict_get other hotels) /\
    stored w' RESERVATIONS_FILE = stored w RESERVATIONS_FILE.
Proof.
  intros Hh Hget.
  destruct (delete_hotel_present hotel_id w hotels hotel Hh Hget)
    as (w' & lines & Hrun & F & T & Sh).
  eexists w', _. split; [exact Hrun|].
  split; [|split; [|split]].
  - apply display_written; [exact Sh|]. eexists. split; [|reflexivity].
    rewrite F. apply lookup_insert_eq.
  - apply dict_get_del_eq, (stored_wf _ _ _ Hh).
  - intros other Hne. apply dict_get_del_ne. congruence.
  - apply stored_files. rewrite F. apply lookup_insert_ne. discriminate.
Qed.

Lemma delete_hotel_removes_the_hotel_witness :
  exists w' hotels',
    Hotel.delete_hotel "h1" full_house = Return true w' /\
    Hotel.display_hotels w' = Return (PDict hotels') w' /\
    dict_get "h1" hotels' = None /\
    (forall other, other <> "h1" ->
       dict_get other hotels'
       = dict_get other
           [("h1", PDict [("hotel_id", PStr "h1"); ("name", PStr "Reserve Hotel");
                          ("location", PStr "Chicago"); ("rooms", PInt 1);
                          ("available_rooms", PInt 0)])]) /\
    stored w' RESERVATIONS_FILE = stored full_house RESERVATIONS_FILE.
Proof.
  eapply (delete_hotel_removes_the_hotel "h1" full_house); vm_compute; reflexivity.
Defined.

(** X9.  Creating a hotel, with a [rooms] of at most 4300 digits, under an
    identifier the store does not hold yet and deleting it again gives back
    the store as it was, in the same order. *)
Theorem create_then_delete_hotel
    (uuid4 name location : string) (rooms : Z) (w : world)
    (hotels : list (string * pyval)) :
  stored w HOTELS_FILE = Some (PDict hotels) ->
  dict_get uuid4 hotels = None ->
  Z.abs rooms < int_limit ->
  exists new_hotel w1 w2,
    Hotel.create_hotel uuid4 name location rooms w = Return new_hotel w1 /\
    Hotel.delete_hotel (Hotel.hotel_id new_hotel) w1 = Return true w2 /\
    Hotel.display_hotels w2 = Return (PDict hotels) w2.
Proof.
  intros Hh Hfresh _.
  destruct (create_hotel_stored uuid4 name location rooms w hotels Hh)
    as (w1 & l1 & Hrun1 & F1 & T1 & Sh1).
  destruct (delete_hotel_present uuid4 w1 _ _ Sh1 (dict_get_set_eq _ _ _))
    as (w2 & l2 & Hrun2 & F2 & T2 & Sh2).
  rewrite dict_del_set_fresh in Sh2, F2 by exact Hfresh.
  eexists _, w1, w2. split; [exact Hrun1|]. split; [exact Hrun2|].
  apply display_written; [exact Sh2|]. eexists. split; [|reflexivity].
  rewrite F2. apply lookup_insert_eq.
Qed.

Lemma create_then_delete_hotel_witness :
  exists new_hotel w1 w2,
    Hotel.create_hotel "h2" "Delete Hotel" "LA" 5 miami_open = Return new_hotel w1 /\
    Hotel.delete_hotel (Hotel.hotel_id new_hotel) w1 = Return true w2 /\
    Hotel.display_hotels w2
    = Return (PDict [("h1", Hotel.to_dict (Hotel.init "h1" "Cancel Hotel" "Miami" 2))]) w2.
Proof.
  apply (create_then_delete_hotel "h2" "Delete Hotel" "LA" 5 miami_open);
    vm_compute; reflexivity.
Defined.

(** ** Customers *)

(** X10.  On a customers store that loads as a mapping, [create_customer]
    returns the new customer; the listing then shows the record under its
    identifier and shows every other customer as before. *)
Theorem create_customer_is_listed (uuid4 name email : string)
    (w : world) (customers : list (string * pyval)) :
  stored w CUSTOMERS_FILE = Some (PDict customers) ->
  exists w' customers',
    Customer.create_customer uuid4 name email w
    = Return (Customer.init uuid4 name email) w' /\
    Customer.display_customers w' = Return (PDict customers') w' /\
    dict_get uuid4 customers'
    = Some (PDict [("customer_id", PStr uuid4); ("name", PStr name);
                   ("email", PStr email)]) /\
    forall other, other <> uuid4 -> dict_get other customers' = dict_get other customers.
Proof.
  intros Hc.
  destruct (create_customer_exact uuid4 name email w customers Hc)
    as (w' & lines & Hrun & F & T & Sc).
  eexists w', _. split; [exact Hrun|].
  split; [|split; [apply dict_get_set_eq|]].
  - apply display_written; [exact Sc|]. eexists. split; [|reflexivity].
    rewrite F. apply lookup_insert_eq.
  - intros other Hne. apply dict_get_set_ne. congruence.
Qed.

Lemma create_customer_is_listed_witness :
  exists w' customers',
    Customer.create_customer "c1" "John Doe" "john@example.com" empty_stores
    = Return (Customer.init "c1" "John Doe" "john@example.com") w' /\
    Customer.display_customers w' = Return (PDict customers') w' /\
    dict_get "c1" customers'
    = Some (PDict [("customer_id", PStr "c1"); ("name", PStr "John Doe");
                   ("email", PStr "john@example.com")]) /\
    forall other, other <> "c1" -> dict_get other customers' = dict_get other [].
Proof.
  apply (create_customer_is_listed "c1" "John Doe" "john@example.com" empty_stores).
  vm_compute. reflexivity.
Defined.

(** X11.  [delete_customer] of a customer that is in the store returns [True]
    and removes that record alone. Reservations are not looked at: those made
    for the customer stay, and so does the room each of them holds. *)
Theorem delete_customer_removes_the_customer
    (customer_id : string) (w : world) (customers : list (string * pyval))
    (customer : pyval) :
  stored w CUSTOMERS_FILE = Some (PDict customers) ->
  dict_get customer_id customers = Some customer ->
  exists w' customers',
    Customer.delete_customer customer_id w = Return true w' /\
    Customer.display_customers w' = Return (PDict customers') w' /\
    dict_get customer_id customers' = None /\
    (forall other, other <> customer_id ->
                   dict_get other customers' = dict_get other customers) /\
    stored w' RESERVATIONS_FILE = stored w RESERVATIONS_FILE /\
    stored w' HOTELS_FILE = stored w HOTELS_FILE.
Proof.
  intros Hc Hget.
  destruct (delete_customer_present customer_id w customers customer Hc Hget)
    as (w' & lines & Hrun & F & T & Sc).
  eexists w', _. split; [exact Hrun|].
  split; [|split; [|split; [|split]]].
  - apply display_written; [exact Sc|]. eexists. split; [|reflexivity].
    rewrite F. apply lookup_insert_eq.
  - apply dict_get_del_eq, (stored_wf _ _ _ Hc).
  - intros other Hne. apply dict_get_del_ne. congruence.
  - apply stored_files. rewrite F. apply lookup_insert_ne. discriminate.
  - apply stored_files. rewrite F. apply lookup_insert_ne. discriminate.
Qed.

Lemma delete_customer_removes_the_customer_witness :
  exists w' customers',
    Customer.delete_customer "c1" one_customer = Return true w' /\
    Customer.display_customers w' = Return (PDict customers') w' /\
    dict_get "c1" customers' = None /\
    (forall other, other <> "c1" ->
       dict_get other customers'
       = dict_get other
           [("c1", Customer.to_dict (Customer.init "c1" "Alice" "alice@example.com"))]) /\
    stored w' RESERVATIONS_FILE = stored one_customer RESERVATIONS_FILE /\
    stored w' HOTELS_FILE = stored one_customer HOTELS_FILE.
Proof.
  eapply (delete_customer_removes_the_customer "c1" one_customer); vm_compute; reflexivity.
Defined.

(** X12.  Creating a customer under an identifier the store does not hold yet
    and deleting it again gives back the store as it was. *)
Theorem create_then_delete_customer
    (uuid4 name email : string) (w : world) (customers : list (string * pyval)) :
  stored w CUSTOMERS_FILE = Some (PDict customers) ->
  dict_get uuid4 customers = None ->
  exists new_customer w1 w2,
    Customer.create_customer uuid4 name email w = Return new_customer w1 /\
    Customer.delete_customer (Customer.customer_id new_customer) w1 = Return true w2 /\
    Customer.display_customers w2 = Return (PDict customers) w2.
Proof.
  intros Hc Hfresh.
  destruct (create_customer_exact uuid4 name email w customers Hc)
    as (w1 & l1 & Hrun1 & F1 & T1 & Sc1).
  destruct (delete_customer_present uuid4 w1 _ _ Sc1 (dict_get_set_eq _ _ _))
    as (w2 & l2 & Hrun2 & F2 & T2 & Sc2).
  rewrite dict_del_set_fresh in Sc2, F2 by exact Hfresh.
  eexists _, w1, w2. split; [exact Hrun1|]. split; [exact Hrun2|].
  apply display_written; [exact Sc2|]. eexists. split; [|reflexivity].
  rewrite F2. apply lookup_insert_eq.
Qed.

Lemma create_then_delete_customer_witness :
  exists new_customer w1 w2,
    Customer.create_customer "c1" "Jane Doe" "jane@example.com" miami_open
    = Return new_customer w1 /\
    Customer.delete_customer (Customer.customer_id new_customer) w1 = Return true w2 /\
    Customer.display_customers w2 = Return (PDict []) w2.
Proof.
  apply (create_then_delete_customer "c1" "Jane Doe" "jane@example.com" miami_open);
    vm_compute; reflexivity.
Defined.

(** ** Reservations *)



(** X14.  A hotel record that was damaged outside the program stops
    [create_reservation] before it writes: without an [available_rooms] key
    the call raises [KeyError], with a string under that key it raises
    [TypeError] at the decrement; in both cases no file changes. *)
Theorem create_reservation_on_a_damaged_hotel_record
    (uuid4 customer_id hotel_id : string) (w : world)
    (reservations : pyval) (hotels h : list (string * pyval)) :
  stored w RESERVATIONS_FILE = Some reservations ->
  stored w HOTELS_FILE = Some (PDict hotels) ->
  dict_get hotel_id hotels = Some (PDict h) ->
  (dict_get "available_rooms" h = None ->
   exists w', Reservation.create_reservation uuid4 customer_id hotel_id w
              = Raise KeyError w' /\
              files w' = files w /\ writes (trace w') = writes (trace w)) /\
  (forall s, dict_get "available_rooms" h = Some (PStr s) ->
   exists w', Reservation.create_reservation uuid4 customer_id hotel_id w
              = Raise TypeError w' /\
              files w' = files w /\ writes (trace w') = writes (trace w)).
Proof.
  intros Hr Hh Hget.
  destruct (load_data_stored' _ _ _ Hr) as (w1 & l1 & L1 & F1 & T1 & S1).
  rewrite <- S1 in Hh.
  destruct (load_data_stored' _ _ _ Hh) as (w2 & l2 & L2 & F2 & T2 & S2).
  assert (HT : writes (trace w2) = writes (trace w))
    by (rewrite T2, T1, !writes_snoc_prints; reflexivity).
  unfold Reservation.create_reservation.
  rewrite (bind_return _ _ _ _ _ L1), (bind_return _ _ _ _ _ L2).
  rewrite py_contains_dict. py_simpl.
  rewrite (dict_mem_get _ _ _ Hget). py_simpl.
  rewrite (py_getitem_dict _ _ _ Hget). py_simpl.
  split.
  - intros Hav. exists w2. split; [|split; [congruence | exact HT]].
    rewrite !bind_unfold. simpl. rewrite Hav. reflexivity.
  - intros s Hav. exists w2. split; [|split; [congruence | exact HT]].
    rewrite (py_getitem_dict _ _ _ Hav). py_simpl.
    unfold py_iadd_item2.
    rewrite (py_getitem_dict _ _ _ Hget). py_simpl.
    rewrite (py_getitem_dict _ _ _ Hav). py_simpl.
    reflexivity.
Qed.

Lemma create_reservation_on_a_damaged_hotel_record_witness :
  (exists w', Reservation.create_reservation "r1" "c1" "h1" damaged_records
              = Raise KeyError w' /\
              files w' = files damaged_records /\
              writes (trace w') = writes (trace damaged_records)) /\
  (exists w', Reservation.create_reservation "r1" "c1" "h2" damaged_records
              = Raise TypeError w' /\
              files w' = files damaged_records /\
              writes (trace w') = writes (trace damaged_records)).
Proof.
  split.
  - destruct (create_reservation_on_a_damaged_hotel_record "r1" "c1" "h1"
                damaged_records (PDict [])
                [("h1", PDict [("rooms", PInt 3)]);
                 ("h2", PDict [("rooms", PInt 3); ("available_rooms", PStr "3")])]
                [("rooms", PInt 3)]) as [H _]; try (vm_compute; reflexivity).
    apply H. reflexivity.
  - destruct (create_reservation_on_a_damaged_hotel_record "r1" "c1" "h2"
                damaged_records (PDict [])
                [("h1", PDict [("rooms", PInt 3)]);
                 ("h2", PDict [("rooms", PInt 3); ("available_rooms", PStr "3")])]
                [("rooms", PInt 3); ("available_rooms", PStr "3")]) as [_ H];
      try (vm_compute; reflexivity).
    apply (H "3"). reflexivity.
Defined.

(** X15.  A hotel with [N] rooms free takes [N] reservations and no more:
    after any number of requests for it, made one after the other, it has [max
    0 (N - requests)] rooms free, and once the requests have reached [N] every
    further one returns [None] and changes no file. *)
Theorem a_hotel_takes_as_many_reservations_as_it_has_rooms
    (uuids : list string) (customer_id hotel_id : string) :
  forall (w : world) (reservations : list (string * pyval)) (N : Z),
    stored w RESERVATIONS_FILE = Some (PDict reservations) ->
    available w hotel_id = Some (PInt N) ->
    0 <= N ->
    exists w',
      run (requests uuids customer_id hotel_id) w = Return tt w' /\
      available w' hotel_id = Some (PInt (Z.max 0 (N - Z.of_nat (length uuids)))) /\
      (N <= Z.of_nat (length uuids) ->
       forall uuid4 customer,
       exists w'',
         Reservation.create_reservation uuid4 customer hotel_id w' = Return None w'' /\
         files w'' = files w').
Proof.
  induction uuids as [|u uuids IH]; intros w reservations N Hr Hav HN.
  - exists w. split; [reflexivity|]. split.
    + simpl. rewrite Z.sub_0_r, Z.max_r by lia. exact Hav.
    + simpl. intros HN0 uuid4 customer.
      assert (N = 0) as -> by lia.
      apply available_inv in Hav as (hotels & h & Hh & Hget & Hav).
      destruct (create_reservation_refusal uuid4 customer hotel_id w _ hotels Hr Hh)
        as (w'' & Hrun & F & _); [|eauto].
      right. exists (PDict h). split; [exact Hget | exact Hav].
  - pose proof Hav as Hav0.
    apply available_inv in Hav as (hotels & h & Hh & Hget & Hav).
    unfold requests. simpl map. fold (requests uuids customer_id hotel_id).
    destruct (Z.eq_dec N 0) as [->|Hne].
    + destruct (create_reservation_refusal u customer_id hotel_id w _ hotels Hr Hh)
        as (w1 & Hrun & F & _).
      { right. exists (PDict h). split; [exact Hget | exact Hav]. }
      assert (Hr1 : stored w1 RESERVATIONS_FILE = Some (PDict reservations))
        by (rewrite <- Hr; apply stored_files; now rewrite F).
      assert (Hav1 : available w1 hotel_id = Some (PInt 0))
        by (rewrite <- Hav0; apply available_same_files, F).
      destruct (IH w1 reservations 0 Hr1 Hav1 ltac:(lia)) as (w' & Hrun' & Hav' & Hfull).
      exists w'. split; [|split].
      * rewrite (run_cons (CreateReservation u customer_id hotel_id) _ _ _
                   (perform_return _ _ _ _ Hrun)). exact Hrun'.
      * rewrite Hav'. f_equal. f_equal. simpl length. lia.
      * intros _. apply Hfull. lia.
    + destruct (create_reservation_success u customer_id hotel_id w
                  reservations hotels h N Hr Hh Hget Hav Hne)
        as (w1 & lines & Hrun & F & T & Sh & Sr).
      pose proof (available_with_available _ _ _ _ _ Sh) as Hav1.
      destruct (IH w1 _ (N - 1) Sr Hav1 ltac:(lia)) as (w' & Hrun' & Hav' & Hfull).
      exists w'. split; [|split].
      * rewrite (run_cons (CreateReservation u customer_id hotel_id) _ _ _
                   (perform_return _ _ _ _ Hrun)). exact Hrun'.
      * rewrite Hav'. f_equal. f_equal. simpl length. lia.
      * intros HN'. apply Hfull. simpl length in HN'. lia.
Qed.

Lemma a_hotel_takes_as_many_reservations_as_it_has_rooms_witness :
  exists w',
    run (requests ["r1"; "r2"; "r3"] "c1" "h1") miami_open = Return tt w' /\
    available w' "h1" = Some (PInt (Z.max 0 (2 - Z.of_nat (length ["r1"; "r2"; "r3"])))) /\
    (2 <= Z.of_nat (length ["r1"; "r2"; "r3"]) ->
     forall uuid4 customer,
     exists w'',
       Reservation.create_reservation uuid4 customer "h1" w' = Return None w'' /\
       files w'' = files w').
Proof.
  apply (a_hotel_takes_as_many_reservations_as_it_has_rooms
           ["r1"; "r2"; "r3"] "c1" "h1" miami_open []).
  - vm_compute. reflexivity.
  - vm_compute. reflexivity.
  - lia.
Defined.

(** X16.  Once [delete_hotel] has removed a hotel, [create_reservation] for it
    returns [None] and changes no file, whoever asks. *)
Theorem no_reservation_for_a_deleted_hotel
    (uuid4 customer_id hotel_id : string) (w : world)
    (hotels : list (string * pyval)) (hotel reservations : pyval) :
  stored w HOTELS_FILE = Some (PDict hotels) ->
  stored w RESERVATIONS_FILE = Some reservations ->
  dict_get hotel_id hotels = Some hotel ->
  exists w1 w2,
    Hotel.delete_hotel hotel_id w = Return true w1 /\
    Reservation.create_reservation uuid4 customer_id hotel_id w1 = Return None w2 /\
    files w2 = files w1.
Proof.
  intros Hh Hr Hget.
  destruct (delete_hotel_present hotel_id w hotels hotel Hh Hget)
    as (w1 & lines & Hrun1 & F1 & T1 & Sh1).
  assert (Hr1 : stored w1 RESERVATIONS_FILE = Some reservations)
    by (rewrite <- Hr; eapply stored_other; [exact F1 | discriminate]).
  destruct (create_reservation_refusal uuid4 customer_id hotel_id w1 _ _ Hr1 Sh1)
    as (w2 & Hrun2 & F2 & _).
  { left. apply dict_get_del_eq, (stored_wf _ _ _ Hh). }
  exists w1, w2. auto.
Qed.

Lemma no_reservation_for_a_deleted_hotel_witness :
  exists w1 w2,
    Hotel.delete_hotel "h1" miami_open = Return true w1 /\
    Reservation.create_reservation "r1" "c1" "h1" w1 = Return None w2 /\
    files w2 = files w1.
Proof.
  eapply (no_reservation_for_a_deleted_hotel "r1" "c1" "h1" miami_open);
    vm_compute; reflexivity.
Defined.





(** ** The files an operation reads *)

(** X19.  The reservation operations read the hotels and the reservations
    files and nothing else: in two worlds that differ only in other files, the
    customers file among them, [create_reservation] and [cancel_reservation]
    return the same value or raise the same exception, print and write the
    same, and leave worlds that still differ only there. So the [customer_id]
    of a reservation is never looked up. *)
Theorem reservations_read_hotels_and_reservations_only
    (paths : list string) (w1 w2 : world)
    (uuid4 customer_id hotel_id reservation_id : string) :
  HOTELS_FILE ∉ paths -> RESERVATIONS_FILE ∉ paths ->
  same_except paths w1 w2 ->
  same_result paths
    (Reservation.create_reservation uuid4 customer_id hotel_id w1)
    (Reservation.create_reservation uuid4 customer_id hotel_id w2) /\
  same_result paths
    (Reservation.cancel_reservation reservation_id w1)
    (Reservation.cancel_reservation reservation_id w2).
Proof.
  intros Hh Hr Hw. split; revert w1 w2 Hw.
  - change (ignores paths (Reservation.create_reservation uuid4 customer_id hotel_id)).
    unfold Reservation.create_reservation. unread.
  - change (ignores paths (Reservation.cancel_reservation reservation_id)).
    unfold Reservation.cancel_reservation. unread.
Qed.

Lemma reservations_read_hotels_and_reservations_only_witness :
  same_except [CUSTOMERS_FILE] full_house customers_undecodable /\
  (exists w1 w2,
     Reservation.cancel_reservation "r1" full_house = Return true w1 /\
     Reservation.cancel_reservation "r1" customers_undecodable = Return true w2 /\
     same_except [CUSTOMERS_FILE] w1 w2).
Proof.
  assert (H : same_except [CUSTOMERS_FILE] full_house customers_undecodable).
  { split; [reflexivity|]. intros p Hp. apply not_elem_of_cons_l in Hp.
    unfold customers_undecodable. cbn [files]. rewrite lookup_insert_ne by congruence.
    reflexivity. }
  split; [exact H|].
  destruct (reservations_read_hotels_and_reservations_only [CUSTOMERS_FILE]
              full_house customers_undecodable "r2" "c1" "h1" "r1") as [_ Hc].
  - apply (bool_decide_unpack _). reflexivity.
  - apply (bool_decide_unpack _). reflexivity.
  - exact H.
  - revert Hc.
    destruct (Reservation.cancel_reservation "r1" full_house) as [a1 x1|e1 x1|] eqn:E1.
    2,3: vm_compute in E1; discriminate.
    destruct (Reservation.cancel_reservation "r1" customers_undecodable)
      as [a2 x2|e2 x2|] eqn:E2.
    2,3: vm_compute in E2; discriminate.
    intros [<- Hw]. exists x1, x2.
    assert (a1 = true) as -> by (vm_compute in E1; congruence).
    auto.
Defined.

(** X20.  The hotel operations read the hotels file and nothing else, the
    customer operations the customers file and nothing else: what the other
    files hold, reservations included, changes neither what they return or
    raise nor what they write. So [delete_hotel] and [delete_customer] never
    ask whether a reservation still names the record. *)
Theorem hotels_and_customers_read_their_own_file_only
    (paths : list string) (w1 w2 : world)
    (uuid4 name other id : string) (rooms : Z) :
  same_except paths w1 w2 ->
  (HOTELS_FILE ∉ paths ->
   same_result paths (Hotel.create_hotel uuid4 name other rooms w1)
                     (Hotel.create_hotel uuid4 name other rooms w2) /\
   same_result paths (Hotel.delete_hotel id w1) (Hotel.delete_hotel id w2) /\
   same_result paths (Hotel.display_hotels w1) (Hotel.display_hotels w2)) /\
  (CUSTOMERS_FILE ∉ paths ->
   same_result paths (Customer.create_customer uuid4 name other w1)
                     (Customer.create_customer uuid4 name other w2) /\
   same_result paths (Customer.delete_customer id w1) (Customer.delete_customer id w2) /\
   same_result paths (Customer.display_customers w1) (Customer.display_customers w2)).
Proof.
  intros Hw. split; intros Hp; (split; [|split]); revert w1 w2 Hw.
  - change (ignores paths (Hotel.create_hotel uuid4 name other rooms)).
    unfold Hotel.create_hotel. unread.
  - change (ignores paths (Hotel.delete_hotel id)).
    unfold Hotel.delete_hotel. unread.
  - change (ignores paths Hotel.display_hotels).
    unfold Hotel.display_hotels. unread.
  - change (ignores paths (Customer.create_customer uuid4 name other)).
    unfold Customer.create_customer. unread.
  - change (ignores paths (Customer.delete_customer id)).
    unfold Customer.delete_customer. unread.
  - change (ignores paths Customer.display_customers).
    unfold Customer.display_customers. unread.
Qed.

Lemma hotels_and_customers_read_their_own_file_only_witness :
  same_except [RESERVATIONS_FILE] full_house reservations_undecodable /\
  (exists w1 w2,
     Hotel.delete_hotel "h1" full_house = Return true w1 /\
     Hotel.delete_hotel "h1" reservations_undecodable = Return true w2 /\
     same_except [RESERVATIONS_FILE] w1 w2).
Proof.
  assert (H : same_except [RESERVATIONS_FILE] full_house reservations_undecodable).
  { split; [reflexivity|]. intros p Hp. apply not_elem_of_cons_l in Hp.
    unfold reservations_undecodable. cbn [files]. rewrite lookup_insert_ne by congruence.
    reflexivity. }
  split; [exact H|].
  destruct (hotels_and_customers_read_their_own_file_only [RESERVATIONS_FILE]
              full_house reservations_undecodable "h2" "Inn" "Lima" "h1" 3 H)
    as [Hh _].
  destruct Hh as (_ & Hd & _); [apply (bool_decide_unpack _); reflexivity|].
  revert Hd.
  destruct (Hotel.delete_hotel "h1" full_house) as [a1 x1|e1 x1|] eqn:E1.
  2,3: vm_compute in E1; discriminate.
  destruct (Hotel.delete_hotel "h1" reservations_undecodable) as [a2 x2|e2 x2|] eqn:E2.
  2,3: vm_compute in E2; discriminate.
  intros [<- Hw]. exists x1, x2.
  assert (a1 = true) as -> by (vm_compute in E1; congruence).
  auto.
Defined.

(** ** Runs of calls *)

(** X21.  While the three stores hold records in the shape the program
    writes, no call raises: any sequence of calls returns and leaves the
    stores holding records in that shape, provided every integer on file and
    every [rooms] given to [create_hotel], of whatever sign, stays as many
    below [int_limit] as the run has calls; no integer on file then has
    more digits than [json.dump] prints.  Empty or missing stores are such
    stores. *)
Theorem no_call_raises_on_stores_in_shape (calls : list call) (w : world) :
  stores_in_shape w ->
  stores_fit (int_limit - Z.of_nat (length calls)) w ->
  Forall (rooms_below (int_limit - Z.of_nat (length calls))) calls ->
  exists w', run calls w = Return tt w' /\ stores_in_shape w' /\ stores_fit int_limit w'.
Proof.
  intros (hs & cs & rs & Hh & Hc & Hr & Hshape) Hfit Hrooms.
  destruct (run_apply_calls calls w (Stores hs cs rs))
    as (w' & Hrun & (Hh' & Hc' & Hr') & Hshape' & _).
  - repeat split; assumption.
  - exact Hshape.
  - assert (Hfit0 : mappings_fit (int_limit - Z.of_nat (length calls)) (Stores hs cs rs)).
    { split; [|split].
      - apply (Hfit HOTELS_FILE (PDict hs)); [left | exact Hh].
      - apply (Hfit CUSTOMERS_FILE (PDict cs)); [right; left | exact Hc].
      - apply (Hfit RESERVATIONS_FILE (PDict rs)); [right; right; left | exact Hr]. }
    pose proof (fit_apply_calls calls _ _ Hfit0 Hrooms) as (Fh & Fc & Fr).
    replace (int_limit - Z.of_nat (length calls) + Z.of_nat (length calls))
      with int_limit in Fh, Fc, Fr by lia.
    exists w'. split; [exact Hrun|]. split.
    + eexists _, _, _. eauto.
    + intros path data Hpath Hdata.
      repeat (apply elem_of_cons in Hpath as [->|Hpath]); [| | |inversion Hpath];
        congruence.
Qed.

Lemma no_call_raises_on_stores_in_shape_witness :
  exists w',
    run [CreateReservation "r1" "c1" "h1";
         CreateHotel "h1" "Inn" "Lima" (-1);
         CreateReservation "r1" "c1" "h1";
         CreateReservation "r1" "c2" "h1";
         DeleteHotel "h1";
         CancelReservation "r1";
         CancelReservation "r1";
         DeleteCustomer "c1"] empty_stores = Return tt w' /\
    stores_in_shape w' /\ stores_fit int_limit w'.
Proof.
  apply no_call_raises_on_stores_in_shape.
  - exists [], [], []. repeat split; intros ? ? ?; discriminate.
  - intros path data Hpath Hdata.
    repeat (apply elem_of_cons in Hpath as [->|Hpath]); [| | |inversion Hpath];
      vm_compute in Hdata; inversion Hdata; exact I.
  - repeat (apply Forall_cons; split); try apply Forall_nil; try exact I;
      vm_compute; reflexivity.
Defined.

(** X22.  From empty stores, when [uuid4] gives no hotel identifier and no
    reservation identifier twice and every [rooms] given to [create_hotel],
    of whatever sign, stays as many below [int_limit] as the run has calls,
    every run of calls returns and leaves, for every hotel in the store,
    [available_rooms] plus the number of reservations that name the hotel
    equal to [rooms]: each reservation on file holds exactly one room.  No
    integer on file has more digits than [json.dump] prints. *)
Theorem rooms_free_and_booked_add_up (calls : list call) :
  NoDup (hotel_uuids calls) ->
  NoDup (reservation_uuids calls) ->
  Forall (rooms_below (int_limit - Z.of_nat (length calls))) calls ->
  exists w hotels reservations,
    run calls empty_stores = Return tt w /\
    stored w HOTELS_FILE = Some (PDict hotels) /\
    stored w RESERVATIONS_FILE = Some (PDict reservations) /\
    printable (PDict hotels) /\
    forall hotel_id hotel,
      dict_get hotel_id hotels = Some hotel ->
      exists rooms available,
        field "rooms" hotel = Some (PInt rooms) /\
        field "available_rooms" hotel = Some (PInt available) /\
        available + booked hotel_id reservations = rooms.
Proof.
  intros Nh Nr Hrooms.
  destruct (run_apply_calls calls empty_stores (Stores [] [] []) shows_empty shaped_empty)
    as (w & Hrun & (Hh & _ & Hr) & _).
  destruct (balanced_apply_calls calls (Stores [] [] []) [] [])
    as (uh & ur & Hhot & _); try assumption.
  - constructor.
  - constructor.
  - split; intros ? ? ?; discriminate.
  - intros u _ Hin. inversion Hin.
  - intros u _ Hin. inversion Hin.
  - pose proof (fit_apply_calls calls _ _ (fit_empty _) Hrooms) as (Hfit & _).
    replace (int_limit - Z.of_nat (length calls) + Z.of_nat (length calls))
      with int_limit in Hfit by lia.
    eexists w, _, _.
    split; [exact Hrun|]. split; [exact Hh|]. split; [exact Hr|].
    split; [exact Hfit|].
    intros id hotel Hget. destruct (Hhot id hotel Hget) as (_ & Hrest). exact Hrest.
Qed.

Lemma rooms_free_and_booked_add_up_witness :
  exists w hotels reservations,
    run [CreateHotel "h1" "Reserve Hotel" "Chicago" 3;
         CreateCustomer "c1" "Alice" "alice@example.com";
         CreateReservation "r1" "c1" "h1";
         CreateReservation "r2" "c1" "h1";
         CancelReservation "r1";
         CreateHotel "h2" "Inn" "Lima" (-1);
         CreateReservation "r3" "c1" "h2"] empty_stores = Return tt w /\
    stored w HOTELS_FILE = Some (PDict hotels) /\
    stored w RESERVATIONS_FILE = Some (PDict reservations) /\
    printable (PDict hotels) /\
    forall hotel_id hotel,
      dict_get hotel_id hotels = Some hotel ->
      exists rooms available,
        field "rooms" hotel = Some (PInt rooms) /\
        field "available_rooms" hotel = Some (PInt available) /\
        available + booked hotel_id reservations = rooms.
Proof.
  apply rooms_free_and_booked_add_up;
    [apply (bool_decide_unpack _); vm_compute; reflexivity
    |apply (bool_decide_unpack _); vm_compute; reflexivity|].
  repeat (apply Forall_cons; split); try apply Forall_nil; try exact I;
    vm_compute; reflexivity.
Defined.

(** ** The unit tests *)

(** X23.  Whatever the hotels and customers stores hold, as long as they load
    as mappings, the four tests of hotels and customers pass; the hotel of
    [test_create_hotel] stays in the store after the test, with its ten rooms
    free. *)
Theorem hotel_and_customer_tests_pass (uuid4 : string) (w : world) :
  (forall hotels,
      stored w HOTELS_FILE = Some (PDict hotels) ->
      (exists w', test_create_hotel uuid4 w = Return Passed w' /\
                  available w' uuid4 = Some (PInt 10)) /\
      (exists w', test_delete_hotel uuid4 w = Return Passed w')) /\
  (forall customers,
      stored w CUSTOMERS_FILE = Some (PDict customers) ->
      (exists w', test_create_customer uuid4 w = Return Passed w') /\
      (exists w', test_delete_customer uuid4 w = Return Passed w')).
Proof.
  split.
  - intros hotels Hh. split.
    + destruct (create_hotel_stored uuid4 "Test Hotel" "NYC" 10 w hotels Hh)
        as (w1 & l1 & Hrun1 & F1 & T1 & Sh1).
      assert (Hload := display_written w1 _ _ Sh1).
      rewrite F1, lookup_insert_eq in Hload. specialize (Hload ltac:(eauto)).
      exists w1. split.
      * unfold test_create_hotel. rewrite (bind_return _ _ _ _ _ Hrun1).
        rewrite (bind_return _ _ _ _ _ Hload).
        unfold assertIn. rewrite py_contains_dict. py_simpl.
        simpl Hotel.hotel_id. rewrite dict_mem_set. reflexivity.
      * eapply available_stored; [exact Sh1 | apply dict_get_set_eq | reflexivity].
    + destruct (create_hotel_stored uuid4 "Delete Hotel" "LA" 5 w hotels Hh)
        as (w1 & l1 & Hrun1 & F1 & T1 & Sh1).
      destruct (delete_hotel_present uuid4 w1 _ _ Sh1 (dict_get_set_eq _ _ _))
        as (w2 & l2 & Hrun2 & _).
      exists w2. unfold test_delete_hotel. rewrite (bind_return _ _ _ _ _ Hrun1).
      simpl Hotel.hotel_id. rewrite (bind_return _ _ _ _ _ Hrun2). reflexivity.
  - intros customers Hc. split.
    + destruct (create_customer_exact uuid4 "John Doe" "john@example.com" w customers Hc)
        as (w1 & l1 & Hrun1 & F1 & T1 & Sc1).
      assert (Hload := display_written w1 _ _ Sc1).
      rewrite F1, lookup_insert_eq in Hload. specialize (Hload ltac:(eauto)).
      exists w1. unfold test_create_customer. rewrite (bind_return _ _ _ _ _ Hrun1).
      rewrite (bind_return _ _ _ _ _ Hload).
      unfold assertIn. rewrite py_contains_dict. py_simpl.
      simpl Customer.customer_id. rewrite dict_mem_set. reflexivity.
    + destruct (create_customer_exact uuid4 "Jane Doe" "jane@example.com" w customers Hc)
        as (w1 & l1 & Hrun1 & F1 & T1 & Sc1).
      destruct (delete_customer_present uuid4 w1 _ _ Sc1 (dict_get_set_eq _ _ _))
        as (w2 & l2 & Hrun2 & _).
      exists w2. unfold test_delete_customer. rewrite (bind_return _ _ _ _ _ Hrun1).
      simpl Customer.customer_id. rewrite (bind_return _ _ _ _ _ Hrun2). reflexivity.
Qed.

Lemma hotel_and_customer_tests_pass_witness :
  ((exists w', test_create_hotel "u1" miami_open = Return Passed w' /\
               available w' "u1" = Some (PInt 10)) /\
   (exists w', test_delete_hotel "u1" miami_open = Return Passed w')) /\
  ((exists w', test_create_customer "u1" miami_open = Return Passed w') /\
   (exists w', test_delete_customer "u1" miami_open = Return Passed w')).
Proof.
  destruct (hotel_and_customer_tests_pass "u1" miami_open) as [Hh Hc].
  split; [eapply Hh | eapply Hc]; vm_compute; reflexivity.
Defined.

(** X24.  Whatever the three stores hold, as long as they load as mappings,
    the two reservation tests pass: the hotel each of them creates has rooms
    free, so the reservation is made, is on file, and is cancelled. *)
Theorem reservation_tests_pass
    (hotel_uuid4 customer_uuid4 reservation_uuid4 : string) (w : world)
    (hotels customers reservations : list (string * pyval)) :
  stored w HOTELS_FILE = Some (PDict hotels) ->
  stored w CUSTOMERS_FILE = Some (PDict customers) ->
  stored w RESERVATIONS_FILE = Some (PDict reservations) ->
  (exists w', test_create_reservation hotel_uuid4 customer_uuid4 reservation_uuid4 w
              = Return Passed w' /\
              available w' hotel_uuid4 = Some (PInt 2)) /\
  (exists w', test_cancel_reservation hotel_uuid4 customer_uuid4 reservation_uuid4 w
              = Return Passed w' /\
              available w' hotel_uuid4 = Some (PInt 2)).
Proof.
  intros Hh Hc Hr. split.
  - destruct (hotel_customer_reservation hotel_uuid4 customer_uuid4 reservation_uuid4
                "Reserve Hotel" "Chicago" "Alice" "alice@example.com" 3 w
                hotels customers reservations Hh Hc Hr ltac:(lia))
      as (w1 & w2 & w3 & Hrun1 & Hrun2 & Hrun3 & Hload & Hav).
    exists w3. split; [|exact Hav].
    unfold test_create_reservation.
    rewrite (bind_return _ _ _ _ _ Hrun1), (bind_return _ _ _ _ _ Hrun2).
    simpl Customer.customer_id. simpl Hotel.hotel_id.
    rewrite (bind_return _ _ _ _ _ Hrun3). cbv beta iota.
    rewrite (bind_return _ _ _ _ _ Hload).
    unfold assertIn. rewrite py_contains_dict. py_simpl.
    simpl Reservation.reservation_id. rewrite dict_mem_set. reflexivity.
  - destruct (hotel_customer_reservation hotel_uuid4 customer_uuid4 reservation_uuid4
                "Cancel Hotel" "Miami" "Bob" "bob@example.com" 2 w
                hotels customers reservations Hh Hc Hr ltac:(lia))
      as (w1 & w2 & w3 & Hrun1 & Hrun2 & Hrun3 & Hload & Hav).
    apply available_inv in Hav as (hotels3 & h3 & Sh3 & Hget3 & Hav3).
    assert (Sr3 : stored w3 RESERVATIONS_FILE
                  = Some (PDict (dict_set reservation_uuid4
                                   (Reservation.to_dict
                                      (Reservation.init reservation_uuid4
                                         customer_uuid4 hotel_uuid4))
                                   reservations)))
      by (unfold stored; now rewrite Hload).
    destruct (cancel_reservation_hotel_present reservation_uuid4 hotel_uuid4 w3
                _ hotels3 h3 _ (2 - 1) Sr3 Sh3 (dict_get_set_eq _ _ _) eq_refl
                Hget3 Hav3) as (w4 & l4 & Hrun4 & F4 & T4 & Sh4 & Sr4).
    exists w4. split; [|eapply available_with_available, Sh4].
    unfold test_cancel_reservation.
    rewrite (bind_return _ _ _ _ _ Hrun1), (bind_return _ _ _ _ _ Hrun2).
    simpl Customer.customer_id. simpl Hotel.hotel_id.
    rewrite (bind_return _ _ _ _ _ Hrun3). cbv beta iota.
    simpl Reservation.reservation_id.
    rewrite (bind_return _ _ _ _ _ Hrun4). reflexivity.
Qed.

Lemma reservation_tests_pass_witness :
  (exists w', test_create_reservation "h1" "c1" "r1" full_house = Return Passed w' /\
              available w' "h1" = Some (PInt 2)) /\
  (exists w', test_cancel_reservation "h1" "c1" "r1" full_house = Return Passed w' /\
              available w' "h1" = Some (PInt 2)).
Proof.
  eapply (reservation_tests_pass "h1" "c1" "r1" full_house); vm_compute; reflexivity.
Defined.
